(* ===== verification/_CoqProject ===== *)
-Q . S2P
Prelude.v
PyStr.v
Json.v
Regex.v
Segmenter.v
Normalizer.v
Fetch.v
Metadata.v
Bilingual.v
Upload.v
Collector.v
Pipeline.v
