(* ===== verification/Prelude.v ===== *)
(** * A verification library for the VIGO SFC bilingual collector

    The program ([src/auto_collect_upload.py], one Python module) collects
    regulatory documents of the Hong Kong SFC, cuts them into retrieval
    chunks and emits an English and a Chinese record per chunk.  Its parts:

    - text primitives: Python [str] values and the [str] methods the module
      calls ([strip], [split], [join], [in], [lower], slicing) -- [PyStr.v];
    - the regular-expression engine of Python's [re] module, which the
      module calls for every text transformation ([re.sub], [re.split])
      -- [Regex.v];
    - the segmenter [smart_chunk_text] (lines 111-193): structural split on
      numbered headings, paragraph fall-back, greedy packing, merge of short
      chunks and part labels -- [Segmenter.v];
    - the PDF text normalizer [extract_text_from_pdf] (lines 67-105):
      page selection, joining and four cleaning substitutions, with
      pdfplumber as an oracle -- [Normalizer.v];
    - the fetcher [fetch_sfc_content] (lines 199-243): HTTP status, PDF/HTML
      dispatch, HTML cleaning and the 200-character floor, with
      [requests.get] as an oracle -- [Fetch.v];
    - the metadata builder inside [create_bilingual_chunks] (keyword tags,
      type labels) and [build_official_url] -- [Metadata.v];
    - the bilingual expander [create_bilingual_chunks] with its translation
      collaborator [translate_to_chinese]/[deepseek_chat] -- [Bilingual.v],
      which also declares [event], the effects the program has on the
      outside world;
    - JSON values as [json.loads] builds them and the Python operations the
      program applies to them -- [Json.v];
    - the uploader: [generate_embedding] (three attempts with back-off),
      [generate_questions] and [upload_chunk] (lines 249-342) -- [Upload.v];
    - the collector: [scan_source] and [fetch_all_sources] with the
      Charltons page (lines 446-570) -- [Collector.v];
    - the driver: [save_backup] and [main] with its deduplication, upload
      loop and statistics (lines 576-763) -- [Pipeline.v].

    Control flow in the code: [main] -> [fetch_all_sources] -> [scan_source]
    -> [fetch_sfc_content] (-> [extract_text_from_pdf]) -> [smart_chunk_text];
    then [create_bilingual_chunks] per document, [save_backup], and
    [upload_chunk] (-> [generate_embedding], [generate_questions]) per record.

    Modelling conventions.
    - A Python [str] is a list of Unicode code points ([list Z]); [len] is
      [length].  ASCII literals are written with [lit], other characters by
      their code point, so lengths of Chinese text are counted as Python
      counts them.
    - Character classes of [re] ([\s], [\d]) and [str.isspace] are the exact
      Unicode tables of CPython 3.11.
    - [str.lower] is Unicode case mapping from Python's library; the
      components that call it take it as a section variable, and the
      witnesses instantiate it with ASCII lowering, which agrees with Python
      on ASCII text.
    - Collaborators that reach the network are oracles.  Those whose
      answer is fixed by the request (the SFC pages, pdfplumber,
      BeautifulSoup, the translation of one document) are functions of the
      request; the services [upload_chunk] calls, which may fail and then
      recover, answer as a function of the effects performed before the
      call ([io] below).  The calls, the [time.sleep] pauses and the write
      of the backup file are recorded in a trace of [event]s ([traced]), so
      that ordering, throttling and retries are stated over the trace.
    - Python's [None] returned by [generate_embedding] and [upload_chunk]
      is the JSON [null]; exceptions caught by the code are [None] values
      of an [option] or a constructor of the reply type.
    - Loops over the input are folds; the loops of the regex engine that are
      not structural run on fuel, and a theorem shows the fuel given is
      always enough.

    Each component is a [Module] named after its file; the operations that
    take collaborators ([pdf_open], [http_get], [chat_api], [lower], the
    date) are in a [Section] whose variables are those collaborators.

    What the theorems show (claim numbers in the doc comments).
    - Segmenter: [smart_chunk_text] keeps every non-whitespace character of
      the text in order (C1); after the merge only the first segment can be
      shorter than [CHUNK_MIN] (C2); packed chunks exceed [max_size] by at
      most the two-character joiner unless they are one paragraph (C3); a
      short text comes back unchanged and unlabelled, while a long text
      that the merge turns into one segment is labelled with the title (C4).
    - Metadata: keyword tags are sound (C5), complete up to the cap of six
      (C6), and in dictionary order whatever the text's order (C7).
    - Bilingual: one chat call and one one-second pause per chunk, in order
      (C8); one English record per chunk plus one Chinese record per
      accepted translation (C9); shared metadata (C10); when no translation
      is accepted the records are exactly the English ones (C11).
    - Normalizer and Fetch: [extract_text_from_pdf] fails exactly on its
      three error paths (C12) and only deletes text (C13); a fetched text
      came from a status-200 answer, is longer than 200 characters and is
      the normalized body (C14).
    - Upload: the retry loop refines a three-attempt protocol (C15), sends
      one to three truncated requests and sleeps at most eight seconds
      (C16), and under transient failures follows the schedule of three
      attempts and pauses of 1, 2 and 4 seconds (C17); questions are at
      most two of length five or more (C18) and one item without a length
      drops them all (C19); a record is inserted exactly when its embedding
      is usable (C20), and a failed question write reports a stored record
      as failed (C21).
    - Collector: a scan is the first [max_items] accepted references in
      order (C22), each a fetched, filtered, chunked document (C23); a
      collection has at most 45 documents (C24).
    - Pipeline: deduplication keeps exactly the first document of each
      reference (C25); the statistics count every record once (C26); no
      record is sent before the backup is written (C27); the backup gives
      back each record's body and its bracket-free title (C28).
    - Regex and PyStr, as library lemmas the claims use: [re.sub] and
      [re.split] terminate ([re_spans_total]), [re.split] loses nothing
      ([re_split_weave]) and [sep.join(s.split(sep)) = s] ([join_split]).
    Examples whose comment starts with "Test:" evaluate the model on fixed
    inputs (the scenarios of the specification, runs that match CPython);
    they are regression tests, not claims.

    Fuel.  [str.split] runs on fuel [length s], and one character is
    consumed per unsplit step; the match scan of [re.sub]/[re.split] runs
    on fuel [2 * length s + 2], since each round either advances the
    position or forbids an empty match at it.  Both are proved sufficient
    ([split_fuel_enough], [re_spans_total]).  The matcher itself recurses
    structurally on the pattern and the repetition counts are bounded by
    the input.

    Bounds.  [generate_embedding] loops over [range(3)] as a list, so it
    terminates structurally; its pauses are at most eight seconds.  The
    scans loop over their prefix lists and ranges, also structurally.

    Time.  The date stamped on records is one value per document
    ([today] in [Bilingual.v]), whereas [base_meta] (line 410) reads the
    clock for each chunk; the two differ only for a run that crosses
    midnight.

    Not modelled: console output (the progress lines and the summary counts
    that are only printed), configuration (API keys, headers), and the
    [KeyboardInterrupt] and exception handlers around [main], which only
    print.  [json.loads], [str.lower], pdfplumber and BeautifulSoup are
    Python libraries and are parameters; the translation service answers
    one document's requests as a function of the request.

    This file holds what the components share: the trace monads and their
    notation, the tactics and the hint database [vigo], and generic lemmas on
    lists and folds. *)

From Stdlib Require Import ZArith.
From stdpp Require Import base list.

Declare Scope vigo_scope.
Delimit Scope vigo_scope with vigo.

Create HintDb vigo discriminated.
Create Rewrite HintDb vigo_simpl.

(** ** Traces of effects *)

(** A computation that returns an [A] and performs the effects [E] in the
    order of the list (calls to collaborators, sleeps).  It is a writer
    monad, with stdpp's [MRet]/[MBind] so that [x ← c; k] reads like the
    sequential code. *)
Definition traced (E A : Type) : Type := (A * list E)%type.

#[export] Instance traced_ret {E} : MRet (traced E) := fun A x => (x, []).
#[export] Instance traced_bind {E} : MBind (traced E) :=
  fun A B f m => let '(a, l1) := m in let '(b, l2) := f a in (b, l1 ++ l2).

Definition emit {E} (e : E) : traced E unit := (tt, [e]).

Notation "'value' c" := (fst c) (at level 10) : vigo_scope.
Notation "'effects' c" := (snd c) (at level 10) : vigo_scope.
Open Scope vigo_scope.

Lemma traced_bind_value {E A B} (f : A -> traced E B) (m : traced E A) :
  value (m ≫= f) = value (f (value m)).
Proof. destruct m as [a l]; simpl. by destruct (f a). Qed.

Lemma traced_bind_effects {E A B} (f : A -> traced E B) (m : traced E A) :
  effects (m ≫= f) = effects m ++ effects (f (value m)).
Proof. destruct m as [a l]; simpl. by destruct (f a). Qed.

Lemma traced_ret_value {E A} (x : A) : value (mret x : traced E A) = x.
Proof. reflexivity. Qed.

Lemma traced_ret_effects {E A} (x : A) : effects (mret x : traced E A) = [].
Proof. reflexivity. Qed.

#[export] Hint Rewrite @traced_bind_value @traced_bind_effects @traced_ret_value
  @traced_ret_effects : vigo_simpl.

(** ** Computations that see the history

    A collaborator whose answer may change from one call to the next (a
    service that fails transiently, then recovers) answers as a function of
    the effects performed before the call.  An [io E A] receives that
    history and returns its value and its own effects. *)
Definition io (E A : Type) : Type := list E -> traced E A.

#[export] Instance io_ret {E} : MRet (io E) := fun A x _ => (x, []).
#[export] Instance io_bind {E} : MBind (io E) :=
  fun A B f m h =>
    let '(a, l1) := m h in let '(b, l2) := f a (h ++ l1) in (b, l1 ++ l2).

(** Perform an effect. *)
Definition io_emit {E} (e : E) : io E unit := fun _ => (tt, [e]).

(** The effects performed so far. *)
Definition io_history {E} : io E (list E) := fun h => (h, []).

(** A traced computation, which does not look at the history. *)
Definition io_lift {E A} (m : traced E A) : io E A := fun _ => m.

Lemma io_bind_value {E A B} (f : A -> io E B) (m : io E A) h :
  value ((m ≫= f) h) = value (f (value (m h)) (h ++ effects (m h))).
Proof. unfold mbind, io_bind. destruct (m h) as [a l]; simpl. by destruct (f a _). Qed.

Lemma io_bind_effects {E A B} (f : A -> io E B) (m : io E A) h :
  effects ((m ≫= f) h) = effects (m h) ++ effects (f (value (m h)) (h ++ effects (m h))).
Proof. unfold mbind, io_bind. destruct (m h) as [a l]; simpl. by destruct (f a _). Qed.

Lemma io_ret_value {E A} (x : A) h : value ((mret x : io E A) h) = x.
Proof. reflexivity. Qed.

Lemma io_ret_effects {E A} (x : A) h : effects ((mret x : io E A) h) = [].
Proof. reflexivity. Qed.

#[export] Hint Rewrite @io_bind_value @io_bind_effects @io_ret_value @io_ret_effects
  : vigo_simpl.

(** ** Tactics *)

Ltac invc H := inversion H; subst; clear H.

(** Case on the first [match] or [if] of the goal, keeping the equation. *)
Ltac case_match_goal :=
  match goal with
  | |- context [match ?x with _ => _ end] =>
      let E := fresh "E" in destruct x eqn:E
  end.

(** Turn the boolean tests of the code into propositions. *)
Ltac bool_to_prop :=
  repeat match goal with
  | H : (_ <=? _)%nat = true |- _ => apply Nat.leb_le in H
  | H : (_ <=? _)%nat = false |- _ => apply Nat.leb_gt in H
  | H : (_ <? _)%nat = true |- _ => apply Nat.ltb_lt in H
  | H : (_ <? _)%nat = false |- _ => apply Nat.ltb_ge in H
  | H : (_ =? _)%nat = true |- _ => apply Nat.eqb_eq in H
  | H : (_ =? _)%nat = false |- _ => apply Nat.eqb_neq in H
  | H : (_ =? _)%Z = true |- _ => apply Z.eqb_eq in H
  | H : (_ =? _)%Z = false |- _ => apply Z.eqb_neq in H
  | H : (_ && _) = true |- _ => apply andb_prop in H as [? ?]
  | H : negb _ = true |- _ => apply negb_true_iff in H
  | H : negb _ = false |- _ => apply negb_false_iff in H
  end.

(** ** Folds *)

Section Folds.
Context {A B : Type}.

(** An invariant of the accumulator that every step keeps holds of the
    result of a [for] loop (a [fold_left]). *)
Lemma fold_left_invariant (I : A -> Prop) (f : A -> B -> A) (l : list B) (a : A) :
  I a -> (forall acc x, In x l -> I acc -> I (f acc x)) -> I (fold_left f l a).
Proof.
  revert a. induction l as [|x l IH]; intros a Ha Hstep; simpl; [done|].
  apply IH; [apply Hstep; simpl; auto | intros; apply Hstep; simpl; auto].
Qed.

(** A relation between the accumulators of two loops that every pair of
    steps keeps. *)
Lemma fold_left_rel (R : A -> A -> Prop) (f g : A -> B -> A) (l : list B) (a b : A) :
  R a b -> (forall x u v, In x l -> R u v -> R (f u x) (g v x)) ->
  R (fold_left f l a) (fold_left g l b).
Proof.
  revert a b. induction l as [|x l IH]; intros a b Hab Hstep; simpl; [done|].
  apply IH; [apply Hstep; simpl; auto | intros; apply Hstep; simpl; auto].
Qed.
End Folds.

(** ** Lists *)

Lemma length_app_singleton {A} (l : list A) (x : A) : length (l ++ [x]) = S (length l).
Proof. rewrite length_app; simpl; lia. Qed.

Lemma Forall_app_singleton {A} (P : A -> Prop) (l : list A) (x : A) :
  Forall P (l ++ [x]) <-> Forall P l /\ P x.
Proof. rewrite Forall_app, Forall_singleton. done. Qed.

(** A loop that emits one item per element. *)
Lemma concat_imap_singleton {A B} (f : nat -> A -> list B) (g : nat -> A -> B) (l : list A) :
  (forall i x, l !! i = Some x -> f i x = [g i x]) -> List.concat (imap f l) = imap g l.
Proof.
  revert f g. induction l as [|x l IH]; intros f g H; [done|]. rewrite !imap_cons.
  cbn [List.concat]. rewrite (H 0 x eq_refl). cbn [app]. f_equal.
  apply IH. intros i y Hy. by apply (H (S i)).
Qed.

Lemma length_concat_imap {A B} (f : nat -> A -> list B) (g : A -> nat) (l : list A) :
  (forall i x, length (f i x) = g x) -> length (List.concat (imap f l)) = sum_list (map g l).
Proof.
  revert f. induction l as [|x l IH]; intros f Hf; [done|].
  rewrite imap_cons. simpl. rewrite length_app, Hf, IH; [done|]. intros; apply Hf.
Qed.

Lemma sublist_rev {A} (l1 l2 : list A) : l1 `sublist_of` l2 -> rev l1 `sublist_of` rev l2.
Proof.
  induction 1 as [|x l1 l2 _ IH|x l1 l2 _ IH]; simpl; [done| |].
  - by apply sublist_app.
  - by apply sublist_inserts_r.
Qed.

#[export] Hint Rewrite @length_app_singleton @Forall_app_singleton @app_nil_r : vigo_simpl.
#[export] Hint Resolve Forall_nil_2 : vigo.
