(* ===== verification/PyStr.v ===== *)
(** * Python strings

    A Python [str] is a sequence of Unicode code points: here [list Z].
    This file models the [str] operations that [src/auto_collect_upload.py]
    calls -- [len], [+], [strip], [split(sep)], [sep.join], [in], slicing,
    [f"{n}"] of an integer -- and the character tables of [str.isspace] and
    of [re]'s [\s] and [\d] (CPython 3.11), with the lemmas the components
    use: the [join]/[split] round trip, the effect of [strip] and [join] on
    the non-whitespace content of a text, and length bounds. *)

From Stdlib Require Import ZArith Strings.String Ascii DecimalString.
From stdpp Require Import base list.
From S2P Require Import Prelude.

Declare Scope py_scope.
Delimit Scope py_scope with py.

Definition pystr := list Z.

(** An ASCII literal, code point by code point. *)
Definition lit (s : string) : pystr :=
  map (fun a => Z.of_nat (nat_of_ascii a)) (list_ascii_of_string s).

Arguments lit s%_string.
Open Scope py_scope.

Definition NL : Z := 10.
(** ["\n\n"], the paragraph separator of the segmenter. *)
Definition NL2 : pystr := [NL; NL].

(** ** Character classes *)

Section CharClasses.
Local Open Scope Z_scope.

(** [str.isspace], which is also what [\s] matches in a [str] pattern and
  what [str.strip()] removes (CPython: [Py_UNICODE_ISSPACE]). *)
Definition is_space (c : Z) : bool :=
((9 <=? c) && (c <=? 13)) || ((28 <=? c) && (c <=? 32)) || (c =? 133) || (c =? 160)
|| (c =? 5760) || ((8192 <=? c) && (c <=? 8202)) || (c =? 8232) || (c =? 8233)
|| (c =? 8239) || (c =? 8287) || (c =? 12288).

(** [\d] in a [str] pattern: the Unicode category Nd, as ranges. *)
Definition decimal_ranges : list (Z * Z) :=
[(48, 57); (1632, 1641); (1776, 1785); (1984, 1993); (2406, 2415); (2534, 2543);
 (2662, 2671); (2790, 2799); (2918, 2927); (3046, 3055); (3174, 3183); (3302, 3311);
 (3430, 3439); (3558, 3567); (3664, 3673); (3792, 3801); (3872, 3881); (4160, 4169);
 (4240, 4249); (6112, 6121); (6160, 6169); (6470, 6479); (6608, 6617); (6784, 6793);
 (6800, 6809); (6992, 7001); (7088, 7097); (7232, 7241); (7248, 7257); (42528, 42537);
 (43216, 43225); (43264, 43273); (43472, 43481); (43504, 43513); (43600, 43609);
 (44016, 44025); (65296, 65305); (66720, 66729); (68912, 68921); (69734, 69743);
 (69872, 69881); (69942, 69951); (70096, 70105); (70384, 70393); (70736, 70745);
 (70864, 70873); (71248, 71257); (71360, 71369); (71472, 71481); (71904, 71913);
 (72016, 72025); (72784, 72793); (73040, 73049); (73120, 73129); (92768, 92777);
 (92864, 92873); (93008, 93017); (120782, 120831); (123200, 123209); (123632, 123641);
 (125264, 125273); (130032, 130041)].

Definition is_decimal (c : Z) : bool :=
existsb (fun '(lo, hi) => (lo <=? c) && (c <=? hi)) decimal_ranges.

(** [[A-Z]] without [re.IGNORECASE]. *)
Definition is_upper_ascii (c : Z) : bool := (65 <=? c) && (c <=? 90).

(** ASCII lowering: what [str.lower] does on ASCII text. *)
Definition ascii_lower (s : pystr) : pystr :=
map (fun c => if is_upper_ascii c then c + 32 else c) s.
End CharClasses.

(** ** [strip], [split], [join], [in] *)

Fixpoint lstrip (s : pystr) : pystr :=
  match s with
  | c :: s' => if is_space c then lstrip s' else s
  | [] => []
  end.

Definition rstrip (s : pystr) : pystr := rev (lstrip (rev s)).

(** [s.strip()]. *)
Definition strip (s : pystr) : pystr := rstrip (lstrip s).

Fixpoint is_prefix (p s : pystr) : bool :=
  match p, s with
  | [], _ => true
  | c :: p', d :: s' => (c =? d)%Z && is_prefix p' s'
  | _ :: _, [] => false
  end.

(** [needle in hay]. *)
Fixpoint contains (needle hay : pystr) : bool :=
  is_prefix needle hay || match hay with [] => false | _ :: hay' => contains needle hay' end.

(** [sep.join(xs)]. *)
Fixpoint join (sep : pystr) (xs : list pystr) : pystr :=
  match xs with
  | [] => []
  | [x] => x
  | x :: xs' => x ++ sep ++ join sep xs'
  end.

(** [s.split(sep)]: scan left to right; at each position where [sep]
    starts, cut the current piece and skip [sep].  [cur] is the current
    piece, reversed.  Every step consumes a character, so [length s] steps
    are enough ([split_fuel_enough]). *)
Fixpoint split_fuel (fuel : nat) (sep s cur : pystr) : list pystr :=
  match fuel with
  | O => [rev cur ++ s]
  | S f =>
      match s with
      | [] => [rev cur]
      | c :: s' =>
          if is_prefix sep s then rev cur :: split_fuel f sep (drop (length sep) s) []
          else split_fuel f sep s' (c :: cur)
      end
  end.

Definition str_split (sep s : pystr) : list pystr := split_fuel (length s) sep s [].

(** [s[a:b]] for [0 <= a <= b]. *)
Definition slice (s : pystr) (a b : nat) : pystr := take (b - a) (drop a s).

(** [f"{n}"] for a natural number. *)
Definition str_of_nat (n : nat) : pystr := lit (NilZero.string_of_uint (Nat.to_uint n)).

(** The non-whitespace content of a text, in order. *)
Definition nonspace (s : pystr) : pystr := List.filter (fun c => negb (is_space c)) s.

(** A text is blank when it is all whitespace ([not s.strip()]). *)
Definition blank (s : pystr) : bool := forallb is_space s.

(** ** Lemmas *)

Lemma nonspace_app s t : nonspace (s ++ t) = nonspace s ++ nonspace t.
Proof. apply List.filter_app. Qed.

Lemma nonspace_rev s : nonspace (rev s) = rev (nonspace s).
Proof.
  induction s as [|c s IH]; [done|]. simpl. rewrite nonspace_app, IH.
  unfold nonspace at 1; simpl. destruct (is_space c); simpl; by rewrite ?app_nil_r.
Qed.

Lemma nonspace_blank s : blank s = true -> nonspace s = [].
Proof.
  induction s as [|c s IH]; [done|]. simpl. intros [Hc Hs]%andb_prop.
  unfold nonspace; simpl; rewrite Hc; simpl. by apply IH.
Qed.

Lemma nonspace_lstrip s : nonspace (lstrip s) = nonspace s.
Proof.
  induction s as [|c s IH]; [done|]. simpl.
  destruct (is_space c) eqn:E; simpl; [exact IH | unfold nonspace; simpl; by rewrite E].
Qed.

Lemma nonspace_strip s : nonspace (strip s) = nonspace s.
Proof.
  unfold strip, rstrip. by rewrite nonspace_rev, nonspace_lstrip, <- nonspace_rev, rev_involutive,
    nonspace_lstrip.
Qed.

Lemma nonspace_concat l : nonspace (List.concat l) = List.concat (map nonspace l).
Proof. induction l as [|x l IH]; [done|]. simpl. by rewrite nonspace_app, IH. Qed.

Lemma nonspace_nil : nonspace [] = [].
Proof. reflexivity. Qed.

Lemma nonspace_NL2 : nonspace NL2 = [].
Proof. reflexivity. Qed.

(** Joining with a whitespace separator keeps the non-whitespace content. *)
Lemma nonspace_join sep xs :
  blank sep = true -> nonspace (join sep xs) = List.concat (map nonspace xs).
Proof.
  intros Hsep. induction xs as [|x [|y xs] IH]; simpl; [done| by rewrite app_nil_r|].
  rewrite !nonspace_app, (nonspace_blank sep Hsep). simpl in IH. by rewrite IH.
Qed.

#[export] Hint Rewrite nonspace_app nonspace_strip nonspace_lstrip nonspace_nil nonspace_NL2 : vigo_simpl.

Lemma length_lstrip s : length (lstrip s) <= length s.
Proof. induction s as [|c s IH]; simpl; [lia|]. destruct (is_space c); simpl; lia. Qed.

Lemma length_strip s : length (strip s) <= length s.
Proof.
  unfold strip, rstrip. rewrite length_rev.
  pose proof (length_lstrip (rev (lstrip s))). rewrite length_rev in H.
  pose proof (length_lstrip s). lia.
Qed.

Lemma is_prefix_spec p s : is_prefix p s = true <-> exists t, s = p ++ t.
Proof.
  revert s. induction p as [|c p IH]; intros [|d s]; simpl.
  - split; eauto.
  - split; eauto.
  - split; [done|]. by intros [t ?].
  - rewrite andb_true_iff, Z.eqb_eq, IH. split.
    + intros [-> [t ->]]. eauto.
    + intros [t Ht]. injection Ht as -> ->. eauto.
Qed.

Lemma contains_spec n h : contains n h = true <-> exists a b, h = a ++ n ++ b.
Proof.
  induction h as [|c h IH]; simpl; rewrite orb_true_iff, is_prefix_spec.
  - split.
    + intros [[t Ht] | Hf]; [by exists [], t | done].
    + intros (a & b & Hab). left. destruct a; [eauto|done].
  - rewrite IH. split.
    + intros [[t Ht] | (a & b & ->)]; [exists [], t; done | by exists (c :: a), b].
    + intros ([|d a] & b & Hab); [left; eauto|]. injection Hab as -> ->. right; eauto.
Qed.

Lemma split_fuel_not_nil f sep s cur : split_fuel f sep s cur <> [].
Proof.
  revert s cur. induction f as [|f IH]; intros [|c s] cur; simpl; try done.
  destruct (is_prefix sep (c :: s)); [done|]. apply IH.
Qed.

Lemma join_cons sep x xs : xs <> [] -> join sep (x :: xs) = x ++ sep ++ join sep xs.
Proof. by destruct xs. Qed.

(** [sep.join(s.split(sep)) == s], for any amount of fuel. *)
Lemma join_split_fuel f sep s cur : join sep (split_fuel f sep s cur) = rev cur ++ s.
Proof.
  revert s cur. induction f as [|f IH]; intros s cur; simpl; [done|].
  destruct s as [|c s]; [by rewrite app_nil_r|].
  destruct (is_prefix sep (c :: s)) eqn:Hp.
  - rewrite join_cons by apply split_fuel_not_nil. rewrite IH. simpl.
    apply is_prefix_spec in Hp as [t Ht]. rewrite Ht, drop_app_length. done.
  - rewrite IH. simpl. by rewrite <- app_assoc.
Qed.

(** [sep.join(s.split(sep)) == s]. *)
Theorem join_split sep s : join sep (str_split sep s) = s.
Proof. apply join_split_fuel. Qed.

(** With a non-empty separator, [length s] steps are enough: more fuel
    gives the same pieces. *)
Lemma split_fuel_enough f sep s cur :
  sep <> [] -> length s <= f -> split_fuel f sep s cur = split_fuel (S f) sep s cur.
Proof.
  intros Hsep. revert s cur. induction f as [|f IH]; intros s cur Hlen.
  - destruct s; [|simpl in Hlen; lia]. simpl. by rewrite app_nil_r.
  - destruct s as [|c s]; [done|]. cbn [split_fuel].
    destruct (is_prefix sep (c :: s)) eqn:Hp.
    + f_equal. apply IH. rewrite length_drop. destruct sep; [done|]. simpl in *. lia.
    + apply IH. simpl in Hlen. lia.
Qed.

(** A field that does not contain the one-character separator [c] is cut
    as one piece, and the scan goes on after the separator. *)
Lemma split_fuel_field f c hdr s cur :
  c ∉ hdr -> length hdr < f ->
  split_fuel f [c] (hdr ++ c :: s) cur = (rev cur ++ hdr) :: split_fuel (f - S (length hdr)) [c] s [].
Proof.
  revert f cur. induction hdr as [|d hdr IH]; intros [|f] cur Hc Hf; cbn [length] in Hf; try lia.
  - cbn [split_fuel app is_prefix drop length]. rewrite Z.eqb_refl, app_nil_r. do 2 f_equal. lia.
  - apply not_elem_of_cons in Hc as [Hcd Hc]. cbn [split_fuel app is_prefix].
    rewrite (proj2 (Z.eqb_neq c d)) by congruence. cbn [andb].
    rewrite IH by (done || lia). cbn [rev]. by rewrite <- app_assoc.
Qed.

(** [x in xs] and [x == y] for strings. *)
Definition str_in (x : pystr) (xs : list pystr) : bool := bool_decide (x ∈ xs).
Definition str_eqb (x y : pystr) : bool := bool_decide (x = y).

(** [d.get(k, default)] on a dictionary with literal keys, kept as an
    association list in insertion order. *)
Fixpoint dict_get {V} (d : list (pystr * V)) (k : pystr) (default : V) : V :=
  match d with
  | [] => default
  | (k', v) :: d' => if str_eqb k k' then v else dict_get d' k default
  end.

Lemma lstrip_sublist s : lstrip s `sublist_of` s.
Proof.
  induction s as [|c s IH]; simpl; [done|]. destruct (is_space c); [|done].
  by apply sublist_cons.
Qed.

(** [s.strip()] only removes characters. *)
Lemma strip_sublist s : strip s `sublist_of` s.
Proof.
  unfold strip, rstrip. etrans; [apply sublist_rev, lstrip_sublist|].
  rewrite rev_involutive. apply lstrip_sublist.
Qed.
