(* ===== verification/Json.v ===== *)
(** * JSON values as Python sees them

    The program reads the bodies of the OpenAI, Supabase and DeepSeek
    replies with [resp.json()] and [json.loads], and then indexes them
    ([["data"][0]["embedding"]], [result[0].get('id')]), tests them for
    truth ([if not embedding], [if kid]) and takes their [len].  This file
    gives the values [json.loads] builds and those Python operations on
    them, with the exceptions they raise as [None].

    Parsing itself ([json.loads]) is Python's library and is a parameter of
    the components that use it.  A JSON object is the dictionary
    [json.loads] builds: its fields in order, the last one winning when a key
    is repeated, as Python does. *)

From Stdlib Require Import ZArith QArith.
From stdpp Require Import base list.
From S2P Require Import Prelude.
From S2P Require Import PyStr.

Module Json.

(** [None], [bool], [int]/[float] (by value), [str], [list], [dict]. *)
#[warnings="-register-all"]
Inductive json :=
| JNull
| JBool (b : bool)
| JNum (q : Q)
| JStr (s : pystr)
| JArr (xs : list json)
| JObj (fields : list (pystr * json)).

(** [bool(v)]: [None], [False], zero and empty containers are false. *)
Definition truthy (v : json) : bool :=
  match v with
  | JNull => false
  | JBool b => b
  | JNum q => negb (Qeq_bool q 0)
  | JStr s => negb (bool_decide (s = []))
  | JArr xs => negb (bool_decide (xs = []))
  | JObj fs => negb (bool_decide (fs = []))
  end.

(** [len(v)]; [None] is the [TypeError] of a value without a length. *)
Definition py_len (v : json) : option nat :=
  match v with
  | JStr s => Some (length s)
  | JArr xs => Some (length xs)
  | JObj fs => Some (length fs)
  | _ => None
  end.

(** The value of a key in a field list, the last occurrence winning. *)
Fixpoint field_lookup (fs : list (pystr * json)) (k : pystr) : option json :=
  match fs with
  | [] => None
  | (k', v) :: fs' =>
      match field_lookup fs' k with
      | Some w => Some w
      | None => if str_eqb k k' then Some v else None
      end
  end.

(** [v[k]] for a string key: [KeyError] or [TypeError] is [None]. *)
Definition json_key (v : json) (k : pystr) : option json :=
  match v with
  | JObj fs => field_lookup fs k
  | _ => None
  end.

(** [v.get(k, default)] on a [dict]; [None] is the [AttributeError] of a
    value that is not one. *)
Definition json_get (v : json) (k : pystr) (dflt : json) : option json :=
  match v with
  | JObj fs => Some (default dflt (field_lookup fs k))
  | _ => None
  end.

(** [v[0]]: the first item of a list, the first character of a string;
    [IndexError], [KeyError] (JSON keys are strings) or [TypeError]
    otherwise. *)
Definition json_index0 (v : json) : option json :=
  match v with
  | JArr (x :: _) => Some x
  | JStr (c :: _) => Some (JStr [c])
  | _ => None
  end.

Lemma truthy_py_len v n : py_len v = Some n -> truthy v = true <-> 0 < n.
Proof.
  destruct v as [| | |s|xs|fs]; intros [= <-]; simpl;
    [destruct s|destruct xs|destruct fs]; simpl; split; intros; (lia || done).
Qed.

End Json.
