(* ===== verification/Regex.v ===== *)
(** * The regular-expression engine of Python's [re] module

    Every text transformation of [src/auto_collect_upload.py] goes through
    [re.sub] or [re.split] (page-number and boilerplate removal in
    [extract_text_from_pdf], tag removal in [fetch_sfc_content], the heading
    split of [smart_chunk_text], fence removal in [generate_questions]).
    This file models the part of CPython's [sre] engine those patterns use:

    - [regex]: character classes, single-character repeats ([x*], [x+],
      [x*?], [x{m,n}], as sre's REPEAT_ONE / MIN_REPEAT_ONE), sequence,
      ordered alternation ([a|b], [x?]), capture groups, positive lookahead,
      [^] and [$] (without MULTILINE);
    - [mtch]: the backtracking matcher, in continuation-passing style, which
      tries the alternatives in sre's priority order (greedy repeats longest
      first, lazy ones shortest first), so the match it returns is the one
      Python returns;
    - [search], [scan]: the search loop of [pattern_subx]/[pattern_split]
      ([_sre.c]), including the [must_advance] rule of Python 3.7+ after an
      empty match;
    - [re_sub], [re_split] built from the list of match spans.

    Lookahead bodies of the program have no groups, so a lookahead does not
    export captures.  Theorems: every state the matcher hands to its
    continuation is a suffix of the subject at a later position
    ([mtch_progress]); the scan loop terminates on the fuel given
    ([re_spans_total]); the pieces of [re_split] woven with the matched texts
    give back the subject ([re_split_weave]). *)

From Stdlib Require Import ZArith.
From stdpp Require Import base list.
From S2P Require Import Prelude.
From S2P Require Import PyStr.

Inductive regex : Type :=
| REmpty
| RChar (p : Z -> bool)
| RRepeat (greedy : bool) (lo : nat) (hi : option nat) (p : Z -> bool)
| RSeq (r1 r2 : regex)
| RAlt (r1 r2 : regex)
| RGroup (n : nat) (r : regex)
| RAhead (r : regex)
| RBegin
| REnd.

(** A literal string, character by character. *)
Fixpoint RLit (s : pystr) : regex :=
  match s with
  | [] => REmpty
  | [c] => RChar (Z.eqb c)
  | c :: s' => RSeq (RChar (Z.eqb c)) (RLit s')
  end.

(** [r?], greedy. *)
Definition ROpt (r : regex) : regex := RAlt r REmpty.

(** [r1 r2 ... rn]. *)
Fixpoint RCat (rs : list regex) : regex :=
  match rs with
  | [] => REmpty
  | [r] => r
  | r :: rs' => RSeq r (RCat rs')
  end.

(** [.] with [re.DOTALL], and [.] without it. *)
Definition any_char (c : Z) : bool := true.
Definition not_newline (c : Z) : bool := negb (c =? NL)%Z.

(** A matcher state: the position, the rest of the subject from there, and
    the captures made so far (group number, start, end). *)
Record mstate := MState { ms_pos : nat; ms_rest : pystr; ms_caps : list (nat * (nat * nat)) }.

Definition advance (st : mstate) (n : nat) : mstate :=
  MState (ms_pos st + n) (drop n (ms_rest st)) (ms_caps st).

(** The number of leading characters of [s] in the class [p]. *)
Fixpoint run_len (p : Z -> bool) (s : pystr) : nat :=
  match s with
  | c :: s' => if p c then S (run_len p s') else O
  | [] => O
  end.

(** The repeat counts to try, in sre's order. *)
Definition rep_counts (greedy : bool) (lo avail : nat) : list nat :=
  let ns := seq lo (S avail - lo) in if greedy then rev ns else ns.

Fixpoint first_some {A} (f : nat -> option A) (ns : list nat) : option A :=
  match ns with
  | [] => None
  | n :: ns' => match f n with Some x => Some x | None => first_some f ns' end
  end.

Fixpoint mtch {A} (r : regex) (st : mstate) (k : mstate -> option A) : option A :=
  match r with
  | REmpty => k st
  | RChar p =>
      match ms_rest st with
      | c :: _ => if p c then k (advance st 1) else None
      | [] => None
      end
  | RRepeat g lo hi p =>
      let run := run_len p (ms_rest st) in
      let avail := match hi with Some h => Nat.min h run | None => run end in
      first_some (fun n => k (advance st n)) (rep_counts g lo avail)
  | RSeq r1 r2 => mtch r1 st (fun st' => mtch r2 st' k)
  | RAlt r1 r2 => match mtch r1 st k with Some x => Some x | None => mtch r2 st k end
  | RGroup n r =>
      mtch r st (fun st' =>
        k (MState (ms_pos st') (ms_rest st') ((n, (ms_pos st, ms_pos st')) :: ms_caps st')))
  | RAhead r => match mtch r st (fun _ => Some tt) with Some _ => k st | None => None end
  | RBegin => if ms_pos st =? 0 then k st else None
  | REnd =>
      match ms_rest st with
      | [] => k st
      | [c] => if (c =? NL)%Z then k st else None
      | _ => None
      end
  end.

(** The top-level success test: after an empty match, the next match may
    not be empty at the same position ([state->must_advance]). *)
Definition accept (must_advance : bool) (start : nat) (st : mstate) : option mstate :=
  if must_advance && (ms_pos st =? start) then None else Some st.

(** [sre_search]: the first position from [pos] on where the pattern
    matches; [must_advance] applies at [pos] only. *)
Fixpoint search (r : regex) (ma : bool) (pos : nat) (rest : pystr) : option (nat * mstate) :=
  match mtch r (MState pos rest []) (accept ma pos) with
  | Some st => Some (pos, st)
  | None => match rest with [] => None | _ :: rest' => search r false (S pos) rest' end
  end.

(** The loop of [pattern_subx] and [pattern_split]: the spans (start, end
    state) of the successive matches. *)
Fixpoint scan (fuel : nat) (r : regex) (ma : bool) (pos : nat) (rest : pystr)
  : option (list (nat * mstate)) :=
  match fuel with
  | O => None
  | S f =>
      match search r ma pos rest with
      | None => Some []
      | Some (a, st) =>
          match scan f r (ms_pos st =? a) (ms_pos st) (ms_rest st) with
          | Some sp => Some ((a, st) :: sp)
          | None => None
          end
      end
  end.

Definition scan_fuel (s : pystr) : nat := 2 * length s + 2.

Definition re_spans (r : regex) (s : pystr) : list (nat * mstate) :=
  default [] (scan (scan_fuel s) r false 0 s).

(** [m.group(n)] of a match of subject [s]. *)
Definition group (s : pystr) (st : mstate) (n : nat) : pystr :=
  match list_find (fun c => c.1 = n) (ms_caps st) with
  | Some (_, (_, (a, b))) => slice s a b
  | None => []
  end.

Fixpoint sub_pieces (s : pystr) (last : nat) (spans : list (nat * mstate))
    (repl : mstate -> pystr) : pystr :=
  match spans with
  | [] => drop last s
  | (a, st) :: sp => slice s last a ++ repl st ++ sub_pieces s (ms_pos st) sp repl
  end.

(** [re.sub(pattern, repl, s)], [repl] computed from the match. *)
Definition re_sub (r : regex) (repl : mstate -> pystr) (s : pystr) : pystr :=
  sub_pieces s 0 (re_spans r s) repl.

Fixpoint split_pieces (s : pystr) (last : nat) (spans : list (nat * mstate)) : list pystr :=
  match spans with
  | [] => [drop last s]
  | (a, st) :: sp => slice s last a :: split_pieces s (ms_pos st) sp
  end.

(** [re.split(pattern, s)] for a pattern without groups. *)
Definition re_split (r : regex) (s : pystr) : list pystr := split_pieces s 0 (re_spans r s).

(** The texts the successive matches cover. *)
Definition re_matches (r : regex) (s : pystr) : list pystr :=
  map (fun '(a, st) => slice s a (ms_pos st)) (re_spans r s).

(** [p0 ++ m1 ++ p1 ++ ... ++ mn ++ pn]. *)
Fixpoint weave (ps ms : list pystr) : pystr :=
  match ps, ms with
  | p :: ps', m :: ms' => p ++ m ++ weave ps' ms'
  | p :: _, [] => p
  | [], _ => []
  end.

(** ** The matcher only moves forward along the subject *)

(** A state is consistent with subject [s] when its rest is the suffix of
    [s] at its position. *)
Definition consistent (s : pystr) (st : mstate) : Prop :=
  ms_rest st = drop (ms_pos st) s /\ ms_pos st <= length s.

Lemma consistent_advance s st n :
  consistent s st -> n <= length (ms_rest st) -> consistent s (advance st n).
Proof.
  intros [Hr Hp] Hn. unfold advance, consistent; simpl.
  rewrite Hr, drop_drop. split; [done|]. rewrite Hr, length_drop in Hn. lia.
Qed.

Lemma run_len_le p s : run_len p s <= length s.
Proof. induction s as [|c s IH]; simpl; [lia|]. destruct (p c); simpl; lia. Qed.

Lemma in_rep_counts g lo avail n : In n (rep_counts g lo avail) -> lo <= n <= avail.
Proof.
  unfold rep_counts. intros Hin.
  assert (In n (seq lo (S avail - lo))) as Hs
    by (destruct g; [by apply in_rev | done]).
  apply in_seq in Hs. lia.
Qed.

Lemma first_some_Some {A} (f : nat -> option A) ns x :
  first_some f ns = Some x -> exists n, In n ns /\ f n = Some x.
Proof.
  induction ns as [|n ns IH]; simpl; [done|].
  destruct (f n) eqn:E; [intros [= <-]; eauto|].
  intros (m & ? & ?)%IH. eauto.
Qed.

#[local] Hint Resolve consistent_advance : vigo.

(** Soundness of the continuation discipline: whatever the matcher returns
    was returned by the continuation, called on a consistent state at or
    after the start. *)
Lemma mtch_progress {A} s r : forall st (k : mstate -> option A) x,
  consistent s st -> mtch r st k = Some x ->
  exists st', consistent s st' /\ ms_pos st <= ms_pos st' /\ k st' = Some x.
Proof.
  induction r as [| p | g lo hi p | r1 IH1 r2 IH2 | r1 IH1 r2 IH2 | n r IH | r IH | |];
    intros st k x Hc; simpl.
  - intros Hk. exists st. split_and!; auto.
  - destruct (ms_rest st) as [|c rest] eqn:Hr; [done|]. destruct (p c); [|done].
    intros Hk. exists (advance st 1). split_and!; [|simpl; lia|done].
    apply consistent_advance; [done|]. rewrite Hr; simpl; lia.
  - intros (n & Hin & Hk)%first_some_Some. apply in_rep_counts in Hin.
    pose proof (run_len_le p (ms_rest st)).
    exists (advance st n). split_and!; [|simpl; lia|done].
    apply consistent_advance; [done|]. destruct hi; lia.
  - intros (st1 & Hc1 & Hle1 & Hk1)%IH1; [|done].
    apply IH2 in Hk1 as (st2 & ? & ? & ?); [|done]. exists st2. split_and!; auto; lia.
  - destruct (mtch r1 st k) eqn:E.
    + intros [= <-]. by apply IH1 in E.
    + by apply IH2.
  - intros (st1 & [Hr1 Hp1] & Hle & Hk)%IH; [|done].
    eexists. split_and!; [| |exact Hk]; [split|]; simpl; auto.
  - destruct (mtch r st _); [|done]. intros Hk. exists st. split_and!; auto.
  - destruct (ms_pos st =? 0); [|done]. intros Hk. exists st. split_and!; auto.
  - destruct (ms_rest st) as [|c [|d rest]]; [| destruct (c =? NL)%Z |]; try done;
      intros Hk; exists st; split_and!; auto.
Qed.

(** ** Declarative semantics

    [matches r st st']: the pattern [r] can match from [st] and stop at
    [st'], recording its groups.  The backtracking matcher is sound for it
    ([mtch_sound]): the state it hands to the continuation is one of these. *)
Inductive matches : regex -> mstate -> mstate -> Prop :=
| m_empty st : matches REmpty st st
| m_char p st c rest :
    ms_rest st = c :: rest -> p c = true -> matches (RChar p) st (advance st 1)
| m_repeat g lo hi p st n :
    lo <= n -> n <= run_len p (ms_rest st) ->
    match hi with Some h => n <= h | None => True end ->
    matches (RRepeat g lo hi p) st (advance st n)
| m_seq r1 r2 st st1 st2 : matches r1 st st1 -> matches r2 st1 st2 -> matches (RSeq r1 r2) st st2
| m_alt_l r1 r2 st st' : matches r1 st st' -> matches (RAlt r1 r2) st st'
| m_alt_r r1 r2 st st' : matches r2 st st' -> matches (RAlt r1 r2) st st'
| m_group n r st st' :
    matches r st st' ->
    matches (RGroup n r) st
      (MState (ms_pos st') (ms_rest st') ((n, (ms_pos st, ms_pos st')) :: ms_caps st'))
| m_ahead r st st' : matches r st st' -> matches (RAhead r) st st
| m_begin st : ms_pos st = 0 -> matches RBegin st st
| m_end st : ms_rest st = [] \/ ms_rest st = [NL] -> matches REnd st st.

Lemma mtch_sound r : forall A st (k : mstate -> option A) x,
  mtch r st k = Some x -> exists st', matches r st st' /\ k st' = Some x.
Proof.
  induction r as [| p | g lo hi p | r1 IH1 r2 IH2 | r1 IH1 r2 IH2 | n r IH | r IH | |];
    intros A st k x; simpl.
  - intros Hk. eexists; split; [constructor|done].
  - destruct (ms_rest st) as [|c rest] eqn:Hr; [done|]. destruct (p c) eqn:Hp; [|done].
    intros Hk. eexists; split; [econstructor; eauto|done].
  - intros (m & Hin & Hk)%first_some_Some. apply in_rep_counts in Hin.
    eexists; split; [|exact Hk]. constructor; destruct hi; lia.
  - intros (st1 & H1 & Hk1)%IH1. apply IH2 in Hk1 as (st2 & H2 & Hk2).
    eexists; split; [econstructor; eauto|done].
  - destruct (mtch r1 st k) eqn:E.
    + intros [= <-]. apply IH1 in E as (st' & ? & ?). eexists; split; [by apply m_alt_l|done].
    + intros (st' & ? & ?)%IH2. eexists; split; [by apply m_alt_r|done].
  - intros (st' & H & Hk)%IH. eexists; split; [by constructor|exact Hk].
  - destruct (mtch r st _) eqn:E; [|done]. apply IH in E as (st' & ? & _).
    intros Hk. eexists; split; [by econstructor|done].
  - destruct (ms_pos st =? 0) eqn:E; [|done]. bool_to_prop.
    intros Hk. eexists; split; [by constructor|done].
  - destruct (ms_rest st) as [|c [|d rest]] eqn:Hr; [| destruct (c =? NL)%Z eqn:Hc |];
      try done; intros Hk; eexists; (split; [constructor|done]); bool_to_prop; subst; auto.
Qed.

(** ** Search and scan *)

(** What a span (start [a], end state [st]) of a match in [s] satisfies. *)
Definition span_ok (r : regex) (s : pystr) (a : nat) (st : mstate) : Prop :=
  consistent s st /\ a <= ms_pos st /\
  exists ma, mtch r (MState a (drop a s) []) (accept ma a) = Some st.

(** Successive spans start at or after the end of the previous one. *)
Fixpoint chain (r : regex) (s : pystr) (last : nat) (sp : list (nat * mstate)) : Prop :=
  match sp with
  | [] => True
  | (a, st) :: sp' => last <= a /\ span_ok r s a st /\ chain r s (ms_pos st) sp'
  end.

Lemma search_here s r ma pos rest st :
  consistent s (MState pos rest []) -> mtch r (MState pos rest []) (accept ma pos) = Some st ->
  (ma = true -> pos < ms_pos st) /\ span_ok r s pos st.
Proof.
  intros Hc Hm. destruct (mtch_progress s r _ _ _ Hc Hm) as (st' & Hc' & Hle & Hacc).
  unfold accept in Hacc. simpl in Hle.
  destruct (ma && (ms_pos st' =? pos)) eqn:E; [done|]. injection Hacc as <-.
  destruct Hc as [Hr _]; simpl in Hr. split.
  - intros ->. simpl in E. apply Nat.eqb_neq in E. lia.
  - split_and!; [done|done|]. exists ma. by rewrite <- Hr.
Qed.

Lemma consistent_next s pos c rest :
  consistent s (MState pos (c :: rest) []) -> consistent s (MState (S pos) rest []).
Proof.
  intros [Hr Hp]; simpl in *. split; simpl.
  - replace (S pos) with (pos + 1) by lia. by rewrite <- drop_drop, <- Hr.
  - pose proof (length_drop s pos) as Hl. rewrite <- Hr in Hl. simpl in Hl. lia.
Qed.

Lemma search_spec s r rest : forall ma pos a st,
  consistent s (MState pos rest []) -> search r ma pos rest = Some (a, st) ->
  pos <= a /\ (ma = true -> a = pos -> a < ms_pos st) /\ span_ok r s a st.
Proof.
  induction rest as [|c rest IH]; intros ma pos a st Hc; simpl;
    destruct (mtch r _ (accept ma pos)) as [st0|] eqn:Hm; try done.
  1, 2: intros [= <- <-]; destruct (search_here s r ma pos _ st0 Hc Hm) as [Hma Hok];
    split_and!; auto.
  intros (? & _ & ?)%IH; [split_and!; auto; lia|]. by eapply consistent_next.
Qed.

(** The scan loop produces a chain of spans, and [2 * length s + 2] rounds
    are enough: every round either consumes a character or, after an empty
    match, forbids another empty match at the same place. *)
Lemma scan_chain (s : pystr) (r : regex) (fuel : nat) : forall (ma : bool) (pos : nat) (rest : pystr),
  consistent s (MState pos rest []) ->
  2 * length rest + (if ma then 0 else 1) < fuel ->
  exists sp, scan fuel r ma pos rest = Some sp /\ chain r s pos sp.
Proof.
  induction fuel as [|fuel IH]; intros ma pos rest Hc Hf; [lia|]. simpl.
  destruct (search r ma pos rest) as [[a st]|] eqn:Hs; [|by exists []].
  pose proof (search_spec s r rest ma pos a st Hc Hs) as (Hpa & Hma & Hok).
  destruct Hok as (Hcs & Hae & Hm).
  destruct (IH (ms_pos st =? a) (ms_pos st) (ms_rest st)) as (sp & -> & Hch).
  - destruct Hcs as [Hr Hp]. split; simpl; done.
  - destruct Hc as [Hr Hp], Hcs as [Hr' Hp']. simpl in *.
    rewrite Hr', length_drop. rewrite Hr, length_drop in Hf.
    assert (Hm' : ma = false \/ a <> pos \/ a < ms_pos st)
      by (destruct ma; [destruct (decide (a = pos)); auto|auto]).
    destruct ma, (ms_pos st =? a) eqn:E; bool_to_prop;
      destruct Hm' as [Hm'|Hm']; try discriminate; lia.
  - eexists. split; [done|]. simpl. split_and!; [done| |done]. split_and!; eauto.
Qed.

Lemma re_spans_chain r s : chain r s 0 (re_spans r s).
Proof.
  unfold re_spans. destruct (scan_chain s r (scan_fuel s) false 0 s) as (sp & -> & Hch).
  - split; simpl; [done|lia].
  - unfold scan_fuel. lia.
  - done.
Qed.

(** Termination of [re.sub] and [re.split]: the scan of the match
    positions never runs out of the fuel [2 * len(s) + 2] it is given. *)
Theorem re_spans_total r s : scan (scan_fuel s) r false 0 s = Some (re_spans r s).
Proof.
  unfold re_spans. destruct (scan_chain s r (scan_fuel s) false 0 s) as (sp & -> & _).
  - split; simpl; [done|lia].
  - unfold scan_fuel. lia.
  - done.
Qed.

(** ** Round trips *)

Lemma slice_weave s l a e :
  l <= a -> a <= e -> slice s l a ++ slice s a e ++ drop e s = drop l s.
Proof.
  intros Hla Hae. unfold slice.
  assert (E1 : drop e s = drop (e - a) (drop a s)) by (rewrite drop_drop; f_equal; lia).
  assert (E2 : drop a s = drop (a - l) (drop l s)) by (rewrite drop_drop; f_equal; lia).
  rewrite E1, take_drop, E2, take_drop. done.
Qed.

Lemma split_pieces_weave r s last sp :
  chain r s last sp ->
  weave (split_pieces s last sp) (map (fun '(a, st) => slice s a (ms_pos st)) sp) = drop last s.
Proof.
  revert last. induction sp as [|[a st] sp IH]; intros last; simpl; [done|].
  intros (Hla & (_ & Hae & _) & Hch). rewrite IH by done. by apply slice_weave.
Qed.

(** The pieces of [re.split] interleaved with the matched separators
    give back the subject. *)
Theorem re_split_weave r s : weave (re_split r s) (re_matches r s) = s.
Proof.
  unfold re_split, re_matches. rewrite (split_pieces_weave r); [done|]. apply re_spans_chain.
Qed.

Lemma sub_pieces_weave s last sp repl :
  sub_pieces s last sp repl = weave (split_pieces s last sp) (map repl (map snd sp)).
Proof.
  revert last. induction sp as [|[a st] sp IH]; intros last; simpl; [done|]. by rewrite IH.
Qed.

(** [re.sub] replaces each separator of [re.split] by its replacement. *)
Lemma re_sub_weave r repl s :
  re_sub r repl s = weave (re_split r s) (map repl (map snd (re_spans r s))).
Proof. apply sub_pieces_weave. Qed.

Lemma length_split_pieces s last sp : length (split_pieces s last sp) = S (length sp).
Proof. revert last. induction sp as [|[a st] sp IH]; intros; simpl; auto. Qed.

(** Weaving with separators that are all blank keeps exactly the
    non-whitespace content of the pieces. *)
Lemma nonspace_weave ps ms :
  Forall (fun m => blank m = true) ms ->
  nonspace (weave ps ms) = List.concat (map nonspace (take (S (length ms)) ps)).
Proof.
  revert ms. induction ps as [|p ps IH]; intros ms Hms; simpl; [done|].
  destruct ms as [|m ms]; simpl; [by rewrite app_nil_r|].
  apply Forall_cons in Hms as [Hm Hms].
  rewrite !nonspace_app, (nonspace_blank m Hm), IH by done. done.
Qed.

Lemma chain_spans_ok r s last sp :
  chain r s last sp -> Forall (fun x => span_ok r s x.1 x.2) sp.
Proof.
  revert last. induction sp as [|[a st] sp IH]; intros last; simpl; [done|].
  intros (_ & Hok & Hch). constructor; [done|]. eauto.
Qed.

Lemma re_spans_ok r s : Forall (fun x => span_ok r s x.1 x.2) (re_spans r s).
Proof. eapply chain_spans_ok, re_spans_chain. Qed.

Lemma length_re_split r s : length (re_split r s) = S (length (re_matches r s)).
Proof. unfold re_split, re_matches. by rewrite length_split_pieces, length_map. Qed.

(** A pattern [c(?=...)] matches exactly one character of class [c]. *)
Lemma span_char_ahead p q s a st :
  span_ok (RSeq (RChar p) (RAhead q)) s a st ->
  exists c, slice s a (ms_pos st) = [c] /\ p c = true.
Proof.
  intros (_ & _ & ma & Hm). simpl in Hm.
  destruct (drop a s) as [|c rest] eqn:Hd; [done|]. destruct (p c) eqn:Hp; [|done].
  destruct (mtch q _ _); [|done]. unfold accept in Hm.
  destruct (ma && _); [done|]. injection Hm as <-. exists c. split; [|done].
  unfold slice; simpl. rewrite Hd. by replace (a + 1 - a) with 1 by lia.
Qed.

(** Splitting on a one-character blank separator keeps the non-whitespace
    content. *)
Lemma nonspace_re_split_char_ahead p q s :
  (forall c, p c = true -> is_space c = true) ->
  List.concat (map nonspace (re_split (RSeq (RChar p) (RAhead q)) s)) = nonspace s.
Proof.
  intros Hp. rewrite <- (split_pieces_weave (RSeq (RChar p) (RAhead q)) s 0 (re_spans _ s))
    at 2 by apply re_spans_chain. fold (re_split (RSeq (RChar p) (RAhead q)) s).
  fold (re_matches (RSeq (RChar p) (RAhead q)) s).
  rewrite nonspace_weave, <- length_re_split, firstn_all; [done|].
  unfold re_matches. apply Forall_map.
  eapply Forall_impl; [apply re_spans_ok|]. intros [a st] Hok; simpl in Hok.
  destruct (span_char_ahead _ _ _ _ _ Hok) as (c & -> & Hc). simpl. by rewrite Hp.
Qed.

(** ** Substitutions that only delete *)

Lemma weave_sublist ps ms ms' :
  Forall2 sublist ms ms' -> weave ps ms `sublist_of` weave ps ms'.
Proof.
  intros H. revert ps. induction H as [|m m' ms ms' Hm _ IH]; intros [|p ps]; simpl; try done.
  apply sublist_app; [done|]. by apply sublist_app.
Qed.

Lemma span_matches r s a st :
  span_ok r s a st -> matches r (MState a (drop a s) []) st.
Proof.
  intros (_ & _ & ma & Hm). apply mtch_sound in Hm as (st' & Hmt & Hacc).
  unfold accept in Hacc. by destruct (_ && _); [|injection Hacc as <-].
Qed.

(** A substitution whose replacement is, at every match, a subsequence of
    the matched text yields a subsequence of the subject. *)
Lemma re_sub_sublist r repl s :
  (forall a st, matches r (MState a (drop a s) []) st -> consistent s st ->
     repl st `sublist_of` slice s a (ms_pos st)) ->
  re_sub r repl s `sublist_of` s.
Proof.
  intros Hrepl. rewrite re_sub_weave.
  transitivity (weave (re_split r s) (re_matches r s)).
  2: { unfold re_split, re_matches. by rewrite (split_pieces_weave r) by apply re_spans_chain. }
  apply weave_sublist. unfold re_matches. pose proof (re_spans_ok r s) as Hok.
  induction (re_spans r s) as [|[a st] sp IH]; simpl; [constructor|].
  apply Forall_cons in Hok as [Hst Hok]. simpl in Hst. constructor; [|by apply IH].
  apply Hrepl; [by apply span_matches | apply Hst].
Qed.

Lemma re_sub_delete_sublist r s : re_sub r (fun _ => []) s `sublist_of` s.
Proof. apply re_sub_sublist. intros. apply sublist_nil_l. Qed.

(** ** What a match consumes *)

Lemma run_len_take p s n : n <= run_len p s -> Forall (fun c => p c = true) (take n s).
Proof.
  revert n. induction s as [|c s IH]; intros [|n] Hn; simpl in *; [constructor|lia|constructor|].
  destruct (p c) eqn:Hp; [|lia]. constructor; [done|]. apply IH. lia.
Qed.

(** A match consumes a prefix [t] of the rest and advances by its length. *)
Lemma matches_consume r st st' :
  matches r st st' -> exists t, ms_rest st = t ++ ms_rest st' /\ ms_pos st' = ms_pos st + length t.
Proof.
  induction 1 as [|p st c rest Hr Hp|g lo hi p st n Hlo Hn Hhi|r1 r2 st st1 st2 _ [t1 [H1 P1]] _ [t2 [H2 P2]]
    | r1 r2 st st' _ IH | r1 r2 st st' _ IH | n r st st' _ [t [H P]] | r st st' _ _ | st _ | st _].
  - by exists [].
  - exists [c]. simpl. rewrite Hr. done.
  - exists (take n (ms_rest st)). simpl. rewrite take_drop. split; [done|].
    pose proof (run_len_le p (ms_rest st)). rewrite length_take. lia.
  - exists (t1 ++ t2). rewrite H1, H2, app_assoc, P2, P1, length_app. split; [done|lia].
  - done.
  - done.
  - by exists t.
  - exists []. split; [done|simpl; lia].
  - exists []. split; [done|simpl; lia].
  - exists []. split; [done|simpl; lia].
Qed.

Fixpoint no_groups (r : regex) : bool :=
  match r with
  | RSeq r1 r2 | RAlt r1 r2 => no_groups r1 && no_groups r2
  | RGroup _ _ => false
  | RAhead r => no_groups r
  | _ => true
  end.

(** A pattern without groups records no capture. *)
Lemma matches_caps r st st' : matches r st st' -> no_groups r = true -> ms_caps st' = ms_caps st.
Proof.
  induction 1; simpl; intros Hng; bool_to_prop; try done.
  - by rewrite IHmatches2, IHmatches1.
  - by apply IHmatches.
  - by apply IHmatches.
Qed.

Lemma matches_seq_inv r1 r2 st st' :
  matches (RSeq r1 r2) st st' -> exists st1, matches r1 st st1 /\ matches r2 st1 st'.
Proof. intros H. inv H. eauto. Qed.

Lemma matches_group_inv n r st st' :
  matches (RGroup n r) st st' ->
  exists st1, matches r st st1 /\
    st' = MState (ms_pos st1) (ms_rest st1) ((n, (ms_pos st, ms_pos st1)) :: ms_caps st1).
Proof. intros H. inv H. eauto. Qed.

Lemma matches_char_inv p st st' :
  matches (RChar p) st st' ->
  exists c rest, ms_rest st = c :: rest /\ p c = true /\ st' = advance st 1.
Proof. intros H. inv H. eauto. Qed.
