(* ===== verification/Segmenter.v ===== *)
(** * The segmenter: [smart_chunk_text] (src/auto_collect_upload.py:111-193)

    [smart_chunk_text full_text doc_title max_size] returns the text whole
    when it fits, and otherwise:
    - splits it with [re.split(r'\n(?=\d{1,2}\.\s+[A-Z])', full_text)]
      ([heading_re]); with three sections or more it packs the stripped
      sections greedily ([section_step]), re-splitting an oversized section
      into paragraphs ([split_oversized]);
    - with fewer sections it packs the stripped paragraphs of the text
      ([para_step]);
    - merges every chunk shorter than [CHUNK_MIN] into its predecessor
      ([merge_step]);
    - prefixes each chunk with [[title]] or [[title — Part i/n]]
      ([contextualize]).

    The packing state of the loops (the list [chunks] and the string
    [current_chunk]) is the record [pack]; each loop is a [fold_left] of its
    body.  Theorems: no text is lost or reordered (only whitespace is);
    lengths are bounded by [max_size + 2] except for a lone oversized
    paragraph; after the merge only the first segment can be shorter than
    [CHUNK_MIN]; and the scenarios of the specification, computed. *)

From Stdlib Require Import ZArith Strings.String.
From stdpp Require Import base list.
From S2P Require Import Prelude.
From S2P Require Import PyStr.
From S2P Require Import Regex.

Module Segmenter.

(** [CHUNK_MIN], [CHUNK_MAX] (lines 59-60). *)
Definition CHUNK_MIN : nat := 300.
Definition CHUNK_MAX : nat := 1500.

(** [r'\n(?=\d{1,2}\.\s+[A-Z])'] (line 124). *)
Definition heading_re : regex :=
  RSeq (RChar (Z.eqb NL))
    (RAhead (RSeq (RRepeat true 1 (Some 2) is_decimal)
              (RSeq (RChar (Z.eqb 46))
                 (RSeq (RRepeat true 1 None is_space) (RChar is_upper_ascii))))).

(** [chunks] and [current_chunk] of the packing loops. *)
Record pack := Pack { chunks : list pystr; current : pystr }.

(** [acc += ("\n\n" if acc else "") + piece]. *)
Definition join_piece (acc piece : pystr) : pystr :=
  acc ++ (if acc is [] then [] else NL2) ++ piece.

(** [if current_chunk: chunks.append(current_chunk)]. *)
Definition flush (st : pack) : list pystr :=
  if current st is [] then chunks st else chunks st ++ [current st].

(** The greedy step of the paragraph loops (lines 144-149, 167-172). *)
Definition pack_step (max_size : nat) (st : pack) (para : pystr) : pack :=
  if length (current st) + length para <=? max_size
  then Pack (chunks st) (join_piece (current st) para)
  else Pack (flush st) para.

(** An oversized section, packed by paragraph (lines 141-153); the last
    group becomes the new [current_chunk]. *)
Definition split_oversized (max_size : nat) (chunks0 : list pystr) (section : pystr) : pack :=
  let sub := fold_left (pack_step max_size) (str_split NL2 section) (Pack chunks0 []) in
  Pack (chunks sub) (if current sub is [] then [] else current sub).

(** The body of the section loop (lines 129-155). *)
Definition section_step (max_size : nat) (st : pack) (section0 : pystr) : pack :=
  let section := strip section0 in
  if section is [] then st
  else if length (current st) + length section <=? max_size
  then Pack (chunks st) (join_piece (current st) section)
  else
    let chunks1 := flush st in
    if max_size <? length section then split_oversized max_size chunks1 section
    else Pack chunks1 section.

(** Strategy 1 (lines 126-158). *)
Definition structural_chunks (max_size : nat) (sections : list pystr) : list pystr :=
  flush (fold_left (section_step max_size) sections (Pack [] [])).

(** The body of the paragraph loop (lines 163-172). *)
Definition para_step (max_size : nat) (st : pack) (para0 : pystr) : pack :=
  let para := strip para0 in
  if para is [] then st else pack_step max_size st para.

(** Strategy 2 (lines 159-174). *)
Definition paragraph_chunks (max_size : nat) (full_text : pystr) : list pystr :=
  flush (fold_left (para_step max_size) (str_split NL2 full_text) (Pack [] [])).

(** [final_chunks[-1] += "\n\n" + chunk]. *)
Fixpoint append_last (final : list pystr) (x : pystr) : list pystr :=
  match final with
  | [] => []
  | [y] => [y ++ NL2 ++ x]
  | y :: ys => y :: append_last ys x
  end.

(** The body of the merge loop (lines 178-182). *)
Definition merge_step (final : list pystr) (chunk : pystr) : list pystr :=
  if (length chunk <? CHUNK_MIN) && negb (if final is [] then true else false)
  then append_last final chunk
  else final ++ [chunk].

(** Lines 120-174: the chunks of the strategy that applies. *)
Definition packed (full_text : pystr) (max_size : nat) : list pystr :=
  let sections := re_split heading_re full_text in
  if 3 <=? length sections then structural_chunks max_size sections
  else paragraph_chunks max_size full_text.

(** Lines 176-182: the chunks after the merge pass, before labelling. *)
Definition segments (full_text : pystr) (max_size : nat) : list pystr :=
  fold_left merge_step (packed full_text max_size) [].

(** [f"[{doc_title} — Part {i+1}/{n}]"] or [f"[{doc_title}]"] (lines 187-190). *)
Definition part_header (doc_title : pystr) (i n : nat) : pystr :=
  if 1 <? n
  then [91%Z] ++ doc_title ++ lit " " ++ [8212%Z] ++ lit " Part " ++ str_of_nat (S i)
       ++ lit "/" ++ str_of_nat n ++ [93%Z]
  else [91%Z] ++ doc_title ++ [93%Z].

(** Lines 185-191. *)
Definition contextualize (doc_title : pystr) (final : list pystr) : list pystr :=
  imap (fun i chunk => part_header doc_title i (length final) ++ NL2 ++ chunk) final.

(** [smart_chunk_text] (lines 111-193). *)
Definition smart_chunk_text (full_text doc_title : pystr) (max_size : nat) : list pystr :=
  if length full_text <=? max_size then [full_text]
  else contextualize doc_title (segments full_text max_size).

(** ** No text is lost or reordered *)

(** The text a packing state holds, in order. *)
Lemma concat_flush st : List.concat (flush st) = List.concat (chunks st) ++ current st.
Proof.
  unfold flush. destruct (current st); [by rewrite app_nil_r|].
  by rewrite List.concat_app; simpl; rewrite app_nil_r.
Qed.

Lemma nonspace_join_piece acc p : nonspace (join_piece acc p) = nonspace acc ++ nonspace p.
Proof. unfold join_piece. destruct acc; by autorewrite with vigo_simpl. Qed.

#[local] Hint Rewrite concat_flush nonspace_join_piece : vigo_simpl.

Definition held (st : pack) : pystr := nonspace (List.concat (flush st)).

(** Normalise what a packing state holds. *)
Ltac held_simpl :=
  unfold held in *; autorewrite with vigo_simpl; cbn [chunks current];
  autorewrite with vigo_simpl; rewrite ?app_assoc.


Lemma held_pack_step m st p : held (pack_step m st p) = held st ++ nonspace p.
Proof.
  unfold pack_step. destruct (_ <=? _); held_simpl; done.
Qed.

Lemma held_fold_pack_step m ps st :
  held (fold_left (pack_step m) ps st) = held st ++ List.concat (map nonspace ps).
Proof.
  revert st. induction ps as [|p ps IH]; intros st; simpl; [by rewrite app_nil_r|].
  by rewrite IH, held_pack_step, app_assoc.
Qed.

(** The paragraphs of [s.split("\n\n")] hold the non-whitespace of [s]. *)
Lemma nonspace_split_NL2 s : List.concat (map nonspace (str_split NL2 s)) = nonspace s.
Proof. rewrite <- (nonspace_join NL2) by done. unfold str_split. by rewrite join_split_fuel. Qed.

Lemma held_split_oversized m cs sec :
  held (split_oversized m cs sec) = nonspace (List.concat cs) ++ nonspace sec.
Proof.
  unfold split_oversized.
  replace (held (Pack _ _)) with (held (fold_left (pack_step m) (str_split NL2 sec) (Pack cs [])))
    by (unfold held; autorewrite with vigo_simpl; simpl; by destruct (current _)).
  rewrite held_fold_pack_step, nonspace_split_NL2. done.
Qed.

Lemma held_section_step m st sec : held (section_step m st sec) = held st ++ nonspace sec.
Proof.
  unfold section_step. rewrite <- (nonspace_strip sec).
  destruct (strip sec) as [|c sec'] eqn:Hs; [by rewrite app_nil_r|].
  destruct (_ <=? _).
  - by held_simpl.
  - destruct (m <? _).
    + rewrite held_split_oversized. by held_simpl.
    + by held_simpl.
Qed.

Lemma held_para_step m st p : held (para_step m st p) = held st ++ nonspace p.
Proof.
  unfold para_step. rewrite <- (nonspace_strip p).
  destruct (strip p) eqn:Hs; [by rewrite app_nil_r|]. apply held_pack_step.
Qed.

(** A loop whose body adds the non-whitespace of each element to what the
    state holds. *)
Lemma held_fold (step : pack -> pystr -> pack) xs st :
  (forall st x, held (step st x) = held st ++ nonspace x) ->
  held (fold_left step xs st) = held st ++ List.concat (map nonspace xs).
Proof.
  intros Hstep. revert st. induction xs as [|x xs IH]; intros st; simpl; [by rewrite app_nil_r|].
  by rewrite IH, Hstep, app_assoc.
Qed.

Lemma nonspace_structural_chunks m secs :
  nonspace (List.concat (structural_chunks m secs)) = List.concat (map nonspace secs).
Proof. apply (held_fold (section_step m) secs (Pack [] [])), held_section_step. Qed.

Lemma nonspace_paragraph_chunks m s :
  nonspace (List.concat (paragraph_chunks m s)) = nonspace s.
Proof.
  unfold paragraph_chunks. fold (held (fold_left (para_step m) (str_split NL2 s) (Pack [] []))).
  rewrite held_fold by apply held_para_step. apply nonspace_split_NL2.
Qed.

Lemma concat_append_last final x :
  final <> [] -> List.concat (append_last final x) = List.concat final ++ NL2 ++ x.
Proof.
  induction final as [|y [|z ys] IH]; intros Hne; [done|simpl; by rewrite !app_nil_r|].
  change (append_last (y :: z :: ys) x) with (y :: append_last (z :: ys) x).
  simpl in *. rewrite IH by done. by rewrite !app_assoc.
Qed.

Lemma nonspace_merge_step final c :
  nonspace (List.concat (merge_step final c)) = nonspace (List.concat final) ++ nonspace c.
Proof.
  unfold merge_step. destruct final as [|y ys].
  - rewrite andb_false_r. simpl. by autorewrite with vigo_simpl.
  - destruct (_ <? _); cbn [andb negb].
    + rewrite concat_append_last by done. by autorewrite with vigo_simpl.
    + rewrite List.concat_app. cbn [List.concat]. by autorewrite with vigo_simpl.
Qed.

Lemma nonspace_merge cs final :
  nonspace (List.concat (fold_left merge_step cs final))
  = nonspace (List.concat final) ++ List.concat (map nonspace cs).
Proof.
  revert final. induction cs as [|c cs IH]; intros final; simpl; [by rewrite app_nil_r|].
  by rewrite IH, nonspace_merge_step, app_assoc.
Qed.

(** The heading split removes only newlines. *)
Lemma nonspace_heading_split s :
  List.concat (map nonspace (re_split heading_re s)) = nonspace s.
Proof. apply nonspace_re_split_char_ahead. intros c <-%Z.eqb_eq. reflexivity. Qed.

Lemma nonspace_segments s m : nonspace (List.concat (segments s m)) = nonspace s.
Proof.
  unfold segments, packed. rewrite nonspace_merge. cbn [List.concat].
  rewrite nonspace_nil, app_nil_l, <- nonspace_concat.
  destruct (3 <=? length (re_split heading_re s)).
  - by rewrite nonspace_structural_chunks, nonspace_heading_split.
  - by rewrite nonspace_paragraph_chunks.
Qed.

(** ** The merge pass *)

Definition long_enough (c : pystr) : Prop := CHUNK_MIN <= length c.

Lemma append_last_long_enough final x :
  Forall long_enough final -> Forall long_enough (append_last final x).
Proof.
  induction final as [|y [|z ys] IH]; intros Hf; [done| |].
  - cbn [append_last]. rewrite Forall_singleton in Hf |- *. unfold long_enough in *.
    rewrite length_app. lia.
  - apply Forall_cons in Hf as [Hy Hf]. change (append_last (y :: z :: ys) x)
      with (y :: append_last (z :: ys) x). constructor; auto.
Qed.

Lemma merge_step_tail final c :
  Forall long_enough (tail final) -> Forall long_enough (tail (merge_step final c)).
Proof.
  unfold merge_step. destruct final as [|y ys]; cbn [andb negb].
  - rewrite andb_false_r. done.
  - destruct (length c <? CHUNK_MIN) eqn:Hc; cbn [andb negb]; simpl.
    + destruct ys; [done|]. apply append_last_long_enough.
    + intros H. apply Forall_app; split; [done|]. apply Forall_singleton.
      unfold long_enough. bool_to_prop. lia.
Qed.

Lemma merge_tail cs final :
  Forall long_enough (tail final) ->
  Forall long_enough (tail (fold_left merge_step cs final)).
Proof.
  intros H. apply (fold_left_invariant (fun f => Forall long_enough (tail f))); [done|].
  intros acc x _. apply merge_step_tail.
Qed.

(** ** Length bounds of the packing phase *)

Section PackBound.
Variable max_size : nat.
(** The pieces that may stand alone above the bound. *)
Variable lone : pystr -> Prop.

Definition fits (c : pystr) : Prop := length c <= max_size + 2 \/ lone c.

Definition pack_inv (st : pack) : Prop := Forall fits (chunks st) /\ fits (current st).

Lemma flush_fits st : pack_inv st -> Forall fits (flush st).
Proof.
  intros [Hc Hcur]. unfold flush. destruct (current st); [done|].
  apply Forall_app; split; [done|]. by apply Forall_singleton.
Qed.

Lemma pack_step_inv st p : pack_inv st -> fits p -> pack_inv (pack_step max_size st p).
Proof.
  intros Hinv Hp. unfold pack_step. destruct (_ <=? _) eqn:Hle.
  - split; [apply Hinv|]. left. bool_to_prop. unfold join_piece.
    destruct (current st); simpl in *; rewrite ?length_app; simpl; lia.
  - split; [by apply flush_fits|done].
Qed.

Lemma pack_inv_empty cs : Forall fits cs -> pack_inv (Pack cs []).
Proof. split; [done|]. left; simpl; lia. Qed.
End PackBound.

Lemma fits_mono m (P Q : pystr -> Prop) c : (forall x, P x -> Q x) -> fits m P c -> fits m Q c.
Proof. intros HPQ [H|H]; [by left|right; auto]. Qed.

(** A paragraph of the fall-back strategy: a stripped paragraph of the text. *)
Definition text_paragraph (full_text c : pystr) : Prop :=
  exists p, In p (str_split NL2 full_text) /\ c = strip p.

(** Strategy 2 keeps every chunk within [max_size + 2] characters, unless
    the chunk is one paragraph of the text, which is never cut. *)
Lemma paragraph_chunks_bound m T :
  Forall (fits m (text_paragraph T)) (paragraph_chunks m T).
Proof.
  unfold paragraph_chunks. apply flush_fits.
  apply fold_left_invariant; [by apply pack_inv_empty|].
  intros st p Hin Hinv. unfold para_step. destruct (strip p) eqn:Hs; [done|].
  apply pack_step_inv; [done|]. right. exists p. by rewrite Hs.
Qed.

(** A paragraph of an oversized section, as [section.split('\n\n')] gives it
    (not stripped). *)
Definition section_paragraph (sections : list pystr) (c : pystr) : Prop :=
  exists sec, In sec sections /\ In c (str_split NL2 (strip sec)).

Lemma split_oversized_inv m secs cs sec :
  In sec secs -> Forall (fits m (section_paragraph secs)) cs ->
  pack_inv m (section_paragraph secs) (split_oversized m cs (strip sec)).
Proof.
  intros Hin Hcs. unfold split_oversized.
  assert (pack_inv m (section_paragraph secs)
            (fold_left (pack_step m) (str_split NL2 (strip sec)) (Pack cs []))) as [H1 H2].
  { apply fold_left_invariant; [by apply pack_inv_empty|].
    intros st p Hp Hinv. apply pack_step_inv; [done|]. right. by exists sec. }
  split; [done|]. by destruct (current _).
Qed.

(** Strategy 1 keeps every chunk within [max_size + 2] characters, unless
    the chunk is one paragraph of an oversized section. *)
Lemma structural_chunks_bound m secs :
  Forall (fits m (section_paragraph secs)) (structural_chunks m secs).
Proof.
  unfold structural_chunks. apply flush_fits.
  apply fold_left_invariant; [by apply pack_inv_empty|].
  intros st sec Hin Hinv. unfold section_step.
  destruct (strip sec) as [|c sec'] eqn:Hs; [done|].
  destruct (_ <=? _) eqn:Hle.
  - split; [apply Hinv|]. left. bool_to_prop. unfold join_piece.
    destruct (current st); simpl in *; rewrite ?length_app; simpl; lia.
  - destruct (m <? length (c :: sec')) eqn:Hlt.
    + rewrite <- Hs. apply split_oversized_inv; [done|]. by apply flush_fits.
    + split; [by apply flush_fits|]. left. bool_to_prop. simpl in *. lia.
Qed.

(** ** Properties of [smart_chunk_text] *)

(** C1: for a text longer than [max_size], [smart_chunk_text] returns the
    segments labelled [[title — Part i/n]] (or [[title]]) followed by a blank
    line, and the segments hold exactly the non-whitespace characters of the
    text, in their order: the strategies and the merge lose and reorder
    nothing but whitespace. *)
Theorem smart_chunk_text_preserves_text full_text doc_title max_size :
  max_size < length full_text ->
  smart_chunk_text full_text doc_title max_size
    = contextualize doc_title (segments full_text max_size) /\
  nonspace (List.concat (segments full_text max_size)) = nonspace full_text.
Proof.
  intros Hlong. split; [|apply nonspace_segments].
  unfold smart_chunk_text. destruct (Nat.leb_spec (length full_text) max_size); [lia|done].
Qed.

(** C2: after the merge pass, every segment but the first is at least
    [CHUNK_MIN] characters long; only a leading short chunk, which has no
    predecessor, survives. *)
Theorem segments_tail_long_enough full_text max_size :
  Forall long_enough (tail (segments full_text max_size)).
Proof. by apply merge_tail. Qed.

(** C3: every chunk of the packing phase has at most [max_size + 2]
    characters, unless it is a single paragraph longer than that: a stripped
    paragraph of the text (strategy 2) or a paragraph of an oversized
    section (strategy 1).  The [+ 2] is the ["\n\n"] joiner, which the size
    test [len(current_chunk) + len(section) <= max_size] does not count. *)
Theorem packed_length_bound full_text max_size :
  Forall (fits max_size (fun c => text_paragraph full_text c
                                \/ section_paragraph (re_split heading_re full_text) c))
    (packed full_text max_size).
Proof.
  unfold packed. destruct (3 <=? _).
  - eapply Forall_impl; [apply structural_chunks_bound|].
    intros c. apply fits_mono. auto.
  - eapply Forall_impl; [apply paragraph_chunks_bound|].
    intros c. apply fits_mono. auto.
Qed.

(** ** Concrete runs *)

(** A section ["k. A" ++ "xxx..."] of [n] characters. *)
Definition sample_section (k : Z) (n : nat) : pystr :=
  [48 + k; 46; 32; 65]%Z ++ repeat 120%Z (n - 4).

Definition sample_sections (n : nat) : pystr :=
  sample_section 1 n ++ [NL] ++ sample_section 2 n ++ [NL] ++ sample_section 3 n.

(** Fifty paragraphs of twenty characters, without headings. *)
Definition sample_paragraphs : pystr := join NL2 (repeat (repeat 97%Z 20) 50).

Lemma smart_chunk_text_preserves_text_witness :
  smart_chunk_text (sample_sections 400) (lit "SFC 26EC1") 1000
    = contextualize (lit "SFC 26EC1") (segments (sample_sections 400) 1000) /\
  nonspace (List.concat (segments (sample_sections 400) 1000)) = nonspace (sample_sections 400).
Proof. apply smart_chunk_text_preserves_text. apply Nat.ltb_lt. vm_compute. reflexivity. Defined.

(** Test: the scenario of the specification, three numbered sections of 400
    characters with [max_size = 1000]: the structural strategy packs the
    first two into one segment and the third into a second one.  The first
    segment has 802 characters, not 800: the joiner counts. *)
Example three_sections_scenario :
  3 <= length (re_split heading_re (sample_sections 400)) /\
  map length (segments (sample_sections 400) 1000) = [802; 400] /\
  map length (smart_chunk_text (sample_sections 400) (lit "T") 1000) = [818; 416].
Proof. vm_compute. split; [lia|]. split; reflexivity. Qed.

(** Test: fifty paragraphs of twenty characters with [max_size = 500]: the
    paragraph strategy applies, but the merge pass appends the 130-character
    tail to the previous chunk, so the second segment has 614 characters,
    above [max_size]. *)
Example paragraphs_scenario_exceeds_max :
  length (re_split heading_re sample_paragraphs) < 3 /\
  map length (segments sample_paragraphs 500) = [482; 614].
Proof. vm_compute. split; [lia|reflexivity]. Qed.

(** Test: with the default [CHUNK_MAX], three sections of 750 characters give a
    first segment of 1502 characters: the size test ignores the joiner. *)
Example joiner_exceeds_chunk_max :
  map length (segments (sample_sections 750) CHUNK_MAX) = [1502; 750].
Proof. vm_compute. reflexivity. Qed.




(** Test: a short first chunk is kept as it is when a long one follows: a
    paragraph of 100 characters before one of 1450 gives two segments, the
    first below [CHUNK_MIN]. *)
Example leading_short_segment_kept :
  map length (segments (repeat 97%Z 100 ++ NL2 ++ repeat 98%Z 1450) CHUNK_MAX) = [100; 1450].
Proof. vm_compute. reflexivity. Qed.

End Segmenter.
