(* ===== verification/Normalizer.v ===== *)
(** * The text normalizer: [extract_text_from_pdf]
      (src/auto_collect_upload.py:67-105)

    [extract_text_from_pdf] asks pdfplumber for the text of each page, keeps
    the pages whose text is not blank, joins them with a blank line and
    cleans the result with four substitutions: page numbers followed by
    blank lines, runs of three newlines or more, the SFC letterhead
    (DOTALL, non-greedy) and the Chinese address line (non-greedy, within a
    line).  It returns [None] when pdfplumber is missing, when it raises, or
    when no page has text.

    pdfplumber is a collaborator: the section variable [pdf_open] gives the
    text of each page ([None] for a page without text) or an error.
    Theorems: the error paths, and that the cleaning only deletes: the
    result is a subsequence of the joined page text. *)

From Stdlib Require Import ZArith Strings.String.
From stdpp Require Import base list.
From S2P Require Import Prelude.
From S2P Require Import PyStr.
From S2P Require Import Regex.

Module Normalizer.

(** What [pdfplumber.open(...).pages[i].extract_text()] gives. *)
Inductive pdf_result :=
| PdfPages (pages : list (option pystr))
| PdfError.

(** [r'(\d+)\s*\n\s*\n'] (line 90). *)
Definition page_number_re : regex :=
  RCat [RGroup 1 (RRepeat true 1 None is_decimal); RRepeat true 0 None is_space;
        RChar (Z.eqb NL); RRepeat true 0 None is_space; RChar (Z.eqb NL)].

(** [r'\n{3,}'] (line 91). *)
Definition blank_lines_re : regex := RRepeat true 3 None (Z.eqb NL).

(** [r'54/F,\s*One Island East.*?www\.sfc\.hk\s*(?:Page \d+ of \d+)?'] with
    [re.DOTALL] (lines 93-96). *)
Definition letterhead_re : regex :=
  RCat [RLit (lit "54/F,"); RRepeat true 0 None is_space; RLit (lit "One Island East");
        RRepeat false 0 None any_char; RLit (lit "www.sfc.hk"); RRepeat true 0 None is_space;
        ROpt (RCat [RLit (lit "Page "); RRepeat true 1 None is_decimal; RLit (lit " of ");
                    RRepeat true 1 None is_decimal])].

(** [r'香港鰂魚涌華蘭路.*?港島東中心.*?樓'] (lines 97-100). *)
Definition address_re : regex :=
  RCat [RLit [39321; 28207; 39938; 39770; 28044; 33775; 34349; 36335]%Z;
        RRepeat false 0 None not_newline; RLit [28207; 23798; 26481; 20013; 24515]%Z;
        RRepeat false 0 None not_newline; RChar (Z.eqb 27155)].

(** Lines 90-102: the four substitutions and the final [strip]. *)
Definition clean_pdf_text (full_text : pystr) : pystr :=
  let t1 := re_sub page_number_re (fun st => group full_text st 1 ++ [NL]) full_text in
  let t2 := re_sub blank_lines_re (fun _ => NL2) t1 in
  let t3 := re_sub letterhead_re (fun _ => []) t2 in
  let t4 := re_sub address_re (fun _ => []) t3 in
  strip t4.

(** Lines 77-81: the texts of the pages that are not blank, as extracted. *)
Definition pages_text (pages : list (option pystr)) : list pystr :=
  List.filter (fun t => negb (blank t)) (map (default []) pages).

Section Extract.
Context {bytes : Type}.
(** pdfplumber: the page texts of a PDF, or an exception. *)
Variable pdf_open : bytes -> pdf_result.

(** [extract_text_from_pdf] (lines 67-105); [pdfplumber_installed] is the
    outcome of [import pdfplumber]. *)
Definition extract_text_from_pdf (pdfplumber_installed : bool) (pdf_bytes : bytes)
  : option pystr :=
  if negb pdfplumber_installed then None
  else match pdf_open pdf_bytes with
       | PdfError => None
       | PdfPages pages =>
           match pages_text pages with
           | [] => None
           | texts => Some (clean_pdf_text (join NL2 texts))
           end
       end.
End Extract.

(** ** The cleaning only deletes *)

Lemma slice_consumed s a t rest e :
  drop a s = t ++ rest -> e = a + length t -> slice s a e = t.
Proof. intros Hd ->. unfold slice. rewrite Hd. replace (a + length t - a) with (length t) by lia.
  apply take_app_length. Qed.

(** [\1\n] is a subsequence of the text a page-number match covers. *)
Lemma page_number_repl_sublist s a st :
  matches page_number_re (MState a (drop a s) []) st ->
  group s st 1 ++ [NL] `sublist_of` slice s a (ms_pos st).
Proof.
  intros H. cbn [page_number_re RCat] in H.
  apply matches_seq_inv in H as (st1 & Hg & H).
  apply matches_group_inv in Hg as (d & Hd & ->).
  apply matches_seq_inv in H as (st2 & Hs1 & H).
  apply matches_seq_inv in H as (st3 & Hn & H).
  apply matches_char_inv in Hn as (c & rest & Hr2 & Hc%Z.eqb_eq & ->).
  pose proof (matches_caps _ _ _ H eq_refl) as Hcaps.
  pose proof (matches_caps _ _ _ Hs1 eq_refl) as Hcaps1.
  pose proof (matches_caps _ _ _ Hd eq_refl) as Hcapsd.
  apply matches_consume in Hd as (tD & HD & PD).
  apply matches_consume in Hs1 as (tS & HS & PS).
  apply matches_consume in H as (t' & HT & PT).
  simpl in *. subst c.
  assert (Hall : drop a s = tD ++ tS ++ NL :: t' ++ ms_rest st).
  { rewrite Hr2 in HT. simpl in HT. rewrite drop_0 in HT. by rewrite HD, HS, Hr2, HT. }
  unfold group. rewrite Hcaps. simpl in Hcaps1. rewrite Hcaps1, Hcapsd. simpl.
  rewrite (slice_consumed s a tD (tS ++ NL :: t' ++ ms_rest st) (ms_pos d)) by (done || lia).
  rewrite (slice_consumed s a (tD ++ tS ++ NL :: t') (ms_rest st) (ms_pos st)).
  - apply sublist_app; [done|]. apply sublist_inserts_l. apply sublist_skip, sublist_nil_l.
  - by rewrite Hall, <- !app_assoc.
  - rewrite PT, PS, PD, !length_app. simpl. unfold advance in *. simpl in *. lia.
Qed.

(** ["\n\n"] is a subsequence of the run of newlines a match covers. *)
Lemma blank_lines_repl_sublist s a st :
  matches blank_lines_re (MState a (drop a s) []) st -> NL2 `sublist_of` slice s a (ms_pos st).
Proof.
  intros H. inv H. cbn [advance ms_pos ms_rest] in *.
  match goal with Hn : ?n <= run_len _ _ |- _ => pose proof (run_len_take _ _ _ Hn) as Hall end.
  pose proof (run_len_le (Z.eqb NL) (drop a s)).
  unfold slice. replace (a + n - a) with n by lia.
  destruct (take n (drop a s)) as [|c1 [|c2 t]] eqn:Ht.
  - apply (f_equal length) in Ht. rewrite length_take in Ht. simpl in Ht. lia.
  - apply (f_equal length) in Ht. rewrite length_take in Ht. simpl in Ht. lia.
  - apply Forall_cons in Hall as [<-%Z.eqb_eq [<-%Z.eqb_eq _]%Forall_cons].
    apply sublist_skip, sublist_skip, sublist_nil_l.
Qed.

Lemma clean_pdf_text_sublist full_text : clean_pdf_text full_text `sublist_of` full_text.
Proof.
  unfold clean_pdf_text.
  etrans; [apply strip_sublist|].
  etrans; [apply re_sub_delete_sublist|].
  etrans; [apply re_sub_delete_sublist|].
  etrans; [apply re_sub_sublist; intros; by apply blank_lines_repl_sublist|].
  apply re_sub_sublist. intros. by apply page_number_repl_sublist.
Qed.

Section ExtractFacts.
Context {bytes : Type}.
Variable pdf_open : bytes -> pdf_result.

(** C12: [extract_text_from_pdf] fails exactly when pdfplumber is
    missing, when it raises, or when every page is blank; these failures
    are values, not exceptions. *)
Theorem extract_text_from_pdf_none installed b :
  extract_text_from_pdf pdf_open installed b = None <->
  installed = false \/ pdf_open b = PdfError \/
  exists pages, pdf_open b = PdfPages pages /\ pages_text pages = [].
Proof.
  unfold extract_text_from_pdf. destruct installed; simpl; [|split; auto].
  destruct (pdf_open b) as [pages|]; [|split; auto].
  destruct (pages_text pages) eqn:Hp; split; try done.
  - intros _. right; right. eauto.
  - intros [?|[?|(ps & [= <-] & Hps)]]; congruence.
Qed.

(** C13: the text [extract_text_from_pdf] returns is a subsequence of the
    joined text of the non-blank pages: the cleaning removes page-number
    lines, blank lines, the letterhead and the address, and adds
    nothing. *)
Theorem extract_text_from_pdf_sublist installed b t :
  extract_text_from_pdf pdf_open installed b = Some t ->
  exists pages, pdf_open b = PdfPages pages /\ t `sublist_of` join NL2 (pages_text pages).
Proof.
  unfold extract_text_from_pdf. destruct installed; [|done]. simpl.
  destruct (pdf_open b) as [pages|]; [|done].
  destruct (pages_text pages) eqn:Hp; [done|]. intros [= <-].
  exists pages. split; [done|]. rewrite Hp. apply clean_pdf_text_sublist.
Qed.
End ExtractFacts.

(** A two-page document whose first page ends with a page number and the
    letterhead. *)
Definition sample_pdf : pdf_result :=
  PdfPages [Some (lit "Para one ends 12" ++ [NL; 32; NL]%Z ++ lit "54/F, One Island East, 18"
                  ++ [NL] ++ lit "www.sfc.hk Page 2 of 5");
            None; Some (lit "Body.")].

Lemma extract_text_from_pdf_sublist_witness :
  exists pages, sample_pdf = PdfPages pages /\
    lit "Para one ends 12" ++ NL2 ++ lit "Body." `sublist_of` join NL2 (pages_text pages).
Proof.
  apply (extract_text_from_pdf_sublist (fun _ : unit => sample_pdf) true tt).
  vm_compute. reflexivity.
Defined.

(** Test: the page number, the blank lines and the letterhead are removed
    and the pages are joined by a blank line; a page without text is
    skipped. *)
Example extract_sample_pdf :
  extract_text_from_pdf (fun _ : unit => sample_pdf) true tt
  = Some (lit "Para one ends 12" ++ NL2 ++ lit "Body.").
Proof. vm_compute. reflexivity. Qed.

End Normalizer.
