(* ===== verification/Fetch.v ===== *)
(** * The fetcher: [fetch_sfc_content] (src/auto_collect_upload.py:199-243)

    [fetch_sfc_content ref api_path] gets
    [f"{SFC_API_BASE}/{api_path}?refNo={ref}&lang=EN"]; on status 200 it
    treats the body as a PDF when it starts with [%PDF] or the content type
    says [application/pdf] (text from [extract_text_from_pdf]), and as HTML
    otherwise (scripts, styles, tags and entities removed, whitespace
    collapsed).  A text of 200 characters or fewer, a JavaScript wall, a
    non-200 status or an exception give [(None, None)], here [None].

    The HTTP GET is the oracle [http_get]; pdfplumber is [pdf_open] and its
    presence [installed]; [str.lower] is [lower].  Theorems: the error
    paths, the length floor, and which extractor produced the text. *)

From Stdlib Require Import ZArith Strings.String.
From stdpp Require Import base list.
From S2P Require Import Prelude.
From S2P Require Import PyStr.
From S2P Require Import Regex.
From S2P Require Import Normalizer.

Module Fetch.
Import Normalizer.

(** A response of [requests.get]: status, [content-type] header, raw
    [content] bytes (as numbers) and decoded [text]; or an exception. *)
Inductive http_response :=
| HttpResponse (status : Z) (content_type : option pystr) (content : list Z) (text : pystr)
| HttpFailure.

(** The second component of the returned pair. *)
Inductive content_kind := KindPdf | KindHtml.

Definition SFC_API_BASE : pystr := lit "https://apps.sfc.hk/edistributionWeb/api".

(** Line 206. *)
Definition content_url (ref api_path : pystr) : pystr :=
  SFC_API_BASE ++ lit "/" ++ api_path ++ lit "?refNo=" ++ ref ++ lit "&lang=EN".

(** [r'<script[^>]*>.*?</script>'] and [r'<style[^>]*>.*?</style>'] with
    [re.DOTALL] (lines 231-232). *)
Definition not_gt (c : Z) : bool := negb (c =? 62)%Z.
Definition element_re (name : pystr) : regex :=
  RCat [RLit (lit "<" ++ name); RRepeat true 0 None not_gt; RChar (Z.eqb 62);
        RRepeat false 0 None any_char; RLit (lit "</" ++ name ++ lit ">")].

(** [r'<[^>]+>'] (line 233). *)
Definition tag_re : regex := RCat [RChar (Z.eqb 60); RRepeat true 1 None not_gt; RChar (Z.eqb 62)].

(** [r'&[a-zA-Z]+;'] (line 234). *)
Definition is_ascii_letter (c : Z) : bool := is_upper_ascii c || ((97 <=? c) && (c <=? 122))%Z.
Definition entity_re : regex :=
  RCat [RChar (Z.eqb 38); RRepeat true 1 None is_ascii_letter; RChar (Z.eqb 59)].

(** [r'\s+'] (line 235). *)
Definition spaces_re : regex := RRepeat true 1 None is_space.

Definition SPACE : pystr := [32%Z].

(** Lines 231-235. *)
Definition clean_html (text : pystr) : pystr :=
  let t1 := re_sub (element_re (lit "script")) (fun _ => []) text in
  let t2 := re_sub (element_re (lit "style")) (fun _ => []) t1 in
  let t3 := re_sub tag_re (fun _ => SPACE) t2 in
  let t4 := re_sub entity_re (fun _ => SPACE) t3 in
  strip (re_sub spaces_re (fun _ => SPACE) t4).

(** [b'%PDF']. *)
Definition PDF_MAGIC : list Z := [37; 80; 68; 70]%Z.

(** The minimum length of a usable text (lines 220, 237). *)
Definition MIN_TEXT : nat := 200.

Section FetchContent.
Variable http_get : pystr -> http_response.
Variable pdf_open : list Z -> pdf_result.
Variable installed : bool.
Variable lower : pystr -> pystr.

(** [fetch_sfc_content] (lines 199-243). *)
Definition fetch_sfc_content (ref api_path : pystr) : option (pystr * content_kind) :=
  match http_get (content_url ref api_path) with
  | HttpFailure => None
  | HttpResponse status ctype content text =>
      if negb (status =? 200)%Z then None
      else
        let content_type := lower (default [] ctype) in
        let raw_start := take 10 content in
        if is_prefix PDF_MAGIC raw_start || contains (lit "application/pdf") content_type then
          match extract_text_from_pdf pdf_open installed content with
          | Some t => if MIN_TEXT <? length t then Some (t, KindPdf) else None
          | None => None
          end
        else if contains (lit "You need to enable JavaScript") text then None
        else
          let t := clean_html text in
          if MIN_TEXT <? length t then Some (t, KindHtml) else None
  end.
End FetchContent.

(** ** Properties *)

Section FetchFacts.
Variable http_get : pystr -> http_response.
Variable pdf_open : list Z -> pdf_result.
Variable installed : bool.
Variable lower : pystr -> pystr.

(** C14: a fetched text comes from a status-200 response and has more
    than 200 characters; a PDF text is what [extract_text_from_pdf] gives
    for the body, an HTML text is the cleaned body of a page that is not a
    JavaScript wall. *)
Theorem fetch_sfc_content_spec ref api_path t k :
  fetch_sfc_content http_get pdf_open installed lower ref api_path = Some (t, k) ->
  exists ctype content text,
    http_get (content_url ref api_path) = HttpResponse 200 ctype content text /\
    MIN_TEXT < length t /\
    match k with
    | KindPdf => extract_text_from_pdf pdf_open installed content = Some t
    | KindHtml => t = clean_html text /\
                  contains (lit "You need to enable JavaScript") text = false
    end.
Proof.
  unfold fetch_sfc_content.
  destruct (http_get _) as [status ctype content text|]; [|done].
  destruct (status =? 200)%Z eqn:Hs; [|done]. bool_to_prop. subst status. cbn [negb].
  destruct (_ || _).
  - destruct (extract_text_from_pdf _ _ _) as [t'|] eqn:He; [|done].
    destruct (MIN_TEXT <? length t') eqn:Hl; [|done]. intros [= <- <-]. bool_to_prop.
    exists ctype, content, text. done.
  - destruct (contains _ text) eqn:Hj; [done|].
    destruct (MIN_TEXT <? length (clean_html text)) eqn:Hl; [|done].
    intros [= <- <-]. bool_to_prop. exists ctype, content, text. done.
Qed.
End FetchFacts.

(** An SFC news page of more than 200 characters of text. *)
Definition sample_page : pystr :=
  lit "<html><body><p>The SFC reprimands and fines a licensed corporation</p>"
  ++ repeat 97%Z 200 ++ lit "</body></html>".

Definition sample_get (url : pystr) : http_response :=
  HttpResponse 200 (Some (lit "text/html")) [] sample_page.

Lemma fetch_sfc_content_spec_witness :
  exists ctype content text,
    sample_get (content_url (lit "26PR1") (lit "news/list-content"))
      = HttpResponse 200 ctype content text /\
    MIN_TEXT < length (clean_html sample_page) /\
    clean_html sample_page = clean_html text /\
    contains (lit "You need to enable JavaScript") text = false.
Proof.
  apply (fetch_sfc_content_spec sample_get (fun _ => PdfError) true ascii_lower
           (lit "26PR1") (lit "news/list-content") (clean_html sample_page) KindHtml).
  vm_compute. reflexivity.
Defined.

(** Test: the HTML cleaning removes styles, scripts, tags and entities and
    collapses whitespace, as Python's [re.sub] calls do on this page. *)
Example clean_html_sample :
  clean_html (lit "<html><head><style>p{x:1}</style><script>var a=1;</script></head><body>"
              ++ lit "<p>SFC &amp; reprimand</p>" ++ NL2 ++ lit "<b>fine</b>  x</body></html>")
  = lit "SFC reprimand fine x".
Proof. vm_compute. reflexivity. Qed.

(** A page behind a JavaScript wall gives nothing. *)
Example javascript_wall_rejected :
  fetch_sfc_content
    (fun _ => HttpResponse 200 None [] (lit "You need to enable JavaScript to run this app."
                                         ++ repeat 97%Z 300))
    (fun _ => PdfError) true ascii_lower (lit "26PR1") (lit "news/list-content") = None.
Proof. vm_compute. reflexivity. Qed.

End Fetch.
