(* ===== verification/Metadata.v ===== *)
(** * The metadata builder (src/auto_collect_upload.py:359-398)

    [build_official_url] maps a document type to its human-readable SFC
    link; the first lines of [create_bilingual_chunks] choose the English
    and Chinese type labels ([type_labels.get(doc_type, ...)]) and derive
    the keyword tags of a document from a fixed phrase-to-tag dictionary
    ([kw_map]) scanned in insertion order over the lowercased text of all its
    chunks, starting from ["SFC"] and cut to six tags.

    [str.lower] is a section variable ([lower]): it is Python's Unicode case
    mapping, outside the repository; the theorems hold for any lowering, and
    the examples use [ascii_lower].  Theorems: the keyword list starts with
    ["SFC"], has no duplicates and at most six tags, each justified by a
    phrase of the text; a tag whose phrase occurs is missing only when the
    cap is reached; tags come in dictionary order, not text order; phrases
    match inside words. *)

From Stdlib Require Import ZArith Strings.String.
From stdpp Require Import base list.
From S2P Require Import Prelude.
From S2P Require Import PyStr.

Module Metadata.

(** [build_official_url] (lines 359-367). *)
Definition build_official_url (ref doc_type : pystr) : pystr :=
  if str_in doc_type [lit "circular"] then
    lit "https://apps.sfc.hk/edistributionWeb/gateway/EN/circular/doc?refNo=" ++ ref
  else if str_in doc_type [lit "enforcement"; lit "vatp"; lit "press_release"] then
    lit "https://apps.sfc.hk/edistributionWeb/gateway/EN/news-and-announcements/news/doc?refNo="
      ++ ref
  else if str_in doc_type [lit "consultation"; lit "consultation_conclusion"] then
    lit "https://apps.sfc.hk/edistributionWeb/gateway/EN/consultation/doc?refNo=" ++ ref
  else lit "https://www.sfc.hk/en/".

(** [type_labels] (lines 377-384): English and Chinese labels. *)
Definition type_labels : list (pystr * (pystr * pystr)) :=
  [(lit "circular", (lit "Circular", [36890; 20989]%Z));
   (lit "enforcement", (lit "Enforcement", [22519; 27861; 34892; 21205]%Z));
   (lit "consultation", (lit "Consultation", [35566; 35426; 25991; 20214]%Z));
   (lit "vatp", (lit "Virtual Asset", [34395; 25836; 36039; 29986]%Z));
   (lit "press_release", (lit "Press Release", [26032; 32862; 31295]%Z));
   (lit "enforcement_summary", (lit "Enforcement Summary", [22519; 27861; 25688; 35201]%Z))].

(** [type_labels.get(doc_type, ("Update", "動態"))] (line 385). *)
Definition labels_of (doc_type : pystr) : pystr * pystr :=
  dict_get type_labels doc_type (lit "Update", [21205; 24907]%Z).

(** [kw_map] (lines 390-394), in insertion order. *)
Definition kw_map : list (pystr * pystr) :=
  [(lit "virtual asset", lit "VATP"); (lit "vatp", lit "VATP"); (lit "aml", lit "AML");
   (lit "aspire", lit "ASPIRe"); (lit "sponsor", lit "Sponsor"); (lit "ipo", lit "IPO");
   (lit "type 1", lit "Type1"); (lit "type 9", lit "Type9");
   (lit "stablecoin", lit "Stablecoin"); (lit "staking", lit "Staking");
   (lit "enforcement", lit "Enforcement"); (lit "consultation", lit "Consultation");
   (lit "circular", lit "Circular")].

Definition SFC_tag : pystr := lit "SFC".

(** [keywords = keywords[:6]] (line 398). *)
Definition MAX_KEYWORDS : nat := 6.

Section Keywords.
(** Python's [str.lower]. *)
Variable lower : pystr -> pystr.

(** The body of the loop of lines 395-397. *)
Definition keyword_step (combined : pystr) (keywords : list pystr) (entry : pystr * pystr)
  : list pystr :=
  let '(kw, tag) := entry in
  if contains kw combined && negb (str_in tag keywords) then keywords ++ [tag] else keywords.

(** [" ".join(text_chunks).lower()] (line 388). *)
Definition combined_text (text_chunks : list pystr) : pystr := lower (join (lit " ") text_chunks).

(** The keyword list before the cut. *)
Definition keywords_all (text_chunks : list pystr) : list pystr :=
  fold_left (keyword_step (combined_text text_chunks)) kw_map [SFC_tag].

(** Lines 388-398. *)
Definition detect_keywords (text_chunks : list pystr) : list pystr :=
  take MAX_KEYWORDS (keywords_all text_chunks).
End Keywords.

(** ** Keyword tags *)

Section KeywordFacts.
Variable combined : pystr.

(** A tag is justified when it is the default tag or the tag of a phrase
    that occurs in the lowercased text. *)
Definition justified (t : pystr) : Prop :=
  t = SFC_tag \/ exists kw, In (kw, t) kw_map /\ contains kw combined = true.

Definition keywords_inv (ks : list pystr) : Prop :=
  head ks = Some SFC_tag /\ NoDup ks /\ Forall justified ks.

Lemma keyword_step_inv ks e :
  In e kw_map -> keywords_inv ks -> keywords_inv (keyword_step combined ks e).
Proof.
  destruct e as [kw t]. intros Hin (Hhd & Hnd & Hj). unfold keyword_step.
  destruct (contains kw combined) eqn:Hc; [|done].
  destruct (str_in t ks) eqn:Hs; [done|]. unfold str_in in Hs.
  apply bool_decide_eq_false in Hs. split_and!.
  - destruct ks; [done|]. done.
  - apply NoDup_app. split_and!; [done| |apply NoDup_singleton].
    intros x Hx ->%list_elem_of_singleton. done.
  - apply Forall_app; split; [done|]. apply Forall_singleton. right. eauto.
Qed.

(** Keyword lists only grow, by appending. *)
Lemma keyword_fold_extends l ks :
  exists ext, fold_left (keyword_step combined) l ks = ks ++ ext /\ ext `sublist_of` map snd l.
Proof.
  revert ks. induction l as [|[kw t] l IH]; intros ks; cbn [fold_left map].
  - exists []. by rewrite app_nil_r.
  - assert (Hstep : keyword_step combined ks (kw, t) = ks ++ [t]
                    \/ keyword_step combined ks (kw, t) = ks)
      by (unfold keyword_step; destruct (_ && _); auto).
    destruct Hstep as [-> | ->].
    + destruct (IH (ks ++ [t])) as (ext & -> & Hsub). exists (t :: ext).
      rewrite <- app_assoc. split; [done|]. by apply sublist_skip.
    + destruct (IH ks) as (ext & -> & Hsub). exists ext. split; [done|].
      by apply sublist_cons.
Qed.

Lemma keyword_fold_complete l ks kw t :
  In (kw, t) l -> contains kw combined = true -> t ∈ fold_left (keyword_step combined) l ks.
Proof.
  revert ks. induction l as [|[kw' t'] l IH]; intros ks Hin Hc; [done|]. cbn [fold_left].
  destruct Hin as [[= -> ->]|Hin]; [|by apply IH].
  destruct (keyword_fold_extends l (keyword_step combined ks (kw, t))) as (ext & -> & _).
  apply elem_of_app. left. unfold keyword_step. rewrite Hc. simpl.
  destruct (str_in t ks) eqn:Hs; simpl.
  - unfold str_in in Hs. by apply bool_decide_eq_true in Hs.
  - apply elem_of_app. right. by apply list_elem_of_singleton.
Qed.
End KeywordFacts.

(** C5: the keyword tags of a document start with ["SFC"], have no
    duplicates and at most six entries, and every other tag is the tag of a
    phrase of [kw_map] that occurs in the lowercased text of the chunks. *)
Theorem detect_keywords_sound lower text_chunks :
  let ks := detect_keywords lower text_chunks in
  head ks = Some SFC_tag /\ NoDup ks /\ length ks <= MAX_KEYWORDS /\
  Forall (justified (combined_text lower text_chunks)) ks.
Proof.
  intros ks.
  assert (keywords_inv (combined_text lower text_chunks) (keywords_all lower text_chunks))
    as (Hhd & Hnd & Hj).
  { unfold keywords_all. apply fold_left_invariant; [|intros; by apply keyword_step_inv].
    split_and!; [done|apply NoDup_singleton|]. apply Forall_singleton. by left. }
  assert (Hsub : ks `sublist_of` keywords_all lower text_chunks) by apply sublist_take.
  split_and!.
  - subst ks. unfold detect_keywords. destruct (keywords_all _ _); [done|]. done.
  - by eapply sublist_NoDup.
  - subst ks. unfold detect_keywords. rewrite length_take. lia.
  - apply Forall_forall. intros x Hx. apply (sublist_subseteq _ _ Hsub) in Hx.
    by eapply Forall_forall in Hj.
Qed.

(** C6: a tag whose phrase occurs in the lowercased text is among the
    tags, unless the six places are already taken. *)
Theorem detect_keywords_complete lower text_chunks kw t :
  In (kw, t) kw_map -> contains kw (combined_text lower text_chunks) = true ->
  t ∈ detect_keywords lower text_chunks \/ length (detect_keywords lower text_chunks) = MAX_KEYWORDS.
Proof.
  intros Hin Hc. pose proof (keyword_fold_complete _ kw_map [SFC_tag] kw t Hin Hc) as Ht.
  fold (keywords_all lower text_chunks) in Ht. unfold detect_keywords.
  destruct (decide (length (keywords_all lower text_chunks) <= MAX_KEYWORDS)) as [Hle|Hgt].
  - left. by rewrite take_ge.
  - right. rewrite length_take. lia.
Qed.

(** C7: tags come in the order of the dictionary [kw_map], whatever the
    order of the phrases in the text. *)
Theorem detect_keywords_dictionary_order lower text_chunks :
  detect_keywords lower text_chunks `sublist_of` SFC_tag :: map snd kw_map.
Proof.
  unfold detect_keywords, keywords_all.
  destruct (keyword_fold_extends (combined_text lower text_chunks) kw_map [SFC_tag])
    as (ext & -> & Hsub).
  etrans; [apply sublist_take|]. by apply sublist_skip.
Qed.

Lemma detect_keywords_complete_witness :
  In (lit "enforcement", lit "Enforcement") kw_map /\
  contains (lit "enforcement") (combined_text ascii_lower [lit "SFC Enforcement news"]) = true /\
  (lit "Enforcement" ∈ detect_keywords ascii_lower [lit "SFC Enforcement news"]
   \/ length (detect_keywords ascii_lower [lit "SFC Enforcement news"]) = MAX_KEYWORDS).
Proof.
  assert (Hin : In (lit "enforcement", lit "Enforcement") kw_map) by (simpl; tauto).
  assert (Hc : contains (lit "enforcement") (combined_text ascii_lower [lit "SFC Enforcement news"])
               = true) by (vm_compute; reflexivity).
  split; [exact Hin|]. split; [exact Hc|]. exact (detect_keywords_complete _ _ _ _ Hin Hc).
Defined.

(** Test: the scenario of the specification: a text mentioning an
    enforcement action before a virtual asset gets the tags [VATP] and
    [Enforcement] besides ["SFC"], in dictionary order. *)
Example keywords_scenario :
  detect_keywords ascii_lower
    [lit "The SFC took Enforcement action"; lit "against a Virtual Asset platform."]
  = [lit "SFC"; lit "VATP"; lit "Enforcement"].
Proof. vm_compute. reflexivity. Qed.

(** Test: phrases match inside words: ["streamlined"] yields the [AML] tag
    and ["type 10"] the [Type1] tag. *)
Example keywords_match_inside_words :
  detect_keywords ascii_lower [lit "A streamlined process for Type 10 licences."]
  = [lit "SFC"; lit "AML"; lit "Type1"].
Proof. vm_compute. reflexivity. Qed.

End Metadata.
