(* ===== verification/Bilingual.v ===== *)
(** * The bilingual expander: [create_bilingual_chunks]
      (src/auto_collect_upload.py:271-286, 348-353, 370-440)

    For each text chunk of a document, [create_bilingual_chunks] emits an
    English record (header, chunk, provenance footer), asks the DeepSeek
    chat API for a Chinese translation of the chunk ([translate_to_chinese]
    -> [deepseek_chat]), emits a Chinese record when the translation has more
    than 80 characters, and sleeps one second.

    The chat API is an oracle [chat_api] (a section variable): the HTTP
    exchange of [deepseek_chat], which answers with a status and the
    message content, or fails.  The run date ([datetime.now()]) is the
    variable [today].  The calls and sleeps are events of a trace
    ([traced], Prelude).  Theorems: the records are, per chunk and in order,
    the English record followed by the Chinese one when the translation is
    accepted; the trace is one chat call followed by a one-second sleep per
    chunk; every record carries the document's shared metadata. *)

From Stdlib Require Import ZArith Strings.String.
From stdpp Require Import base list.
From S2P Require Import Prelude.
From S2P Require Import PyStr.
From S2P Require Import Json.
From S2P Require Import Metadata.

Module Bilingual.
Import Json Metadata.

(** The request [deepseek_chat] posts (lines 276-278): prompt, [max_tokens],
    and [temperature] in hundredths. *)
Record chat_request := ChatRequest { prompt : pystr; max_tokens : nat; temperature_pct : nat }.

(** What the HTTP exchange gives back: a status and the
    [choices[0].message.content] field if the body has one, or an exception
    (timeout, connection error). *)
Inductive chat_response :=
| ChatReply (status : Z) (content : option pystr)
| ChatFailure.

(** The fields of [base_meta] plus ["language"] (lines 402-412, 421, 434),
    in the order of the dictionary. *)
Record meta := Meta {
  m_source : pystr; m_source_url : pystr; m_doc_type : pystr; m_category : pystr;
  m_ref_no : pystr; m_source_table : pystr; m_keywords : list pystr;
  m_collected_date : pystr; m_content_type : pystr; m_language : pystr }.

(** The effects of the program on the outside world, in the order it
    performs them: a chat completion, a sleep of [ms] milliseconds, an
    embedding request for [input] (line 253), the insertion of a knowledge
    record with its embedding (line 314), the insertion of a suggested
    question for the record [kid] (line 328), and the write of the backup
    file (lines 586-587). *)
Inductive event :=
| EvChat (req : chat_request)
| EvSleep (ms : nat)
| EvEmbed (input : pystr)
| EvInsert (content : pystr) (m : meta) (embedding : json)
| EvQuestion (question : json) (category : pystr) (keywords : list pystr) (kid : json)
| EvBackup (filename : pystr) (text : pystr).

(** A record of [all_vigo_chunks]: [content], [metadata], [lang]. *)
Record vigo_chunk := VigoChunk { content : pystr; metadata : meta; lang : pystr }.

(** The prompt of [translate_to_chinese] around [text[:3500]] (lines 349-352). *)
Definition translate_prompt_head : pystr :=
  [20320; 26159; 32; 83; 70; 67; 32; 30435; 31649; 24773; 22577; 32763; 35695; 24107; 12290;
   32763; 35695; 28858; 32321; 39636; 20013; 25991; 25688; 35201; 12290; 10; 35201; 27714;
   65306; 20445; 30041; 23560; 26989; 34899; 35486; 33521; 25991; 43; 25324; 34399; 65292;
   22914; 65306; 25345; 29260; 27861; 22296; 32; 40; 76; 105; 99; 101; 110; 115; 101; 100;
   32; 67; 111; 114; 112; 111; 114; 97; 116; 105; 111; 110; 41; 12290; 20445; 30041; 26085;
   26399; 12289; 37329; 38989; 12289; 32232; 34399; 12290; 10; 21407; 25991; 65306]%Z.
Definition translate_prompt_tail : pystr := [10; 21482; 36820; 22238; 32763; 35695; 12290]%Z.

(** [translate_to_chinese]'s call (line 353). *)
Definition translate_request (text : pystr) : chat_request :=
  ChatRequest (translate_prompt_head ++ take 3500 text ++ translate_prompt_tail) 800 20.

(** ["SFC_Official_"], the footers and the header brackets (lines 403, 415-430). *)
Definition HEADER_OPEN : pystr := [12304%Z] ++ lit "SFC ".
Definition HEADER_CLOSE : pystr := [12305%Z].
Definition DASH : pystr := [32; 8212; 32]%Z.
Definition zh_source_label : pystr :=
  [36039; 26009; 20358; 28304; 65306; 35657; 30435; 26371; 23448; 26041; 32; 40]%Z.
Definition zh_link_label : pystr := [41; 10; 21407; 25991; 37832; 25509; 65306]%Z.

(** The quality floor of the translation (line 427). *)
Definition MIN_TRANSLATION : nat := 80.

Section Expander.
(** The DeepSeek HTTP exchange. *)
Variable chat_api : chat_request -> chat_response.
(** [datetime.now().strftime("%Y-%m-%d")]. *)
Variable today : pystr.

(** [deepseek_chat] (lines 271-286): the stripped content on status 200,
    [None] on any other status, a malformed body or an exception. *)
Definition deepseek_chat (req : chat_request) : traced event (option pystr) :=
  _ ← emit (EvChat req);
  mret (match chat_api req with
        | ChatReply status (Some c) => if (status =? 200)%Z then Some (strip c) else None
        | _ => None
        end).

(** [translate_to_chinese] (lines 348-353). *)
Definition translate_to_chinese (text : pystr) : traced event (option pystr) :=
  deepseek_chat (translate_request text).

(** [base_meta] (lines 402-412). *)
Definition base_meta (ref doc_type official_url : pystr) (keywords : list pystr) (n : nat)
    (language : pystr) : meta :=
  Meta (lit "SFC_Official_" ++ ref) official_url doc_type (lit "SFC") ref (lit "vigo_financial")
    keywords today (if 1 <? n then lit "pdf_extract" else lit "html") language.

(** [f" (Part {i+1}/{n})" if n > 1 else ""] (line 401). *)
Definition part_label (i n : nat) : pystr :=
  if 1 <? n then lit " (Part " ++ str_of_nat (S i) ++ lit "/" ++ str_of_nat n ++ lit ")"
  else [].

(** The English record (lines 415-423). *)
Definition en_chunk (ref doc_type official_url en_label : pystr) (keywords : list pystr)
    (n i : nat) (chunk_text : pystr) : vigo_chunk :=
  VigoChunk
    (HEADER_OPEN ++ en_label ++ part_label i n ++ DASH ++ ref ++ HEADER_CLOSE ++ NL2 ++ chunk_text
     ++ NL2 ++ lit "---" ++ [NL] ++ lit "Source: SFC Official (" ++ ref ++ lit ")" ++ [NL]
     ++ lit "Full document: " ++ official_url)
    (base_meta ref doc_type official_url keywords n (lit "en")) (lit "EN").

(** The Chinese record (lines 428-436). *)
Definition zh_chunk (ref doc_type official_url zh_label : pystr) (keywords : list pystr)
    (n i : nat) (translation : pystr) : vigo_chunk :=
  VigoChunk
    (HEADER_OPEN ++ zh_label ++ part_label i n ++ DASH ++ ref ++ HEADER_CLOSE ++ NL2 ++ translation
     ++ NL2 ++ lit "---" ++ [NL] ++ zh_source_label ++ ref ++ zh_link_label ++ official_url)
    (base_meta ref doc_type official_url keywords n (lit "zh")) (lit "ZH").

(** [if zh_translation and len(zh_translation) > 80] (line 427). *)
Definition accepted (t : option pystr) : option pystr :=
  match t with
  | Some s => if MIN_TRANSLATION <? length s then Some s else None
  | None => None
  end.

(** The body of the loop of lines 400-438. *)
Definition chunk_records (ref doc_type official_url : pystr) (labels : pystr * pystr)
    (keywords : list pystr) (n i : nat) (chunk_text : pystr) : traced event (list vigo_chunk) :=
  let en := en_chunk ref doc_type official_url labels.1 keywords n i chunk_text in
  zh ← translate_to_chinese chunk_text;
  _ ← emit (EvSleep 1000);
  mret (en :: match accepted zh with
              | Some t => [zh_chunk ref doc_type official_url labels.2 keywords n i t]
              | None => []
              end).

Fixpoint records_from (ref doc_type official_url : pystr) (labels : pystr * pystr)
    (keywords : list pystr) (n i : nat) (chunks : list pystr) : traced event (list vigo_chunk) :=
  match chunks with
  | [] => mret []
  | c :: cs =>
      r ← chunk_records ref doc_type official_url labels keywords n i c;
      rs ← records_from ref doc_type official_url labels keywords n (S i) cs;
      mret (r ++ rs)
  end.

(** [create_bilingual_chunks] (lines 370-440); [source_url] is not used
    by the code. *)
Definition create_bilingual_chunks (lower : pystr -> pystr) (ref : pystr)
    (text_chunks : list pystr) (doc_type source_url : pystr) : traced event (list vigo_chunk) :=
  let official_url := build_official_url ref doc_type in
  records_from ref doc_type official_url (labels_of doc_type)
    (detect_keywords lower text_chunks) (length text_chunks) 0 text_chunks.
End Expander.

(** ** Properties *)

Section ExpanderFacts.
Variable chat_api : chat_request -> chat_response.
Variable today : pystr.
Variables (ref doc_type official_url : pystr) (labels : pystr * pystr) (keywords : list pystr).
Variable n : nat.

(** What [deepseek_chat] returns for a request, without its effect. *)
Definition chat_result (req : chat_request) : option pystr := value (deepseek_chat chat_api req).

(** The records of chunk [i]: the English one, then the Chinese one when
    the translation is accepted. *)
Definition records_of (i : nat) (c : pystr) : list vigo_chunk :=
  en_chunk today ref doc_type official_url labels.1 keywords n i c ::
  match accepted (chat_result (translate_request c)) with
  | Some t => [zh_chunk today ref doc_type official_url labels.2 keywords n i t]
  | None => []
  end.

Lemma chunk_records_value i c :
  value (chunk_records chat_api today ref doc_type official_url labels keywords n i c)
  = records_of i c.
Proof. reflexivity. Qed.

Lemma chunk_records_effects i c :
  effects (chunk_records chat_api today ref doc_type official_url labels keywords n i c)
  = [EvChat (translate_request c); EvSleep 1000].
Proof. reflexivity. Qed.

Lemma records_from_value cs : forall i,
  value (records_from chat_api today ref doc_type official_url labels keywords n i cs)
  = List.concat (imap (fun j c => records_of (i + j) c) cs).
Proof.
  induction cs as [|c cs IH]; intros i; [done|]. cbn [records_from].
  autorewrite with vigo_simpl. rewrite chunk_records_value, IH, imap_cons.
  cbn [List.concat]. rewrite Nat.add_0_r. f_equal. f_equal.
  apply imap_ext. intros j x _. simpl. f_equal. lia.
Qed.

Lemma records_from_effects cs : forall i,
  effects (records_from chat_api today ref doc_type official_url labels keywords n i cs)
  = List.concat (map (fun c => [EvChat (translate_request c); EvSleep 1000]) cs).
Proof.
  induction cs as [|c cs IH]; intros i; [done|]. cbn [records_from].
  autorewrite with vigo_simpl. rewrite chunk_records_effects, IH. reflexivity.
Qed.

(** Every record carries the shared metadata, in its language. *)
Lemma records_of_meta i c :
  Forall (fun r => metadata r = base_meta today ref doc_type official_url keywords n
                                  (if str_eqb (lang r) (lit "EN") then lit "en" else lit "zh"))
    (records_of i c).
Proof.
  unfold records_of. constructor; [reflexivity|].
  destruct (accepted _); repeat constructor.
Qed.
End ExpanderFacts.

(** The records of chunk [i] of a document, as [create_bilingual_chunks]
    computes its URL, labels and keywords. *)
Definition doc_records chat_api today lower (ref doc_type : pystr) (text_chunks : list pystr) :=
  records_of chat_api today ref doc_type (build_official_url ref doc_type) (labels_of doc_type)
    (detect_keywords lower text_chunks) (length text_chunks).

(** Whether the translation of a chunk is accepted. *)
Definition translated chat_api (c : pystr) : bool :=
  if accepted (chat_result chat_api (translate_request c)) is Some _ then true else false.

Section Document.
Variable chat_api : chat_request -> chat_response.
Variable today : pystr.
Variable lower : pystr -> pystr.
Variables (ref doc_type source_url : pystr) (text_chunks : list pystr).

Lemma create_bilingual_chunks_value :
  value (create_bilingual_chunks chat_api today lower ref text_chunks doc_type source_url)
  = List.concat (imap (doc_records chat_api today lower ref doc_type text_chunks) text_chunks).
Proof. unfold create_bilingual_chunks. by rewrite records_from_value. Qed.

(** C11: when no translation is accepted (each one failed or has at most
    80 characters), the records are exactly the English records of the
    chunks, in order: failures are dropped silently, never raised. *)
Theorem failed_translations_english_only :
  Forall (fun c => translated chat_api c = false) text_chunks ->
  value (create_bilingual_chunks chat_api today lower ref text_chunks doc_type source_url)
  = imap (en_chunk today ref doc_type (build_official_url ref doc_type) (labels_of doc_type).1
            (detect_keywords lower text_chunks) (length text_chunks)) text_chunks.
Proof.
  intros Hall. rewrite create_bilingual_chunks_value. apply concat_imap_singleton.
  intros i c Hi. pose proof (Forall_lookup_1 _ _ _ _ Hall Hi) as Hc. simpl in Hc.
  unfold doc_records, records_of. unfold translated in Hc. by destruct (accepted _).
Qed.

(** C8: the collaborator is called once per chunk, in the order of the
    chunks, with the chunk's translation prompt, and each call is followed
    by a one-second pause before the next one. *)
Theorem create_bilingual_chunks_throttled :
  effects (create_bilingual_chunks chat_api today lower ref text_chunks doc_type source_url)
  = List.concat (map (fun c => [EvChat (translate_request c); EvSleep 1000]) text_chunks).
Proof. unfold create_bilingual_chunks. apply records_from_effects. Qed.

Lemma sum_records (l : list pystr) :
  sum_list (map (fun c => S (if translated chat_api c then 1 else 0)) l)
  = length l + length (List.filter (translated chat_api) l).
Proof. induction l as [|c l IH]; [done|]. simpl. destruct (translated chat_api c); simpl; lia. Qed.

(** C9: one English record per chunk, plus one Chinese record for each
    chunk whose translation is accepted: a failed or short translation
    drops the Chinese record silently. *)
Theorem create_bilingual_chunks_count :
  length (value (create_bilingual_chunks chat_api today lower ref text_chunks doc_type
                   source_url))
  = length text_chunks + length (List.filter (translated chat_api) text_chunks).
Proof.
  rewrite create_bilingual_chunks_value, <- sum_records.
  apply length_concat_imap. intros i c. unfold doc_records, records_of, translated.
  by destruct (accepted _).
Qed.

(** C10: every record of a document carries the same source, link,
    document type, keywords, date and content type; they differ only in
    content and language. *)
Theorem create_bilingual_chunks_shared_meta :
  Forall (fun r => metadata r
                   = base_meta today ref doc_type (build_official_url ref doc_type)
                       (detect_keywords lower text_chunks) (length text_chunks)
                       (if str_eqb (lang r) (lit "EN") then lit "en" else lit "zh"))
    (value (create_bilingual_chunks chat_api today lower ref text_chunks doc_type source_url)).
Proof.
  rewrite create_bilingual_chunks_value. apply Forall_concat, Forall_forall.
  intros rs (i & c & -> & _)%elem_of_lookup_imap. apply records_of_meta.
Qed.
End Document.

(** ** Concrete runs *)

(** A chat API that answers every request with [k] copies of 文. *)
Definition reply_of_length (k : nat) (req : chat_request) : chat_response :=
  ChatReply 200 (Some (repeat 25991%Z k)).

(** Test: the scenario of the specification: when the translation has 40
    characters, below the floor of 80, only the English record is emitted,
    and the call and the pause still happen. *)
Example short_translation_dropped :
  let run := create_bilingual_chunks (reply_of_length 40) (lit "2026-11-09") ascii_lower
               (lit "26EC1") [lit "1. Scope of this circular."] (lit "circular") [] in
  map lang (value run) = [lit "EN"] /\ length (effects run) = 2.
Proof. vm_compute. split; reflexivity. Qed.

Lemma failed_translations_english_only_witness :
  Forall (fun c => translated (reply_of_length 40) c = false) [lit "1. Scope of this circular."] /\
  value (create_bilingual_chunks (reply_of_length 40) (lit "2026-11-09") ascii_lower (lit "26EC1")
           [lit "1. Scope of this circular."] (lit "circular") [])
  = imap (en_chunk (lit "2026-11-09") (lit "26EC1") (lit "circular")
            (build_official_url (lit "26EC1") (lit "circular")) (labels_of (lit "circular")).1
            (detect_keywords ascii_lower [lit "1. Scope of this circular."]) 1)
      [lit "1. Scope of this circular."].
Proof.
  assert (H : Forall (fun c => translated (reply_of_length 40) c = false)
                [lit "1. Scope of this circular."]) by (constructor; [reflexivity|constructor]).
  split; [exact H|].
  exact (failed_translations_english_only (reply_of_length 40) (lit "2026-11-09") ascii_lower
           (lit "26EC1") (lit "circular") [] [lit "1. Scope of this circular."] H).
Defined.

(** With a 90-character translation both records are emitted. *)
Example long_translation_kept :
  map lang (value (create_bilingual_chunks (reply_of_length 90) (lit "2026-11-09") ascii_lower
                     (lit "26EC1") [lit "1. Scope of this circular."] (lit "circular") []))
  = [lit "EN"; lit "ZH"].
Proof. vm_compute. reflexivity. Qed.

(** Test: the ["content_type"] field says ["pdf_extract"] whenever a document has
    more than one chunk, also for an HTML enforcement news page, and
    ["html"] for a one-chunk document, also a PDF circular. *)
Example content_type_from_chunk_count :
  map (fun r => m_content_type (metadata r))
    (value (create_bilingual_chunks (fun _ => ChatFailure) (lit "2026-11-09") ascii_lower
              (lit "26PR10") [lit "part one"; lit "part two"] (lit "enforcement") []))
  = [lit "pdf_extract"; lit "pdf_extract"] /\
  map (fun r => m_content_type (metadata r))
    (value (create_bilingual_chunks (fun _ => ChatFailure) (lit "2026-11-09") ascii_lower
              (lit "26EC1") [lit "one chunk"] (lit "circular") []))
  = [lit "html"].
Proof. vm_compute. split; reflexivity. Qed.

End Bilingual.
