(* ===== verification/Upload.v ===== *)
(** * The uploader: [generate_embedding], [generate_questions],
      [upload_chunk] (src/auto_collect_upload.py:249-268, 289-342)

    [upload_chunk] asks OpenAI for the embedding of a record
    ([generate_embedding]: at most three attempts, sleeping [min(2**a, 8)]
    seconds after a transient status and two seconds after an exception),
    inserts the record with its embedding into Supabase, and on success asks
    DeepSeek for two questions a user could ask ([generate_questions]),
    which it inserts one by one with a pause of 0.2 seconds.  It returns the
    id of the inserted record, or [None].

    The services answer as a function of the history of effects before the
    call ([io], Prelude): [http_env] for the OpenAI and Supabase POSTs,
    [chat_env] for DeepSeek.  [json.loads] is [json_loads].  Python's
    [None] is [JNull]: [generate_embedding] and [upload_chunk] return a JSON
    value, and their callers test it for truth.  Theorems: the retry loop
    refines a protocol of at most three attempts; the questions kept are
    at most two values of length five or more; a record is inserted exactly
    when the embedding is usable. *)

From Stdlib Require Import ZArith QArith Strings.String.
From stdpp Require Import base list.
From S2P Require Import Prelude.
From S2P Require Import PyStr.
From S2P Require Import Json.
From S2P Require Import Regex.
From S2P Require Import Bilingual.

Module Upload.
Import Json Bilingual.
Local Set Warnings "-abstract-large-number".

(** A reply of [requests.post]: the status and the body as [resp.json()]
    reads it ([None] when it raises), or an exception. *)
Inductive http_reply :=
| HttpReply (status : Z) (body : option json)
| HttpError.

(** [text[:8000]] (line 250). *)
Definition EMBED_MAX : nat := 8000.

(** [range(3)] (line 251). *)
Definition ATTEMPTS : nat := 3.

(** [[429, 500, 502, 503]] (line 259). *)
Definition TRANSIENT : list Z := [429; 500; 502; 503]%Z.

(** [time.sleep(min(2 ** attempt, 8))], in milliseconds (line 260). *)
Definition backoff_ms (attempt : nat) : nat := Nat.min (2 ^ attempt) 8 * 1000.

(** [resp.json()["data"][0]["embedding"]] (line 258). *)
Definition embedding_of (body : option json) : option json :=
  match body with
  | Some b =>
      match json_key b (lit "data") with
      | Some data =>
          match json_index0 data with
          | Some d => json_key d (lit "embedding")
          | None => None
          end
      | None => None
      end
  | None => None
  end.

(** What one attempt leads to: a value returned, or the next attempt. *)
Inductive outcome := Done (v : json) | Retry.

(** The prompts of [generate_questions] around [content[:500]] (lines 290-293). *)
Definition zh_questions_head : pystr :=
  [20320; 26159; 39321; 28207; 37329; 34701; 21512; 35215; 23560; 23478; 12290; 29983; 25104;
   32; 50; 32; 20491; 29992; 25142; 21487; 33021; 21839; 30340; 32321; 39636; 20013; 25991;
   21839; 38988; 12290; 10; 20839; 23481; 65306]%Z.
Definition zh_questions_tail : pystr :=
  [10; 21482; 36820; 22238; 32; 74; 83; 79; 78; 65306; 91; 34; 21839; 38988; 49; 65311; 34;
   44; 32; 34; 21839; 38988; 50; 65311; 34; 93]%Z.
Definition en_questions_head : pystr :=
  lit "You are an HK compliance expert. Generate 2 likely user questions." ++ [NL]
  ++ lit "Content: ".
Definition en_questions_tail : pystr :=
  [NL] ++ lit "Return ONLY JSON: [" ++ [34%Z] ++ lit "Q1?" ++ [34%Z] ++ lit ", " ++ [34%Z]
  ++ lit "Q2?" ++ [34%Z] ++ lit "]".

(** The request of line 294. *)
Definition questions_request (content lang : pystr) : chat_request :=
  let body := take 500 content in
  ChatRequest (if str_eqb lang (lit "zh") then zh_questions_head ++ body ++ zh_questions_tail
               else en_questions_head ++ body ++ en_questions_tail) 150 70.

(** [r'^```json\s*'] and [r'\s*```$'] (lines 297-298). *)
Definition fence_open_re : regex :=
  RCat [RBegin; RLit (lit "```json"); RRepeat true 0 None is_space].
Definition fence_close_re : regex :=
  RCat [RRepeat true 0 None is_space; RLit (lit "```"); REnd].

(** [[x for x in q if x and len(x) >= 5]]: [None] is the [TypeError] of
    [len] on a true value without a length, which aborts the whole list. *)
Fixpoint keep_questions (xs : list json) : option (list json) :=
  match xs with
  | [] => Some []
  | x :: xs' =>
      if truthy x then
        match py_len x with
        | None => None
        | Some n => if 5 <=? n then cons x <$> keep_questions xs' else keep_questions xs'
        end
      else keep_questions xs'
  end.

(** [[200, 201]] (line 318). *)
Definition INSERT_OK : list Z := [200; 201]%Z.

Section Services.
(** [json.loads]: the value, or [None] for a [JSONDecodeError]. *)
Variable json_loads : pystr -> option json.
(** The OpenAI and Supabase services: the reply to a request, given the
    effects performed before it. *)
Variable http_env : list event -> event -> http_reply.
(** The DeepSeek chat service, given the effects performed before. *)
Variable chat_env : list event -> chat_request -> chat_response.

(** [requests.post]: the request is performed, and the service answers. *)
Definition post (e : event) : io event http_reply :=
  h ← io_history; _ ← io_emit e; mret (http_env h e).

(** The [except] branch of the loop (lines 265-267). *)
Definition after_exception (attempt : nat) : io event outcome :=
  if attempt <? 2 then _ ← io_emit (EvSleep 2000); mret Retry else mret Retry.

(** The body of the loop of lines 251-267. *)
Definition embed_attempt (input : pystr) (attempt : nat) : io event outcome :=
  r ← post (EvEmbed input);
  match r with
  | HttpReply status body =>
      if (status =? 200)%Z then
        match embedding_of body with
        | Some v => mret (Done v)
        | None => after_exception attempt
        end
      else if bool_decide (status ∈ TRANSIENT) then
        _ ← io_emit (EvSleep (backoff_ms attempt)); mret Retry
      else mret (Done JNull)
  | HttpError => after_exception attempt
  end.

(** [for attempt in ...: ...]; [return None] after the loop (line 268). *)
Fixpoint embed_loop (input : pystr) (attempts : list nat) : io event json :=
  match attempts with
  | [] => mret JNull
  | a :: rest =>
      o ← embed_attempt input a;
      match o with Done v => mret v | Retry => embed_loop input rest end
  end.

(** [generate_embedding] (lines 249-268). *)
Definition generate_embedding (text : pystr) : io event json :=
  embed_loop (take EMBED_MAX text) (seq 0 ATTEMPTS).

(** Lines 296-301 after the answer arrived. *)
Definition parse_questions (answer : pystr) : option (list json) :=
  let a1 := re_sub fence_open_re (fun _ => []) answer in
  let a2 := re_sub fence_close_re (fun _ => []) a1 in
  match json_loads (strip a2) with
  | Some (JArr xs) => take 2 <$> keep_questions xs
  | _ => None
  end.

(** [generate_questions] (lines 289-301). *)
Definition generate_questions (chat_api : chat_request -> chat_response) (content lang : pystr)
  : traced event (option (list json)) :=
  answer ← deepseek_chat chat_api (questions_request content lang);
  mret (match answer with
        | Some a => if a is [] then None else parse_questions a
        | None => None
        end).

(** The question loop (lines 327-338): [false] when a POST raises, which
    leaves the loop and the [try] of [upload_chunk]. *)
Fixpoint post_questions (qs : list json) (category : pystr) (keywords : list pystr) (kid : json)
  : io event bool :=
  match qs with
  | [] => mret true
  | q :: qs' =>
      r ← post (EvQuestion q category keywords kid);
      match r with
      | HttpError => mret false
      | HttpReply _ _ => _ ← io_emit (EvSleep 200); post_questions qs' category keywords kid
      end
  end.

(** Lines 320-339 after a successful insert: the id, the questions. *)
Definition after_insert (content : pystr) (m : meta) (result : json) : io event json :=
  match json_index0 result with
  | None => mret JNull
  | Some r0 =>
      match json_get r0 (lit "id") JNull with
      | None => mret JNull
      | Some kid =>
          h ← io_history;
          qs ← io_lift (generate_questions (chat_env h) content (m_language m));
          match qs with
          | Some ((_ :: _) as l) =>
              ok ← post_questions l (m_category m) (m_keywords m) kid;
              mret (if (ok : bool) then kid else JNull)
          | _ => mret kid
          end
      end
  end.

(** [upload_chunk] (lines 304-342). *)
Definition upload_chunk (content : pystr) (m : meta) : io event json :=
  embedding ← generate_embedding content;
  if negb (truthy embedding) then mret JNull
  else
    r ← post (EvInsert content m embedding);
    match r with
    | HttpReply status body =>
        if bool_decide (status ∈ INSERT_OK) then
          match body with
          | Some ((JArr _) as result) => after_insert content m result
          | _ => mret JNull
          end
        else mret JNull
    | HttpError => mret JNull
    end.

(** Whether an effect is a request to the embedding service. *)
Definition is_embed (e : event) : bool := if e is EvEmbed _ then true else false.

(** The replies the services gave to the requests [is_req] selects among
    the effects [evs], performed after the history [h]. *)
Fixpoint replies (is_req : event -> bool) (h : list event) (evs : list event) : list http_reply :=
  match evs with
  | [] => []
  | e :: evs' => (if is_req e then [http_env h e] else []) ++ replies is_req (h ++ [e]) evs'
  end.
End Services.

(** ** The retry protocol

    A reply is transient when the loop goes on after it: a status of
    [TRANSIENT], an exception, or a 200 whose body has no embedding (the
    indexing raises inside the [try]). *)
Definition transient (r : http_reply) : bool :=
  match r with
  | HttpReply status body =>
      if (status =? 200)%Z then (if embedding_of body is Some _ then false else true)
      else bool_decide (status ∈ TRANSIENT)
  | HttpError => true
  end.

(** The value returned after a reply that is not transient. *)
Definition final_value (r : http_reply) : json :=
  match r with
  | HttpReply status body => if (status =? 200)%Z then default JNull (embedding_of body) else JNull
  | HttpError => JNull
  end.

(** The protocol with [n] attempts left: the replies received, in order,
    and the value returned.  The loop stops at the first reply that is not
    transient and returns its value, or gives [None] when the attempts are
    used up. *)
Inductive retry_spec : nat -> list http_reply -> json -> Prop :=
| retry_exhausted : retry_spec 0 [] JNull
| retry_final n r : transient r = false -> retry_spec (S n) [r] (final_value r)
| retry_again n r rs v : transient r = true -> retry_spec n rs v -> retry_spec (S n) (r :: rs) v.

(** The pause after an attempt whose reply was [r]. *)
Definition pause_after (attempt : nat) (r : http_reply) : list event :=
  match r with
  | HttpReply status body =>
      if (status =? 200)%Z then
        (if embedding_of body is Some _ then [] else if attempt <? 2 then [EvSleep 2000] else [])
      else if bool_decide (status ∈ TRANSIENT) then [EvSleep (backoff_ms attempt)] else []
  | HttpError => if attempt <? 2 then [EvSleep 2000] else []
  end.

Section Protocol.
Variable http_env : list event -> event -> http_reply.

Lemma post_run e h : post http_env e h = (http_env h e, [e]).
Proof. reflexivity. Qed.

Lemma after_exception_run a h :
  after_exception a h = (Retry, if a <? 2 then [EvSleep 2000] else []).
Proof. unfold after_exception. by destruct (a <? 2). Qed.

Lemma embed_attempt_run input a h :
  let r := http_env h (EvEmbed input) in
  embed_attempt http_env input a h
  = (if transient r then Retry else Done (final_value r), EvEmbed input :: pause_after a r).
Proof.
  intros r. unfold embed_attempt. unfold mbind at 1, io_bind. rewrite post_run. fold r.
  unfold transient, final_value, pause_after.
  destruct r as [status body|]; [|by rewrite after_exception_run].
  destruct (status =? 200)%Z; [|by destruct (bool_decide _)].
  destruct (embedding_of body); [done|]. by rewrite after_exception_run.
Qed.

Lemma replies_app is_req h l1 l2 :
  replies http_env is_req h (l1 ++ l2)
  = replies http_env is_req h l1 ++ replies http_env is_req (h ++ l1) l2.
Proof.
  revert h. induction l1 as [|e l1 IH]; intros h; simpl; [by rewrite app_nil_r|].
  rewrite IH, <- app_assoc. simpl. by rewrite <- app_assoc.
Qed.

Lemma replies_pause h a r : replies http_env is_embed h (pause_after a r) = [].
Proof.
  unfold pause_after. repeat (case_match_goal; try done).
Qed.

Lemma embed_attempt_replies input a h :
  replies http_env is_embed h (effects (embed_attempt http_env input a h))
  = [http_env h (EvEmbed input)].
Proof.
  rewrite embed_attempt_run. cbn [snd replies is_embed]. by rewrite replies_pause.
Qed.

(** The loop implements the protocol with as many attempts as it has. *)
Lemma embed_loop_spec input attempts h :
  retry_spec (length attempts)
    (replies http_env is_embed h (effects (embed_loop http_env input attempts h)))
    (value (embed_loop http_env input attempts h)).
Proof.
  revert h. induction attempts as [|a rest IH]; intros h; [constructor|].
  cbn [embed_loop length]. rewrite io_bind_value, io_bind_effects, replies_app.
  rewrite embed_attempt_replies. pose proof (embed_attempt_run input a h) as Hrun.
  cbn zeta in Hrun. rewrite Hrun. cbn [fst snd].
  destruct (transient (http_env h (EvEmbed input))) eqn:Ht.
  - constructor; [done|]. apply IH.
  - rewrite io_ret_value, io_ret_effects. simpl. by constructor.
Qed.

Lemma retry_spec_length n rs v : retry_spec n rs v -> length rs <= n /\ (0 < n -> 0 < length rs).
Proof. induction 1; simpl; lia. Qed.

Lemma length_replies is_req h evs :
  length (replies http_env is_req h evs) = length (List.filter is_req evs).
Proof.
  revert h. induction evs as [|e evs IH]; intros h; [done|]. simpl.
  destruct (is_req e); simpl; by rewrite IH.
Qed.

(** What the embedding loop may do: ask for the embedding of its input, or
    sleep at most eight seconds. *)
Definition embed_effect (input : pystr) (e : event) : Prop :=
  e = EvEmbed input \/ exists ms, e = EvSleep ms /\ ms <= 8000.

Lemma pause_after_sleeps a r :
  Forall (fun e => exists ms, e = EvSleep ms /\ ms <= 8000) (pause_after a r).
Proof.
  assert (Hb : backoff_ms a <= 8000).
  { unfold backoff_ms. change 8000 with (8 * 1000). apply Nat.mul_le_mono_r, Nat.le_min_r. }
  unfold pause_after.
  repeat case_match_goal; repeat apply List.Forall_cons; try apply List.Forall_nil;
    eexists; (split; [reflexivity|]); first [exact Hb|apply Nat.leb_le; vm_compute; reflexivity].
Qed.

Lemma embed_loop_effects input attempts h :
  Forall (embed_effect input) (effects (embed_loop http_env input attempts h)).
Proof.
  revert h. induction attempts as [|a rest IH]; intros h; [constructor|].
  cbn [embed_loop]. rewrite io_bind_effects, embed_attempt_run. cbn [fst snd].
  apply Forall_app. split.
  - constructor; [by left|]. eapply Forall_impl; [apply pause_after_sleeps|]. by right.
  - destruct (transient _); [apply IH|constructor].
Qed.
End Protocol.

(** ** Properties of the uploader *)

(** C15: [generate_embedding] refines the retry protocol: whatever the
    service answers, the replies it received, in order, and the value it
    returns are a run of three attempts that stops at the first reply that
    is not transient (a success, or a status that is not in
    [[429, 500, 502, 503]]). *)
Theorem generate_embedding_refines http_env text h :
  retry_spec ATTEMPTS
    (replies http_env is_embed h (effects (generate_embedding http_env text h)))
    (value (generate_embedding http_env text h)).
Proof. exact (embed_loop_spec http_env (take EMBED_MAX text) (seq 0 ATTEMPTS) h). Qed.

(** C16: [generate_embedding] sends between one and three requests, each
    with the first 8000 characters of the text, and otherwise only sleeps,
    never more than eight seconds at a time. *)
Theorem generate_embedding_bounds http_env text h :
  let evs := effects (generate_embedding http_env text h) in
  1 <= length (List.filter is_embed evs) <= ATTEMPTS /\
  Forall (embed_effect (take EMBED_MAX text)) evs.
Proof.
  intros evs. subst evs. unfold generate_embedding. split; [|apply embed_loop_effects].
  rewrite <- (length_replies http_env is_embed h).
  pose proof (embed_loop_spec http_env (take EMBED_MAX text) (seq 0 ATTEMPTS) h) as H.
  apply retry_spec_length in H. rewrite length_seq in H. unfold ATTEMPTS in *. lia.
Qed.

Lemma transient_status_attempt http_env input a h status body :
  http_env h (EvEmbed input) = HttpReply status body -> status ∈ TRANSIENT ->
  embed_attempt http_env input a h = (Retry, [EvEmbed input; EvSleep (backoff_ms a)]).
Proof.
  intros Hr Hs. rewrite embed_attempt_run, Hr.
  assert (H200 : (status =? 200)%Z = false).
  { apply Z.eqb_neq. intros ->. unfold TRANSIENT in Hs. repeat (apply elem_of_cons in Hs as [Hs|Hs]; [done|]).
    by apply not_elem_of_nil in Hs. }
  unfold transient, pause_after. rewrite H200, bool_decide_eq_true_2 by done. reflexivity.
Qed.

Lemma embed_loop_retry http_env input a rest h evs :
  embed_attempt http_env input a h = (Retry, evs) ->
  embed_loop http_env input (a :: rest) h
  = (value (embed_loop http_env input rest (h ++ evs)),
     evs ++ effects (embed_loop http_env input rest (h ++ evs))).
Proof.
  intros Ha. cbn [embed_loop]. unfold mbind at 1, io_bind. rewrite Ha.
  by destruct (embed_loop _ _ _ _).
Qed.

(** C17: when the service answers every request with a transient status
    ([429], [500], [502] or [503]), [generate_embedding] makes three
    attempts, sleeps one, two and four seconds, the last pause after the
    last attempt, and returns [None]. *)
Theorem embedding_transient_schedule http_env text h :
  (forall h', exists status body,
     http_env h' (EvEmbed (take EMBED_MAX text)) = HttpReply status body /\ status ∈ TRANSIENT) ->
  let e := EvEmbed (take EMBED_MAX text) in
  generate_embedding http_env text h = (JNull, [e; EvSleep 1000; e; EvSleep 2000; e; EvSleep 4000]).
Proof.
  intros Henv e. unfold generate_embedding. cbn [seq ATTEMPTS].
  assert (Ha : forall a h', embed_attempt http_env (take EMBED_MAX text) a h'
                            = (Retry, [e; EvSleep (backoff_ms a)])).
  { intros a h'. destruct (Henv h') as (status & body & Hr & Hs).
    by apply (transient_status_attempt _ _ _ _ status body). }
  rewrite !(embed_loop_retry _ _ _ _ _ _ (Ha _ _)). reflexivity.
Qed.

Lemma embedding_transient_schedule_witness :
  (forall h', exists status body,
     (fun (_ : list event) (_ : event) => HttpReply 429 None) h'
       (EvEmbed (take EMBED_MAX (lit "text"))) = HttpReply status body /\ status ∈ TRANSIENT) /\
  generate_embedding (fun _ _ => HttpReply 429 None) (lit "text") []
  = (JNull, [EvEmbed (take EMBED_MAX (lit "text")); EvSleep 1000;
             EvEmbed (take EMBED_MAX (lit "text")); EvSleep 2000;
             EvEmbed (take EMBED_MAX (lit "text")); EvSleep 4000]).
Proof.
  assert (H : forall h', exists status body,
     (fun (_ : list event) (_ : event) => HttpReply 429 None) h'
       (EvEmbed (take EMBED_MAX (lit "text"))) = HttpReply status body /\ status ∈ TRANSIENT).
  { intros h'. exists 429%Z, None. split; [reflexivity|]. apply elem_of_cons. by left. }
  split; [exact H|]. exact (embedding_transient_schedule _ (lit "text") [] H).
Defined.

(** ** Suggested questions *)

(** A kept question: a true value whose length is at least five. *)
Definition good_question (q : json) : Prop :=
  truthy q = true /\ exists n, py_len q = Some n /\ 5 <= n.

Lemma keep_questions_good xs ys :
  keep_questions xs = Some ys -> Forall good_question ys /\ ys `sublist_of` xs.
Proof.
  revert ys. induction xs as [|x xs IH]; intros ys; cbn [keep_questions].
  - intros [= <-]. done.
  - destruct (truthy x) eqn:Ht; [|intros H; destruct (IH _ H); split; [done|by apply sublist_cons]].
    destruct (py_len x) as [n|] eqn:Hl; [|done].
    destruct (5 <=? n) eqn:Hn; [|intros H; destruct (IH _ H); split; [done|by apply sublist_cons]].
    destruct (keep_questions xs) as [ys'|]; [|done]. intros [= <-].
    destruct (IH ys' eq_refl). bool_to_prop. split; [constructor; [split; eauto|done]|].
    by apply sublist_skip.
Qed.

Lemma generate_questions_value json_loads chat_api content lang :
  value (generate_questions json_loads chat_api content lang)
  = match value (deepseek_chat chat_api (questions_request content lang)) with
    | Some a => if a is [] then None else parse_questions json_loads a
    | None => None
    end.
Proof. unfold generate_questions. by autorewrite with vigo_simpl. Qed.

(** C18: the questions [generate_questions] returns are at most two, each
    a true value of length five or more, taken in order from the list the
    model answered. *)
Theorem generate_questions_sound json_loads chat_api content lang qs :
  value (generate_questions json_loads chat_api content lang) = Some qs ->
  length qs <= 2 /\ Forall good_question qs.
Proof.
  rewrite generate_questions_value. destruct (value (deepseek_chat _ _)) as [[|c a]|]; try done.
  unfold parse_questions. destruct (json_loads _) as [[| | | |xs|]|]; try done.
  destruct (keep_questions xs) as [ys|] eqn:Hk; [|done]. intros [= <-].
  apply keep_questions_good in Hk as [Hg _]. rewrite length_take. split; [lia|].
  by apply Forall_take.
Qed.

(** A model that answers with a JSON list of one question. *)
Definition one_question_chat (req : chat_request) : chat_response :=
  ChatReply 200 (Some (lit "[Is a Type 9 licence needed?]")).
Definition one_question_loads (s : pystr) : option json :=
  Some (JArr [JStr (lit "Is a Type 9 licence needed?")]).

Lemma generate_questions_sound_witness :
  value (generate_questions one_question_loads one_question_chat (lit "Circular") (lit "en"))
    = Some [JStr (lit "Is a Type 9 licence needed?")] /\
  length [JStr (lit "Is a Type 9 licence needed?")] <= 2 /\
  Forall good_question [JStr (lit "Is a Type 9 licence needed?")].
Proof.
  assert (H : value (generate_questions one_question_loads one_question_chat (lit "Circular")
                       (lit "en")) = Some [JStr (lit "Is a Type 9 licence needed?")])
    by (vm_compute; reflexivity).
  split; [exact H|]. exact (generate_questions_sound _ _ _ _ _ H).
Defined.

(** An item of the answer that is true but has no length. *)
Definition unmeasurable (x : json) : Prop := truthy x = true /\ py_len x = None.

Lemma keep_questions_unmeasurable xs : Exists unmeasurable xs -> keep_questions xs = None.
Proof.
  induction 1 as [x xs [Ht Hl]|x xs _ IH]; cbn [keep_questions].
  - by rewrite Ht, Hl.
  - rewrite IH. destruct (truthy x); [|done]. destruct (py_len x); [|done].
    by destruct (5 <=? _).
Qed.

(** C19: when the model's list holds one true item without a length (a
    number, a boolean), [len] raises inside the comprehension and
    [generate_questions] returns [None], whatever the other items are. *)
Theorem questions_bad_item_dropped json_loads chat_api content lang xs :
  (forall s, json_loads s = Some (JArr xs)) -> Exists unmeasurable xs ->
  value (generate_questions json_loads chat_api content lang) = None.
Proof.
  intros Hl Hx. rewrite generate_questions_value.
  destruct (value (deepseek_chat _ _)) as [[|c a]|]; [done| |done].
  unfold parse_questions. by rewrite Hl, keep_questions_unmeasurable.
Qed.

Lemma questions_bad_item_dropped_witness :
  (forall s, (fun _ : pystr => Some (JArr [JStr (lit "What is AML?"); JNum 7%Q])) s
             = Some (JArr [JStr (lit "What is AML?"); JNum 7%Q])) /\
  Exists unmeasurable [JStr (lit "What is AML?"); JNum 7%Q] /\
  value (generate_questions (fun _ => Some (JArr [JStr (lit "What is AML?"); JNum 7%Q]))
           one_question_chat (lit "c") (lit "en")) = None.
Proof.
  assert (H1 : forall s, (fun _ : pystr => Some (JArr [JStr (lit "What is AML?"); JNum 7%Q])) s
                         = Some (JArr [JStr (lit "What is AML?"); JNum 7%Q])) by reflexivity.
  assert (H2 : Exists unmeasurable [JStr (lit "What is AML?"); JNum 7%Q]).
  { apply Exists_cons_tl, Exists_cons_hd. split; reflexivity. }
  split; [exact H1|]. split; [exact H2|].
  exact (questions_bad_item_dropped _ one_question_chat (lit "c") (lit "en") _ H1 H2).
Defined.

(** Test: false items are skipped before the length test, and one item
    without a length drops the answer. *)
Example questions_type_error :
  value (generate_questions (fun _ => Some (JArr [JNum 0%Q; JStr (lit "What is AML?")]))
           one_question_chat (lit "c") (lit "en")) = Some [JStr (lit "What is AML?")] /\
  value (generate_questions (fun _ => Some (JArr [JStr (lit "What is AML?"); JNum 7%Q]))
           one_question_chat (lit "c") (lit "en")) = None.
Proof. vm_compute. split; reflexivity. Qed.

(** ** Uploading a record *)

Lemma embed_effects_no_insert http_env text h c m e :
  EvInsert c m e ∉ effects (generate_embedding http_env text h).
Proof.
  intros Hin. pose proof (embed_loop_effects http_env (take EMBED_MAX text) (seq 0 ATTEMPTS) h)
    as Hall. eapply Forall_forall in Hall; [|exact Hin].
  destruct Hall as [?|(ms & ? & _)]; discriminate.
Qed.

Lemma upload_chunk_run json_loads http_env chat_env content m h :
  let emb := generate_embedding http_env content h in
  upload_chunk json_loads http_env chat_env content m h =
    if truthy (value emb) then
      let h' := h ++ effects emb in
      let rest := (r ← post http_env (EvInsert content m (value emb));
                   match r with
                   | HttpReply status body =>
                       if bool_decide (status ∈ INSERT_OK) then
                         match body with
                         | Some ((JArr _) as result) => after_insert json_loads http_env chat_env content m result
                         | _ => mret JNull
                         end
                       else mret JNull
                   | HttpError => mret JNull
                   end) h' in
      (value rest, effects emb ++ effects rest)
    else (JNull, effects emb).
Proof.
  intros emb. unfold upload_chunk. unfold mbind at 1, io_bind. fold emb.
  destruct emb as [v evs]. cbn [fst snd]. destruct (truthy v); simpl; [|by rewrite app_nil_r].
  match goal with |- (let '(b, l2) := ?x in _) = _ => by destruct x end.
Qed.

(** C20: a record is inserted, with a true embedding, exactly when the
    embedding loop returned a true value; and a record id is returned only
    in that case: a failed embedding abandons the record before any insert. *)
Theorem upload_chunk_inserts_iff json_loads http_env chat_env content m h :
  let run := upload_chunk json_loads http_env chat_env content m h in
  ((exists e, EvInsert content m e ∈ effects run /\ truthy e = true)
   <-> truthy (value (generate_embedding http_env content h)) = true) /\
  (truthy (value run) = true -> truthy (value (generate_embedding http_env content h)) = true).
Proof.
  intros run. subst run. rewrite upload_chunk_run.
  destruct (truthy (value (generate_embedding http_env content h))) eqn:Ht; cbn [fst snd].
  - split; [|done]. split; [done|]. intros _. exists (value (generate_embedding http_env content h)).
    split; [|done]. apply elem_of_app. right. unfold mbind at 1, io_bind. rewrite post_run.
    match goal with |- context [let '(b, l2) := ?x in _] => destruct x end.
    apply list_elem_of_here.
  - split; [|done]. split; [|done]. intros (e & Hin & _). by apply embed_effects_no_insert in Hin.
Qed.

Definition is_question (e : event) : bool := if e is EvQuestion _ _ _ _ then true else false.

Lemma deepseek_chat_effects chat_api req : effects (deepseek_chat chat_api req) = [EvChat req].
Proof. reflexivity. Qed.

Lemma generate_questions_effects json_loads chat_api content lang :
  effects (generate_questions json_loads chat_api content lang)
  = [EvChat (questions_request content lang)].
Proof. unfold generate_questions. autorewrite with vigo_simpl. by rewrite deepseek_chat_effects. Qed.

Lemma embed_effects_no_question http_env text h :
  ¬ Exists (fun e => is_question e = true) (effects (generate_embedding http_env text h)).
Proof.
  intros (e & Hin & Hq)%Exists_exists.
  pose proof (embed_loop_effects http_env (take EMBED_MAX text) (seq 0 ATTEMPTS) h) as Hall.
  eapply Forall_forall in Hall; [|exact Hin].
  destruct Hall as [->|(ms & -> & _)]; discriminate.
Qed.

Section QuestionFailure.
Variable json_loads : pystr -> option json.
Variable http_env : list event -> event -> http_reply.
Variable chat_env : list event -> chat_request -> chat_response.
Hypothesis questions_raise : forall h q c k kid, http_env h (EvQuestion q c k kid) = HttpError.

Lemma post_questions_fail q qs c k kid h :
  post_questions http_env (q :: qs) c k kid h = (false, [EvQuestion q c k kid]).
Proof. cbn [post_questions]. unfold mbind at 1, io_bind. by rewrite post_run, questions_raise. Qed.

Lemma after_insert_fail content m result h :
  Exists (fun e => is_question e = true) (effects (after_insert json_loads http_env chat_env content m result h)) ->
  value (after_insert json_loads http_env chat_env content m result h) = JNull.
Proof.
  unfold after_insert. destruct (json_index0 result) as [r0|]; [|by inversion 1].
  destruct (json_get r0 _ _) as [kid|]; [|by inversion 1].
  rewrite !io_bind_effects, !io_bind_value. unfold io_lift.
  pose proof (generate_questions_effects json_loads (chat_env (fst (io_history h))) content (m_language m)) as He.
  destruct (generate_questions _ _ _ _) as [qs evs]. cbn [snd fst] in He |- *. subst evs.
  destruct qs as [[|q qs]|]; cbn [fst snd].
  2: intros _; by rewrite io_bind_value, post_questions_fail, io_ret_value.
  all: rewrite io_ret_effects; change (effects (io_history h)) with (@nil event);
       rewrite Exists_app, Exists_app, Exists_cons, !Exists_nil; cbn; intuition congruence.
Qed.

(** C21: when the question service raises on every insert, a run of
    [upload_chunk] that writes a suggested question returns [None] although
    it stored the record, with a true embedding: the stored record is
    reported as a failure. *)
Theorem question_failure_reported content m h :
  let run := upload_chunk json_loads http_env chat_env content m h in
  Exists (fun e => is_question e = true) (effects run) ->
  value run = JNull /\ exists emb, EvInsert content m emb ∈ effects run /\ truthy emb = true.
Proof.
  intros run Hex. subst run. rewrite upload_chunk_run in *.
  destruct (truthy _) eqn:Ht; cbn [fst snd] in *;
    [|by apply embed_effects_no_question in Hex].
  apply Exists_app in Hex as [Hex|Hex]; [by apply embed_effects_no_question in Hex|].
  rewrite io_bind_effects, post_run in *. rewrite io_bind_value, post_run. cbn [fst snd] in *.
  split; [|eexists; split; [apply elem_of_app; right; apply elem_of_app; left; apply list_elem_of_here|exact Ht]].
  apply Exists_app in Hex as [Hex|Hex]; [by apply Exists_cons in Hex as [?|?%Exists_nil]|].
  repeat case_match; subst; rewrite ?io_ret_value; try done; by apply after_insert_fail.
Qed.
End QuestionFailure.

(** Services that embed, store the record as id 42, and fail on every
    question insert. *)
Definition sample_embedding : json := JArr [JNum 1%Q].
Definition failing_questions_env (h : list event) (e : event) : http_reply :=
  match e with
  | EvEmbed _ =>
      HttpReply 200 (Some (JObj [(lit "data", JArr [JObj [(lit "embedding", sample_embedding)]])]))
  | EvInsert _ _ _ => HttpReply 201 (Some (JArr [JObj [(lit "id", JNum 42%Q)]]))
  | _ => HttpError
  end.
Definition sample_meta : meta :=
  Meta (lit "SFC_Official_26EC1") (lit "https://www.sfc.hk/en/") (lit "circular") (lit "SFC")
    (lit "26EC1") (lit "vigo_financial") [lit "SFC"] (lit "2026-11-09") (lit "html") (lit "en").

(** Test: with services that store the record as id 42 and raise on the
    question insert, the run embeds, inserts, asks for questions, tries to
    write the first one and returns [None]. *)
Example question_failure_sample :
  let run := upload_chunk one_question_loads failing_questions_env (fun _ => one_question_chat)
               (lit "body") sample_meta [] in
  value run = JNull /\
  effects run = [EvEmbed (lit "body"); EvInsert (lit "body") sample_meta sample_embedding;
                 EvChat (questions_request (lit "body") (lit "en"));
                 EvQuestion (JStr (lit "Is a Type 9 licence needed?")) (lit "SFC") [lit "SFC"]
                   (JNum 42%Q)].
Proof. vm_compute. split; reflexivity. Qed.

Lemma question_failure_reported_witness :
  let run := upload_chunk one_question_loads failing_questions_env (fun _ => one_question_chat)
               (lit "body") sample_meta [] in
  value run = JNull /\ exists emb, EvInsert (lit "body") sample_meta emb ∈ effects run /\ truthy emb = true.
Proof.
  apply (question_failure_reported one_question_loads failing_questions_env (fun _ => one_question_chat));
    [reflexivity|].
  vm_compute. do 3 apply Exists_cons_tl. apply Exists_cons_hd. reflexivity.
Defined.

End Upload.
