(* ===== verification/Collector.v ===== *)
(** * The collector: [scan_source], [fetch_all_sources]
      (src/auto_collect_upload.py:446-570)

    [scan_source] walks the reference numbers of a list of prefixes (year,
    code, a descending [range]), fetches each document
    ([fetch_sfc_content]), keeps those whose text passes the source's filter,
    cuts them with [smart_chunk_text] and stops once [max_items] are found,
    sleeping 0.3 seconds after each one.  [fetch_all_sources] scans the five
    SFC sources with their prefixes, filters and caps, and adds one summary
    page of Charltons Law read through BeautifulSoup.

    The fetch is the model of [Fetch.v] on the oracles [http_get],
    [pdf_open], [installed] and [lower]; BeautifulSoup is the oracle
    [article_texts] (the stripped texts of the [p], [h2], [h3] and [li]
    elements of the article, or [None] when the page has no article).  The
    console output is not modelled.  Theorems: a scan returns the first
    [max_items] accepted candidates in the order of the prefixes, and sleeps
    once per result; every result is a fetched, filtered and chunked
    document; a full collection has at most 45 documents. *)

From Stdlib Require Import ZArith Strings.String.
From stdpp Require Import base list.
From S2P Require Import Prelude.
From S2P Require Import PyStr.
From S2P Require Import Segmenter.
From S2P Require Import Normalizer.
From S2P Require Import Fetch.
From S2P Require Import Bilingual.

Module Collector.
Import Segmenter Normalizer Fetch Bilingual.

(** An entry of [ref_prefix_list]: ["year"], ["code"], ["range"] and the
    optional ["doc_type"]. *)
Record prefix := Prefix {
  p_year : Z; p_code : pystr; p_range : list nat; p_doc_type : option pystr }.

(** An entry of [results] (lines 471-477). *)
Record scan_result := ScanResult {
  r_ref : pystr; r_chunks : list pystr; r_content_type : content_kind;
  r_doc_type : pystr; r_source_url : pystr }.

(** [str(z)] for an integer. *)
Definition str_of_int (z : Z) : pystr :=
  if (z <? 0)%Z then lit "-" ++ str_of_nat (Z.to_nat (- z)) else str_of_nat (Z.to_nat z).

(** [range(start, stop, -1)]. *)
Definition range_down (start stop : nat) : list nat := map (fun i => start - i) (seq 0 (start - stop)).

(** [f"{prefix['year']}{prefix['code']}{ref_id}"] (line 459). *)
Definition ref_of (p : prefix) (ref_id : nat) : pystr :=
  str_of_int (p_year p) ++ p_code p ++ str_of_nat ref_id.

(** [found] and [results] of the loop. *)
Record scan_state := ScanState { results : list scan_result; found : nat }.

(** The keyword lists of lines 502-503 and 522-523. *)
Definition enforce_kw : list pystr :=
  [lit "reprimand"; lit "fine"; lit "suspend"; lit "ban"; lit "prosecut"; lit "convict";
   lit "disciplin"; lit "enforcement"; lit "sanction"; lit "misconduct"].
Definition va_kw : list pystr :=
  [lit "virtual asset"; lit "vatp"; lit "vasp"; lit "crypto"; lit "stablecoin";
   lit "digital asset"; lit "web3"; lit "staking"; lit "aspire"].

Definition CHARLTONS_URL : pystr :=
  lit "https://www.charltonslaw.com/sfc-enforcement-actions-in-january-2026-and-december-2025/".

Section Scan.
Variable http_get : pystr -> http_response.
Variable pdf_open : list Z -> pdf_result.
Variable installed : bool.
Variable lower : pystr -> pystr.

(** [any(k in t.lower() for k in kws)]. *)
Definition any_kw (kws : list pystr) (t : pystr) : bool := existsb (fun k => contains k (lower t)) kws.

(** One reference number (lines 459-477): the result it adds, if any. *)
Definition accept_ref (api_path : pystr) (filter_fn : option (pystr -> bool)) (p : prefix)
    (ref_id : nat) : option scan_result :=
  let ref := ref_of p ref_id in
  match fetch_sfc_content http_get pdf_open installed lower ref api_path with
  | None => None
  | Some (text, ctype) =>
      if (if filter_fn is Some f then negb (f text) else false) then None
      else Some (ScanResult ref (smart_chunk_text text (lit "SFC " ++ ref) CHUNK_MAX) ctype
                   (default (lit "unknown") (p_doc_type p)) (content_url ref api_path))
  end.

(** The inner loop (lines 456-480), with its [break]. *)
Fixpoint scan_range (api_path : pystr) (filter_fn : option (pystr -> bool)) (max_items : nat)
    (p : prefix) (ids : list nat) (st : scan_state) : traced event scan_state :=
  match ids with
  | [] => mret st
  | i :: ids' =>
      if max_items <=? found st then mret st
      else match accept_ref api_path filter_fn p i with
           | None => scan_range api_path filter_fn max_items p ids' st
           | Some r =>
               _ ← emit (EvSleep 300);
               scan_range api_path filter_fn max_items p ids'
                 (ScanState (results st ++ [r]) (S (found st)))
           end
  end.

(** The outer loop (lines 455-480). *)
Fixpoint scan_prefixes (api_path : pystr) (filter_fn : option (pystr -> bool)) (max_items : nat)
    (ps : list prefix) (st : scan_state) : traced event scan_state :=
  match ps with
  | [] => mret st
  | p :: ps' =>
      st' ← scan_range api_path filter_fn max_items p (p_range p) st;
      scan_prefixes api_path filter_fn max_items ps' st'
  end.

(** [scan_source] (lines 446-483); [name] is only printed. *)
Definition scan_source (ps : list prefix) (api_path : pystr) (filter_fn : option (pystr -> bool))
    (max_items : nat) : traced event (list scan_result) :=
  st ← scan_prefixes api_path filter_fn max_items ps (ScanState [] 0); mret (results st).

(** BeautifulSoup: the texts [e.get_text(strip=True)] of the article's
    elements, or [None] when the page has no article. *)
Variable bs4_installed : bool.
Variable charltons_get : http_response.
Variable article_texts : pystr -> option (list pystr).

(** The Charltons page (lines 547-568). *)
Definition charltons_result : option scan_result :=
  if negb bs4_installed then None
  else match charltons_get with
       | HttpFailure => None
       | HttpResponse status _ _ page =>
           if negb (status =? 200)%Z then None
           else match article_texts page with
                | None => None
                | Some ts =>
                    let text := join NL2 (List.filter (fun t => 10 <? length t) ts) in
                    if 500 <? length text then
                      Some (ScanResult (lit "charltons_latest")
                              (smart_chunk_text text (lit "Charltons SFC Enforcement") CHUNK_MAX)
                              KindHtml (lit "enforcement_summary") CHARLTONS_URL)
                    else None
                end
       end.

(** [fetch_all_sources] (lines 486-570). *)
Definition fetch_all_sources (year : Z) (depth : pystr) : traced event (list scan_result) :=
  let quick := str_eqb depth (lit "quick") in
  let max_ec := if quick then 8 else 20 in
  let max_pr := if quick then 10 else 30 in
  let max_cp := if quick then 6 else 12 in
  r1 ← scan_source
         [Prefix year (lit "EC") (range_down max_ec 0) (Some (lit "circular"));
          Prefix (year - 1) (lit "EC") (range_down 50 35) (Some (lit "circular"))]
         (lit "circular/openFile") None 10;
  r2 ← scan_source
         [Prefix year (lit "PR") (range_down max_pr 0) (Some (lit "enforcement"));
          Prefix (year - 1) (lit "PR") (range_down 220 (220 - max_pr)) (Some (lit "enforcement"))]
         (lit "news/list-content") (Some (any_kw enforce_kw)) 10;
  r3 ← scan_source
         [Prefix year (lit "CP") (range_down max_cp 0) (Some (lit "consultation"));
          Prefix (year - 1) (lit "CP") (range_down 15 0) (Some (lit "consultation"))]
         (lit "consultation/openFile") None 8;
  r4 ← scan_source
         [Prefix year (lit "PR") (range_down max_pr 0) (Some (lit "vatp"));
          Prefix (year - 1) (lit "PR") (range_down 220 (220 - max_pr)) (Some (lit "vatp"))]
         (lit "news/list-content") (Some (any_kw va_kw)) 8;
  r5 ← scan_source
         [Prefix year (lit "PR") (range_down max_pr 0) (Some (lit "press_release"))]
         (lit "news/list-content")
         (Some (fun t => negb (any_kw (enforce_kw ++ va_kw) t) && (300 <? length t))) 8;
  mret (r1 ++ r2 ++ r3 ++ r4 ++ r5 ++ option_list charltons_result).
End Scan.

(** The reference of a prefix is the year as Python prints the integer:
    one digit below ten, and a minus sign for the year before 2100. *)
Example single_digit_year_ref :
  ref_of (Prefix 5 (lit "EC") [] None) 1 = lit "5EC1" /\
  ref_of (Prefix (0 - 1) (lit "EC") [] None) 50 = lit "-1EC50".
Proof. split; reflexivity. Qed.

(** ** The scan loops *)

Section ScanFacts.
Variable http_get : pystr -> http_response.
Variable pdf_open : list Z -> pdf_result.
Variable installed : bool.
Variable lower : pystr -> pystr.
Variables (api_path : pystr) (filter_fn : option (pystr -> bool)) (max_items : nat).

Local Abbreviation accept := (accept_ref http_get pdf_open installed lower api_path filter_fn).

(** The results a scan of prefixes [ps] would keep without the cap: the
    accepted reference numbers of each prefix, in order. *)
Definition accepted (ps : list prefix) : list scan_result :=
  List.concat (map (fun p => omap (accept p) (p_range p)) ps).

(** The state after [added] more results. *)
Definition scan_after (st : scan_state) (added : list scan_result) : traced event scan_state :=
  (ScanState (results st ++ added) (found st + length added), repeat (EvSleep 300) (length added)).

Lemma scan_after_nil st : scan_after st [] = (st, []).
Proof. unfold scan_after. destruct st; simpl. by rewrite app_nil_r, Nat.add_0_r. Qed.

Lemma scan_range_run p ids st :
  found st = length (results st) ->
  scan_range http_get pdf_open installed lower api_path filter_fn max_items p ids st
  = scan_after st (take (max_items - found st) (omap (accept p) ids)).
Proof.
  revert st. induction ids as [|i ids IH]; intros st Hf; cbn [scan_range].
  - cbn [omap list_omap]. by rewrite take_nil, scan_after_nil.
  - destruct (Nat.leb_spec max_items (found st)) as [Hle|Hgt].
    + replace (max_items - found st) with 0 by lia. by rewrite take_0, scan_after_nil.
    + cbn [omap list_omap]. destruct (accept p i) as [r|]; [|by apply IH].
      unfold mbind at 1, traced_bind. cbn [emit].
      rewrite IH by (simpl; rewrite length_app; simpl; lia).
      replace (max_items - found st) with (S (max_items - S (found st))) by lia.
      unfold scan_after. cbn [take results found length repeat]. rewrite <- app_assoc.
      do 2 f_equal. lia.
Qed.

Lemma scan_prefixes_run ps st :
  found st = length (results st) ->
  scan_prefixes http_get pdf_open installed lower api_path filter_fn max_items ps st
  = scan_after st (take (max_items - found st) (accepted ps)).
Proof.
  revert st. induction ps as [|p ps IH]; intros st Hf; cbn [scan_prefixes].
  - unfold accepted. cbn [map List.concat]. by rewrite take_nil, scan_after_nil.
  - rewrite scan_range_run by done. unfold mbind at 1, traced_bind, scan_after at 1.
    rewrite IH by (simpl; rewrite length_app; lia).
    unfold accepted. cbn [map List.concat]. fold (accepted ps). rewrite take_app.
    set (n := max_items - found st). set (A1 := omap (accept p) (p_range p)).
    assert (Hn : max_items - found {| results := results st ++ take n A1;
                                       found := found st + length (take n A1) |}
                 = n - length A1) by (simpl; rewrite length_take; lia).
    rewrite Hn. unfold scan_after. simpl. rewrite <- app_assoc, length_app, repeat_app.
    do 2 f_equal. lia.
Qed.

Lemma scan_source_run ps :
  scan_source http_get pdf_open installed lower ps api_path filter_fn max_items
  = (take max_items (accepted ps), repeat (EvSleep 300) (length (take max_items (accepted ps)))).
Proof.
  unfold scan_source. unfold mbind at 1, traced_bind.
  rewrite scan_prefixes_run by done. rewrite Nat.sub_0_r. simpl. by rewrite app_nil_r.
Qed.
End ScanFacts.

Section ScanClaims.
Variable http_get : pystr -> http_response.
Variable pdf_open : list Z -> pdf_result.
Variable installed : bool.
Variable lower : pystr -> pystr.

Lemma scan_source_length ps api_path filter_fn max_items :
  length (value (scan_source http_get pdf_open installed lower ps api_path filter_fn max_items))
  <= max_items.
Proof. rewrite scan_source_run. cbn [fst]. rewrite length_take. lia. Qed.

(** What a kept reference number is: a fetched document whose text passes
    the filter, chunked under the title ["SFC <ref>"]. *)
Definition scanned (api_path : pystr) (filter_fn : option (pystr -> bool)) (p : prefix)
    (i : nat) (r : scan_result) : Prop :=
  exists text ctype,
    fetch_sfc_content http_get pdf_open installed lower (ref_of p i) api_path = Some (text, ctype) /\
    (if filter_fn is Some f then f text = true else True) /\
    r = ScanResult (ref_of p i) (smart_chunk_text text (lit "SFC " ++ ref_of p i) CHUNK_MAX) ctype
          (default (lit "unknown") (p_doc_type p)) (content_url (ref_of p i) api_path).

Lemma accept_ref_Some api_path filter_fn p i r :
  accept_ref http_get pdf_open installed lower api_path filter_fn p i = Some r ->
  scanned api_path filter_fn p i r.
Proof.
  unfold accept_ref, scanned. destruct (fetch_sfc_content _ _ _ _ _ _) as [[text ctype]|]; [|done].
  destruct filter_fn as [f|]; simpl; [destruct (f text) eqn:Hf; simpl; [|done]|];
    intros [= <-]; eauto 10.
Qed.

(** C22: [scan_source] is the first [max_items] of the accepted reference
    numbers, prefix after prefix in the order of the ranges, and it sleeps
    0.3 seconds once per result. *)
Theorem scan_source_equiv ps api_path filter_fn max_items :
  let run := scan_source http_get pdf_open installed lower ps api_path filter_fn max_items in
  value run = take max_items (accepted http_get pdf_open installed lower api_path filter_fn ps) /\
  effects run = repeat (EvSleep 300) (length (value run)).
Proof. intros run. subst run. by rewrite scan_source_run. Qed.

(** C23: a scan returns at most [max_items] results, and each is a
    reference number of one of its prefixes whose document was fetched,
    passed the filter and was cut by [smart_chunk_text]. *)
Theorem scan_source_sound ps api_path filter_fn max_items :
  let rs := value (scan_source http_get pdf_open installed lower ps api_path filter_fn max_items) in
  length rs <= max_items /\
  Forall (fun r => exists p i, p ∈ ps /\ i ∈ p_range p /\ scanned api_path filter_fn p i r) rs.
Proof.
  intros rs. split; [apply scan_source_length|]. subst rs. rewrite scan_source_run. cbn [fst].
  apply Forall_take. unfold accepted. apply Forall_concat, Forall_forall.
  intros l (p & -> & Hp)%list_elem_of_fmap. apply Forall_forall.
  intros r (i & Hi & Ha)%list_elem_of_omap. exists p, i. split_and!; [done|done|].
  by apply accept_ref_Some.
Qed.

(** C24: whatever the depth, a collection holds at most 45 documents: ten
    circulars, ten enforcement news, eight consultations, eight virtual
    asset news, eight press releases and the Charltons summary. *)
Theorem fetch_all_sources_bound bs4_installed charltons_get article_texts year depth :
  length (value (fetch_all_sources http_get pdf_open installed lower bs4_installed charltons_get
                   article_texts year depth)) <= 45.
Proof.
  unfold fetch_all_sources. autorewrite with vigo_simpl. rewrite !length_app.
  repeat match goal with
  | |- context [length (value (scan_source ?a ?b ?c ?d ?ps ?api ?f ?m))] =>
      generalize (scan_source_length ps api f m);
      generalize (length (value (scan_source a b c d ps api f m))); intros ? ?
  end.
  destruct (charltons_result _ _ _); simpl in *; lia.
Qed.
End ScanClaims.

End Collector.
