(* ===== verification/Pipeline.v ===== *)
(** * The driver: [save_backup] and [main]
      (src/auto_collect_upload.py:576-763)

    [main] checks that pdfplumber and BeautifulSoup are installed, asks
    the operator for a mode (quick or full collection, or a test of one
    source), collects the documents, removes the documents whose reference
    was already seen, expands every document into bilingual records
    ([create_bilingual_chunks]), writes the backup file ([save_backup]),
    asks for confirmation and uploads every record ([upload_chunk]),
    counting successes and failures per language.

    The operator's answers to the three [input()] prompts are the values
    [mode], [src] and [answer]; the clock gives [year], [today] and the
    date of the file name [stamp].  Console output is not modelled, nor
    the [KeyboardInterrupt] and exception handlers around [main], which
    only print.  Theorems: deduplication keeps exactly the first document
    of each reference; the statistics count every record once; the backup
    is written before the first upload request. *)

From Stdlib Require Import ZArith Strings.String.
From stdpp Require Import base list gmap.
From S2P Require Import Prelude.
From S2P Require Import PyStr.
From S2P Require Import Json.
From S2P Require Import Segmenter.
From S2P Require Import Normalizer.
From S2P Require Import Fetch.
From S2P Require Import Bilingual.
From S2P Require Import Upload.
From S2P Require Import Collector.

Module Pipeline.
Import Json Segmenter Normalizer Fetch Bilingual Upload Collector.
Local Set Warnings "-clear-no-such-hyp".

(** ** Deduplication (lines 668-675) *)

(** [seen] and [unique]. *)
Record dedup_state := DedupState { seen : gset pystr; unique : list scan_result }.

(** The body of the loop of lines 671-674. *)
Definition dedup_step (st : dedup_state) (r : scan_result) : dedup_state :=
  if bool_decide (r_ref r ∈ seen st) then st
  else DedupState ({[r_ref r]} ∪ seen st) (unique st ++ [r]).

(** Lines 669-675. *)
Definition dedup (results : list scan_result) : list scan_result :=
  unique (fold_left dedup_step results (DedupState ∅ [])).

(** ** The backup file (lines 576-588) *)

(** The items of the metadata dictionary that are not lists, in its order
    (line 580): every field but ["keywords"]. *)
Definition meta_items (m : meta) : list (pystr * pystr) :=
  [(lit "source", m_source m); (lit "source_url", m_source_url m);
   (lit "doc_type", m_doc_type m); (lit "category", m_category m);
   (lit "ref_no", m_ref_no m); (lit "source_table", m_source_table m);
   (lit "collected_date", m_collected_date m); (lit "content_type", m_content_type m);
   (lit "language", m_language m)].

(** Lines 580-582. *)
Definition meta_text (m : meta) : pystr :=
  join [NL] (map (fun '(k, v) => k ++ lit ": " ++ v) (meta_items m))
  ++ (if m_keywords m is [] then []
      else [NL] ++ lit "keywords: " ++ join (lit ", ") (m_keywords m)).

(** [s.replace(c, '')] for a one-character [c]. *)
Definition remove_char (c : Z) (s : pystr) : pystr := List.filter (fun d => negb (d =? c)%Z) s.

(** [c['content'].split('\n')[0].replace('【', '').replace('】', '')] (line 583). *)
Definition title_of (content : pystr) : pystr :=
  remove_char 12305 (remove_char 12304 (default [] (head (str_split [NL] content)))).

(** ['\n'.join(c['content'].split('\n')[2:])] (line 584). *)
Definition body_of (content : pystr) : pystr := join [NL] (drop 2 (str_split [NL] content)).

Definition bracketed (label : list Z) : pystr := [12304%Z] ++ label ++ [12305%Z].

(** The section of one record (line 585). *)
Definition backup_section (c : vigo_chunk) : pystr :=
  lit "===SECTION===" ++ [NL] ++ bracketed [27161; 38988]%Z ++ title_of (content c) ++ [NL]
  ++ bracketed [20839; 23481]%Z ++ [NL] ++ body_of (content c) ++ [NL]
  ++ bracketed [20803; 25976; 25818]%Z ++ [NL] ++ meta_text (metadata c) ++ [NL]
  ++ lit "===END===".

(** What [save_backup] writes (lines 577-587). *)
Definition backup_text (cs : list vigo_chunk) : pystr := join NL2 (map backup_section cs).

(** [f"VIGO_SFC_bilingual_{now.strftime('%Y%m%d')}.md"] (line 722). *)
Definition backup_name (stamp : pystr) : pystr := lit "VIGO_SFC_bilingual_" ++ stamp ++ lit ".md".

(** ** Statistics (lines 734-750) *)

Definition stat (s : gmap pystr nat) (k : pystr) : nat := default 0 (s !! k).

(** [{"ok": 0, "fail": 0, "en": 0, "zh": 0}]. *)
Definition initial_stats : gmap pystr nat :=
  <[lit "ok" := 0]> (<[lit "fail" := 0]> (<[lit "en" := 0]> (<[lit "zh" := 0]> ∅))).

(** Lines 743-749: a success counts in ["ok"] and in the language's entry. *)
Definition count_upload (lower : pystr -> pystr) (s : gmap pystr nat) (lang : pystr) (kid : json)
  : gmap pystr nat :=
  if truthy kid then
    let s1 := <[lit "ok" := S (stat s (lit "ok"))]> s in
    <[lower lang := S (stat s1 (lower lang))]> s1
  else <[lit "fail" := S (stat s (lit "fail"))]> s.

(** The keyword lists of the test mode (lines 633-634), shorter than those
    of [fetch_all_sources]. *)
Definition test_enforce_kw : list pystr :=
  [lit "reprimand"; lit "fine"; lit "suspend"; lit "ban"; lit "prosecut"; lit "convict"].
Definition test_va_kw : list pystr :=
  [lit "virtual asset"; lit "vatp"; lit "vasp"; lit "crypto"; lit "stablecoin"; lit "staking";
   lit "aspire"].

(** How [main] ends. *)
Inductive main_exit :=
| MissingDependencies
| InvalidChoice
| NoItems
| NoChunks
| SavedOnly
| Uploaded (stats : gmap pystr nat).

Section Main.
(** The fetch, as in [Fetch.v], and [str.lower]. *)
Variable http_get : pystr -> http_response.
Variable pdf_open : list Z -> pdf_result.
Variable lower : pystr -> pystr.
(** [import pdfplumber] and [from bs4 import BeautifulSoup] succeed. *)
Variables (pdfplumber_installed bs4_installed : bool).
(** The Charltons page and BeautifulSoup, as in [Collector.v]. *)
Variable charltons_get : http_response.
Variable article_texts : pystr -> option (list pystr).
(** [json.loads] and the services of [Upload.v]. *)
Variable json_loads : pystr -> option json.
Variable http_env : list event -> event -> http_reply.
Variable chat_env : list event -> chat_request -> chat_response.
(** The clock: [now.year % 100], the collection date, the file stamp. *)
Variables (year : Z) (today stamp : pystr).

Local Abbreviation scan := (scan_source http_get pdf_open pdfplumber_installed lower).

(** The test of one source (lines 636-661); [None] is an invalid letter. *)
Definition test_source (letter : pystr) : option (traced event (list scan_result)) :=
  if str_eqb letter (lit "a") then
    Some (scan [Prefix year (lit "EC") (range_down 8 0) (Some (lit "circular"))]
            (lit "circular/openFile") None 5)
  else if str_eqb letter (lit "b") then
    Some (scan [Prefix year (lit "PR") (range_down 15 0) (Some (lit "enforcement"))]
            (lit "news/list-content") (Some (any_kw lower test_enforce_kw)) 5)
  else if str_eqb letter (lit "c") then
    Some (scan [Prefix year (lit "CP") (range_down 8 0) (Some (lit "consultation"))]
            (lit "consultation/openFile") None 5)
  else if str_eqb letter (lit "d") then
    Some (scan [Prefix year (lit "PR") (range_down 15 0) (Some (lit "vatp"))]
            (lit "news/list-content") (Some (any_kw lower test_va_kw)) 5)
  else if str_eqb letter (lit "e") then
    Some (scan [Prefix year (lit "PR") (range_down 15 0) (Some (lit "press_release"))]
            (lit "news/list-content")
            (Some (fun t => negb (any_kw lower (test_enforce_kw ++ test_va_kw) t))) 5)
  else None.

(** Lines 623-666: the collection the operator chose. *)
Definition collect (mode src : pystr) : option (traced event (list scan_result)) :=
  let m := strip mode in
  if str_eqb m (lit "3") then test_source (lower (strip src))
  else if str_eqb m (lit "1") || str_eqb m (lit "2") then
    Some (fetch_all_sources http_get pdf_open pdfplumber_installed lower bs4_installed
            charltons_get article_texts year
            (if str_eqb m (lit "1") then lit "quick" else lit "full"))
  else None.

(** Lines 697-709: the records of every document, in order; the
    translation service answers as it does after the effects so far. *)
Fixpoint expand (results : list scan_result) : io event (list vigo_chunk) :=
  match results with
  | [] => mret []
  | r :: rs =>
      h ← io_history;
      vs ← io_lift (create_bilingual_chunks (chat_env h) today lower (r_ref r) (r_chunks r)
                      (r_doc_type r) (r_source_url r));
      rest ← expand rs;
      mret (vs ++ rest)
  end.

(** The upload loop (lines 737-750). *)
Fixpoint upload_all (cs : list vigo_chunk) (s : gmap pystr nat) : io event (gmap pystr nat) :=
  match cs with
  | [] => mret s
  | c :: cs' =>
      kid ← upload_chunk json_loads http_env chat_env (content c) (metadata c);
      _ ← io_emit (EvSleep 500);
      upload_all cs' (count_upload lower s (lang c) kid)
  end.

(** [main] (lines 594-763). *)
Definition main (mode src answer : pystr) : io event main_exit :=
  if negb (pdfplumber_installed && bs4_installed) then mret MissingDependencies
  else match collect mode src with
  | None => mret InvalidChoice
  | Some collection =>
      collected ← io_lift collection;
      let results := dedup collected in
      if results is [] then mret NoItems
      else
        all ← expand results;
        if all is [] then mret NoChunks
        else
          _ ← io_emit (EvBackup (backup_name stamp) (backup_text all));
          if negb (str_eqb (lower (strip answer)) (lit "y")) then mret SavedOnly
          else s ← upload_all all initial_stats; mret (Uploaded s)
  end.
End Main.

(** ** Deduplication keeps the first document of each reference *)

(** The reference behaviour: a document is kept when no earlier document
    has its reference. *)
Fixpoint first_occurrences_from (before rs : list scan_result) : list scan_result :=
  match rs with
  | [] => []
  | r :: rs' =>
      (if bool_decide (r_ref r ∈ map r_ref before) then [] else [r])
      ++ first_occurrences_from (before ++ [r]) rs'
  end.

Definition first_occurrences (rs : list scan_result) : list scan_result :=
  first_occurrences_from [] rs.

Lemma dedup_fold (before rs : list scan_result) (X : gset pystr) (U : list scan_result) :
  (forall k, k ∈ X <-> k ∈ map r_ref before) ->
  unique (fold_left dedup_step rs (DedupState X U)) = U ++ first_occurrences_from before rs.
Proof.
  revert before X U. induction rs as [|r rs IH]; intros before X U HS; simpl.
  - by rewrite app_nil_r.
  - unfold dedup_step at 2. cbn [seen unique].
    assert (Hiff : forall k, k ∈ map r_ref (before ++ [r]) <-> k ∈ map r_ref before \/ k = r_ref r).
    { intros k. rewrite map_app, elem_of_app. simpl. by rewrite list_elem_of_singleton. }
    destruct (decide (r_ref r ∈ X)) as [Hin|Hin].
    + rewrite !bool_decide_eq_true_2 by (done || by apply HS). simpl. apply (IH (before ++ [r])).
      intros k. rewrite Hiff, HS. split; [auto|]. intros [?| ->]; [done|by apply HS].
    + rewrite !bool_decide_eq_false_2 by (done || by rewrite <- HS).
      rewrite (IH (before ++ [r])), <- app_assoc; [done|]. intros k. rewrite Hiff, <- HS. set_solver.
Qed.

Lemma first_occurrences_from_refs before rs :
  NoDup (map r_ref (first_occurrences_from before rs)) /\
  (forall k, k ∈ map r_ref (first_occurrences_from before rs) ->
             (k ∉ map r_ref before) /\ k ∈ map r_ref rs) /\
  (forall k, k ∈ map r_ref rs -> k ∈ map r_ref before \/ k ∈ map r_ref (first_occurrences_from before rs)).
Proof.
  revert before. induction rs as [|r rs IH]; intros before; simpl; [split_and!; try constructor; set_solver|].
  destruct (IH (before ++ [r])) as (Hnd & Hin & Hall). rewrite map_app in Hin, Hall.
  setoid_rewrite elem_of_app in Hin. setoid_rewrite elem_of_app in Hall.
  setoid_rewrite list_elem_of_singleton in Hin. setoid_rewrite list_elem_of_singleton in Hall.
  case_bool_decide as Hr; simpl; rewrite ?map_app; simpl.
  - split_and!; [done|intros k Hk; destruct (Hin k Hk); set_solver|].
    intros k [-> | Hk]%elem_of_cons; [by left|]. destruct (Hall k Hk) as [[? | ->]|]; auto.
  - split_and!.
    + constructor; [|done]. intros Hk. destruct (Hin _ Hk) as [Hn _]. apply Hn. by right.
    + intros k [-> | Hk]%elem_of_cons; [set_solver|]. destruct (Hin k Hk); set_solver.
    + intros k [-> | Hk]%elem_of_cons; [right; by left|].
      destruct (Hall k Hk) as [[? | ->]|]; [auto|right; by left|right; by right].
Qed.

(** C25: the deduplication of [main] (a [set] of seen references and a
    list) keeps exactly the first document of each reference, in order: it
    equals the reference behaviour, its references are distinct, and every
    reference collected is still present. *)
Theorem dedup_keeps_first_occurrences rs :
  dedup rs = first_occurrences rs /\ NoDup (map r_ref (dedup rs)) /\
  (forall k, k ∈ map r_ref (dedup rs) <-> k ∈ map r_ref rs).
Proof.
  assert (Hd : dedup rs = first_occurrences rs).
  { unfold dedup. rewrite (dedup_fold []); [done|]. intros k. simpl. set_solver. }
  rewrite Hd. destruct (first_occurrences_from_refs [] rs) as (Hnd & Hin & Hall).
  split_and!; [done|done|]. intros k. split; [intros Hk; by apply Hin|].
  intros Hk. destruct (Hall k Hk) as [Hk0|]; [by apply not_elem_of_nil in Hk0|done].
Qed.

(** A press release that is both an enforcement news and a virtual asset
    news is collected twice (lines 504-531 scan the same [PR] numbers) and
    keeps the type of the first scan, ["enforcement"]. *)
Example overlapping_sources_keep_first :
  let r (t : pystr) := ScanResult (lit "26PR5") [lit "text"] KindHtml t (lit "url") in
  map r_doc_type (dedup [r (lit "enforcement"); r (lit "vatp")]) = [lit "enforcement"].
Proof. vm_compute. reflexivity. Qed.

(** ** The statistics count every record once *)

Lemma stat_insert (s : gmap pystr nat) k v k' :
  stat (<[k := v]> s) k' = if decide (k = k') then v else stat s k'.
Proof. unfold stat. rewrite lookup_insert. by case_decide. Qed.

(** Two distinct literal keys. *)
Ltac keys_neq :=
  match goal with H : lit _ = lit _ |- _ => vm_compute in H; discriminate H end.

Section Counting.
Variable lower : pystr -> pystr.

(** A record whose language lowers to one of the two counted entries. *)
Definition counted_lang (c : vigo_chunk) : Prop :=
  lower (lang c) = lit "en" \/ lower (lang c) = lit "zh".

Lemma count_upload_totals s c kid :
  counted_lang c ->
  let s' := count_upload lower s (lang c) kid in
  stat s' (lit "ok") + stat s' (lit "fail") = S (stat s (lit "ok") + stat s (lit "fail")) /\
  stat s' (lit "en") + stat s' (lit "zh") + stat s (lit "ok")
  = stat s (lit "en") + stat s (lit "zh") + stat s' (lit "ok").
Proof.
  intros Hl. unfold count_upload. destruct (truthy kid); [destruct Hl as [Hl|Hl]; rewrite Hl|];
    rewrite ?stat_insert; repeat case_decide; try congruence; try keys_neq; lia.
Qed.

Variable json_loads : pystr -> option json.
Variable http_env : list event -> event -> http_reply.
Variable chat_env : list event -> chat_request -> chat_response.

Lemma upload_all_totals cs s h :
  Forall counted_lang cs ->
  let s' := value (upload_all lower json_loads http_env chat_env cs s h) in
  stat s' (lit "ok") + stat s' (lit "fail") = stat s (lit "ok") + stat s (lit "fail") + length cs /\
  stat s' (lit "en") + stat s' (lit "zh") + stat s (lit "ok")
  = stat s (lit "en") + stat s (lit "zh") + stat s' (lit "ok").
Proof.
  revert s h. induction cs as [|c cs IH]; intros s h Hall; cbn [upload_all].
  - cbn. lia.
  - apply Forall_cons in Hall as [Hc Hall]. rewrite !io_bind_value.
    match goal with |- context [upload_all _ _ _ _ cs ?s1 ?h1] =>
      destruct (IH s1 h1 Hall) as [IH1 IH2] end.
    edestruct (count_upload_totals s c) as [C1 C2]; [exact Hc|].
    simpl length. split; [rewrite IH1, C1; lia|lia].
Qed.
End Counting.

(** C26: after the upload loop of [main], every record is counted once as
    a success or a failure, and every success once in the entry of its
    language, when the records are English or Chinese. *)
Theorem upload_stats_consistent lower json_loads http_env chat_env cs h :
  Forall (counted_lang lower) cs ->
  let s := value (upload_all lower json_loads http_env chat_env cs initial_stats h) in
  stat s (lit "ok") + stat s (lit "fail") = length cs /\
  stat s (lit "en") + stat s (lit "zh") = stat s (lit "ok").
Proof.
  intros Hall s. destruct (upload_all_totals lower json_loads http_env chat_env cs initial_stats h Hall)
    as [H1 H2].
  assert (Hz : stat initial_stats (lit "ok") = 0 /\ stat initial_stats (lit "fail") = 0 /\
               stat initial_stats (lit "en") = 0 /\ stat initial_stats (lit "zh") = 0)
    by (vm_compute; auto).
  subst s. lia.
Qed.

(** Two records of a document, one in each language. *)
Definition sample_records : list vigo_chunk :=
  [VigoChunk (lit "EN body") sample_meta (lit "EN"); VigoChunk (lit "ZH body") sample_meta (lit "ZH")].

Lemma upload_stats_consistent_witness :
  Forall (counted_lang ascii_lower) sample_records /\
  let s := value (upload_all ascii_lower one_question_loads failing_questions_env
                    (fun _ => one_question_chat) sample_records initial_stats []) in
  stat s (lit "ok") + stat s (lit "fail") = length sample_records /\
  stat s (lit "en") + stat s (lit "zh") = stat s (lit "ok").
Proof.
  assert (H : Forall (counted_lang ascii_lower) sample_records).
  { unfold sample_records. apply List.Forall_cons; [left; vm_compute; reflexivity|].
    apply List.Forall_cons; [right; vm_compute; reflexivity|]. apply List.Forall_nil. }
  split; [exact H|]. exact (upload_stats_consistent ascii_lower one_question_loads
                              failing_questions_env (fun _ => one_question_chat) _ [] H).
Defined.

(** ** The backup comes first *)

(** Requests that send a record to OpenAI or Supabase. *)
Definition is_upload (e : event) : bool :=
  match e with EvEmbed _ | EvInsert _ _ _ | EvQuestion _ _ _ _ => true | _ => false end.

(** Effects that neither upload nor write: chat calls and sleeps. *)
Definition quiet (e : event) : Prop := match e with EvChat _ | EvSleep _ => True | _ => False end.

(** The effects before the first write of the backup file. *)
Fixpoint before_backup (evs : list event) : list event :=
  match evs with
  | [] => []
  | EvBackup _ _ :: _ => []
  | e :: evs' => e :: before_backup evs'
  end.

Lemma before_backup_quiet A B :
  Forall quiet A -> before_backup (A ++ B) = A ++ before_backup B.
Proof.
  induction A as [|e A IH]; intros HA; [done|]. apply Forall_cons in HA as [He HA].
  destruct e; try done; simpl; by rewrite IH.
Qed.

Lemma quiet_sleeps n : Forall quiet (repeat (EvSleep 300) n).
Proof. induction n as [|n IH]; simpl; by constructor. Qed.

Lemma scan_source_quiet http_get pdf_open installed lower ps api_path filter_fn max_items :
  Forall quiet (effects (scan_source http_get pdf_open installed lower ps api_path filter_fn
                           max_items)).
Proof. rewrite scan_source_run. apply quiet_sleeps. Qed.

Lemma create_bilingual_chunks_quiet chat_api today lower ref chunks doc_type source_url :
  Forall quiet (effects (create_bilingual_chunks chat_api today lower ref chunks doc_type source_url)).
Proof.
  unfold create_bilingual_chunks. rewrite records_from_effects.
  apply Forall_concat, Forall_forall. intros l (c & -> & _)%list_elem_of_fmap.
  repeat constructor.
Qed.

Lemma fetch_all_sources_quiet http_get pdf_open installed lower bs4_installed charltons_get
    article_texts year depth :
  Forall quiet (effects (fetch_all_sources http_get pdf_open installed lower bs4_installed
                           charltons_get article_texts year depth)).
Proof.
  unfold fetch_all_sources. autorewrite with vigo_simpl.
  repeat apply Forall_app_2; apply scan_source_quiet || constructor.
Qed.

#[local] Hint Resolve scan_source_quiet create_bilingual_chunks_quiet fetch_all_sources_quiet
  : vigo.

Section Shape.
Variable http_get : pystr -> http_response.
Variable pdf_open : list Z -> pdf_result.
Variable lower : pystr -> pystr.
Variables (pdfplumber_installed bs4_installed : bool).
Variable charltons_get : http_response.
Variable article_texts : pystr -> option (list pystr).
Variable json_loads : pystr -> option json.
Variable http_env : list event -> event -> http_reply.
Variable chat_env : list event -> chat_request -> chat_response.
Variables (year : Z) (today stamp : pystr).

Lemma collect_quiet mode src c :
  collect http_get pdf_open lower pdfplumber_installed bs4_installed charltons_get article_texts
    year mode src = Some c -> Forall quiet (effects c).
Proof.
  unfold collect, test_source. repeat case_match_goal; intros [= <-]; eauto with vigo.
Qed.

Lemma expand_quiet results h :
  Forall quiet (effects (expand lower chat_env today results h)).
Proof.
  revert h. induction results as [|r rs IH]; intros h; [constructor|]. cbn [expand].
  rewrite !io_bind_effects. cbn [io_history io_lift fst snd].
  repeat apply Forall_app_2; eauto with vigo.
Qed.

Lemma main_shape mode src answer h :
  exists A B, effects (main http_get pdf_open lower pdfplumber_installed bs4_installed charltons_get
                         article_texts json_loads http_env chat_env year today stamp mode src answer h)
              = A ++ B /\ Forall quiet A /\ (B = [] \/ exists f t B', B = EvBackup f t :: B').
Proof.
  unfold main. destruct (negb _); [exists [], []; auto|].
  destruct (collect _ _ _ _ _ _ _ _ mode src) as [c|] eqn:Hc; [|exists [], []; auto].
  apply collect_quiet in Hc.
  rewrite io_bind_effects. unfold io_lift. destruct (dedup (value c)) as [|r rs].
  { exists (effects c), []. rewrite !app_nil_r. auto. }
  assert (HA : Forall quiet (effects c ++ effects (expand lower chat_env today (r :: rs) (h ++ effects c))))
    by (apply Forall_app; split; [done|]; apply expand_quiet).
  rewrite io_bind_effects. destruct (value (expand _ _ _ _ _)) as [|v vs].
  { eexists _, []. rewrite !app_nil_r. split_and!; [done|exact HA|by left]. }
  rewrite io_bind_effects. cbn [io_emit fst snd].
  eexists _, _. split; [rewrite app_assoc; reflexivity|]. split; [exact HA|].
  right. do 3 eexists. reflexivity.
Qed.
End Shape.

(** C27: no record is sent to OpenAI or Supabase before the backup file is
    written: every effect of [main] before the first write is a chat call
    or a sleep. *)
Theorem main_backup_before_upload http_get pdf_open lower pdfplumber_installed bs4_installed
    charltons_get article_texts json_loads http_env chat_env year today stamp mode src answer h :
  Forall (fun e => is_upload e = false)
    (before_backup (effects (main http_get pdf_open lower pdfplumber_installed bs4_installed
                               charltons_get article_texts json_loads http_env chat_env year today
                               stamp mode src answer h))).
Proof.
  destruct (main_shape http_get pdf_open lower pdfplumber_installed bs4_installed charltons_get
              article_texts json_loads http_env chat_env year today stamp mode src answer h)
    as (A & B & -> & HA & HB).
  rewrite before_backup_quiet by done.
  destruct HB as [-> | (f & t & B' & ->)]; rewrite ?app_nil_r; cbn [before_backup]; rewrite ?app_nil_r;
    eapply Forall_impl; [exact HA| |exact HA|]; intros [] ?; done.
Qed.

Lemma str_split_header hdr rest :
  NL ∉ hdr ->
  str_split [NL] (hdr ++ NL2 ++ rest) = hdr :: [] :: split_fuel (length rest) [NL] rest [].
Proof.
  intros Hnl. unfold str_split, NL2. cbn [app].
  rewrite split_fuel_field by (rewrite ?length_app; cbn [length]; done || lia).
  change (NL :: rest) with ([] ++ NL :: rest).
  rewrite split_fuel_field by (rewrite ?length_app; cbn [length app]; (apply not_elem_of_nil || lia)).
  rewrite length_app. cbn [length rev app]. do 3 f_equal. lia.
Qed.

(** C28: the backup of a record whose content is a one-line header, a
    blank line and a body (the shape of every record of
    [create_bilingual_chunks]) gives back the body unchanged under
    [內容], and the header without its brackets under [標題] (line 584). *)
Theorem backup_body_roundtrip hdr rest :
  NL ∉ hdr ->
  body_of (hdr ++ NL2 ++ rest) = rest /\
  title_of (hdr ++ NL2 ++ rest) = remove_char 12305 (remove_char 12304 hdr).
Proof.
  intros Hnl. unfold body_of, title_of. rewrite str_split_header by done.
  cbn [drop head default]. split; [apply join_split_fuel|done].
Qed.

Lemma backup_body_roundtrip_witness :
  let hdr := [12304%Z] ++ lit "SFC Circular - 26EC1" ++ [12305%Z] in
  let rest := lit "1. Scope of this circular." ++ [NL] ++ lit "Source: SFC Official" in
  body_of (hdr ++ NL2 ++ rest) = rest /\ title_of (hdr ++ NL2 ++ rest) = lit "SFC Circular - 26EC1".
Proof.
  intros hdr rest. destruct (backup_body_roundtrip hdr rest) as [Hb Ht];
    [apply (bool_decide_unpack (NL ∉ hdr)); vm_compute; exact I|].
  split; [exact Hb|]. rewrite Ht. vm_compute. reflexivity.
Defined.

End Pipeline.
